(** * solid-number-format: the numeric and pattern formatting pipelines

    A shallow embedding of [src/numeric_format.tsx], [src/pattern_format.tsx]
    and of the edit handler of [number_format_base], together with the
    properties the specification states about them.

    JavaScript strings are sequences of code units; they are modelled as
    lists of characters, indices as integers ([Z]) because the source
    computes with indices that may leave the range of the string (they are
    shifted by the length of a removed sign or prefix). *)

From Stdlib Require Import ZArith List Ascii String Bool Lia.
Import ListNotations.
Local Open Scope Z_scope.

Set Implicit Arguments.

(** ** JavaScript strings *)

Definition str := list ascii.

(** A string literal. *)
Definition lit (s : string) : str := list_ascii_of_string s.

Module JS.

Definition len (s : str) : Z := Z.of_nat (List.length s).

Definition ascii_eqb (a b : ascii) : bool := Ascii.eqb a b.

Fixpoint str_eqb (s t : str) : bool :=
  match s, t with
  | [], [] => true
  | a :: s', b :: t' => ascii_eqb a b && str_eqb s' t'
  | _, _ => false
  end.

(** [s[i]]: [None] stands for [undefined]. *)
Definition charAt (s : str) (i : Z) : option ascii :=
  if i <? 0 then None else nth_error s (Z.to_nat i).

(** [s[i] === t] for a string [t]: a code unit equals a string exactly when
    the string is that one code unit. *)
Definition charAt_is (s : str) (i : Z) (t : str) : bool :=
  match charAt s i, t with
  | Some c, [d] => ascii_eqb c d
  | _, _ => false
  end.

(** Index arguments of [substring] are clamped to [0 .. length]. *)
Definition clamp (s : str) (i : Z) : nat := Z.to_nat (Z.max 0 (Z.min i (len s))).

(** [s.substring(a, b)]: clamps both indices and swaps them when [a > b]. *)
Definition substring (s : str) (a b : Z) : str :=
  let a' := clamp s a in
  let b' := clamp s b in
  let lo := Nat.min a' b' in
  let hi := Nat.max a' b' in
  firstn (hi - lo) (skipn lo s).

(** [s.substring(a)]. *)
Definition substringFrom (s : str) (a : Z) : str := skipn (clamp s a) s.

Fixpoint startsWith (s p : str) : bool :=
  match p, s with
  | [], _ => true
  | b :: p', a :: s' => ascii_eqb a b && startsWith s' p'
  | _ :: _, [] => false
  end.

Definition endsWith (s p : str) : bool :=
  (List.length p <=? List.length s)%nat
  && str_eqb (skipn (List.length s - List.length p) s) p.

(** [s.indexOf(p)]: the first index at which [p] occurs, [None] for [-1]. *)
Fixpoint indexOf (s p : str) : option nat :=
  if startsWith s p then Some O
  else match s with
       | [] => None
       | _ :: s' => option_map S (indexOf s' p)
       end.

Definition includes (s p : str) : bool :=
  match indexOf s p with Some _ => true | None => false end.

(** Membership of a string in an array of strings ([indexOf(x) !== -1],
    [includes(x)]). *)
Fixpoint mem (x : str) (l : list str) : bool :=
  match l with
  | [] => false
  | y :: l' => str_eqb y x || mem x l'
  end.

(** Membership of [s[i]] in an array of strings; [undefined] is in none. *)
Definition charAt_mem (s : str) (i : Z) (l : list str) : bool :=
  match charAt s i with
  | Some c => mem [c] l
  | None => false
  end.

Definition nonEmpty (s : str) : bool :=
  match s with [] => false | _ => true end.

Definition isDigit (c : ascii) : bool :=
  let n := nat_of_ascii c in ((48 <=? n) && (n <=? 57))%nat.

(** Line terminators, which [.] of a regular expression does not match. *)
Definition isLineTerminator (c : ascii) : bool :=
  let n := nat_of_ascii c in ((n =? 10) || (n =? 13))%nat.

Definition dash : ascii := "-"%char.
Definition dot : ascii := "."%char.

(** Truthiness of an optional boolean ([undefined] is falsy). *)
Definition truthy (b : option bool) : bool :=
  match b with Some true => true | _ => false end.

(** [x ?? d]. *)
Definition orDefault {A} (x : option A) (d : A) : A :=
  match x with Some a => a | None => d end.

End JS.

Import JS.

(** ** Shared types ([src/types.ts]) *)

(** [{start, end}] of a changed range. *)
Record Range := mkRange { r_start : Z; r_end : Z }.

(** [ChangeMeta]: which slice of the previous formatted value ([from]) was
    replaced by which slice of the new input ([to]). *)
Record ChangeMeta := mkChangeMeta {
  from : Range;
  to : Range;
  lastValue : str
}.

(** [thousandsGroupStyle?: 'thousand' | 'lakh' | 'wan' | 'none']. *)
Inductive GroupStyle := Thousand | Lakh | Wan | NoGrouping.

(** [thousandSeparator?: boolean | string]. *)
Inductive ThousandSeparator := TSBool (b : bool) | TSString (s : str).

(** [mask?: string | string[]]. *)
Inductive Mask := MaskString (s : str) | MaskArray (l : list str).

(** [NumericFormatProps], the fields the formatting functions read.  A field
    that is left out of the props object is [None].  [decimalScale] is a
    [number] in the source; the specification makes it an integer that is at
    least 0. *)
Record NumericFormatProps := mkNumericProps {
  thousandSeparator : option ThousandSeparator;
  decimalSeparator : option str;
  allowedDecimalSeparators : option (list str);
  thousandsGroupStyle : option GroupStyle;
  decimalScale : option nat;
  fixedDecimalScale : option bool;
  allowNegative : option bool;
  suffix : option str;
  prefix : option str
}.

(** [PatternFormatProps]. *)
Record PatternFormatProps := mkPatternProps {
  pformat : str;
  mask : option Mask;
  allowEmptyFormatting : option bool;
  patternChar : option str
}.

(** What [splitDecimal] returns (the fields the callers read). *)
Record SplitDecimal := mkSplit {
  beforeDecimal : str;
  afterDecimal : str;
  addNegation : bool
}.

(** ** The helpers of [./utils]

    [src/utils.ts] is not among the sources.  The formatting functions call
    its helpers; they are taken here as an interface, and the properties
    below are proved for every implementation of it that meets the laws
    [UtilsLaws] (what the specification and the call sites say about the
    helpers).  An instance modelled from the specification is given further
    down, to evaluate the functions on concrete inputs. *)
Class Utils := {
  charIsNumber : str -> bool;
  splitDecimal : str -> option bool -> SplitDecimal;
  limitToScale : str -> nat -> bool -> str;
  applyThousandSeparator : str -> str -> GroupStyle -> str;
  getDefaultChangeMeta : str -> ChangeMeta;
  getMaskAtIndex : option Mask -> nat -> str
}.

(** ** Outcomes of functions that may throw *)

Inductive Outcome (A : Type) :=
| Returns (a : A)
| Throws (message : str).

Arguments Returns {A} a.
Arguments Throws {A} message.

(** ** [Array.prototype.fill] and indexed writes *)

Module JSArray.

(** A relative index of [fill]: a negative one counts from the end. *)
Definition relIndex (n i : Z) : nat :=
  Z.to_nat (if i <? 0 then Z.max (n + i) 0 else Z.min i n).

Fixpoint fillFrom {A} (i : nat) (a : list A) (v : A) (k f : nat) : list A :=
  match a with
  | [] => []
  | x :: a' =>
      (if (k <=? i)%nat && (i <? f)%nat then v else x) :: fillFrom (S i) a' v k f
  end.

(** [a.fill(v, s, e)]: never changes the length of [a]. *)
Definition fill {A} (a : list A) (v : A) (s e : Z) : list A :=
  let n := Z.of_nat (List.length a) in
  fillFrom O a v (relIndex n s) (relIndex n e).

Fixpoint setNth {A} (a : list A) (i : nat) (v : A) : list A :=
  match a, i with
  | [], _ => []
  | _ :: a', O => v :: a'
  | x :: a', S i' => x :: setNth a' i' v
  end.

(** [a[i] = v] on an array whose slots are [Some] value or [None] (a hole,
    read as [undefined]): an index inside the array replaces the slot, an
    index at or past the end extends the array with holes up to it, and a
    negative index (the [-1] of a failed [indexOf]) only sets a property of
    that name and leaves the elements as they are. *)
Definition assign {A} (a : list (option A)) (i : Z) (v : A) : list (option A) :=
  if i <? 0 then a
  else
    let k := Z.to_nat i in
    if (k <? List.length a)%nat then setNth a k (Some v)
    else a ++ repeat None (k - List.length a) ++ [Some v].

End JSArray.

(** ** [src/numeric_format.tsx] *)

Module Numeric.

Record Separators := mkSeparators {
  sepDecimal : str;
  sepThousand : str;
  sepAllowed : list str
}.

Definition getSeparators (props : NumericFormatProps) : Separators :=
  let decimalSeparator := orDefault (decimalSeparator props) (lit ".") in
  let thousandSeparator :=
    match thousandSeparator props with
    | Some (TSBool true) => lit ","
    | Some (TSString s) => s
    | _ => []
    end in
  let allowedDecimalSeparators :=
    orDefault (allowedDecimalSeparators props) [decimalSeparator; lit "."] in
  mkSeparators decimalSeparator thousandSeparator allowedDecimalSeparators.

(** [local.decimalScale !== 0]. *)
Definition scaleNotZero (props : NumericFormatProps) : bool :=
  match decimalScale props with Some O => false | _ => true end.

(** Truthiness of [local.decimalScale]. *)
Definition scaleTruthy (props : NumericFormatProps) : bool :=
  match decimalScale props with Some (S _) => true | _ => false end.

Definition format `{Utils} (numStr : str) (props : NumericFormatProps) : str :=
  let pre := orDefault (prefix props) [] in
  let suf := orDefault (suffix props) [] in
  (* don't apply formatting on empty string or '-' *)
  if str_eqb numStr [] || str_eqb numStr (lit "-") then numStr
  else
    let separators := getSeparators props in
    let hasDecimalSeparator :=
      (scaleNotZero props && includes numStr (lit "."))
      || (scaleTruthy props && truthy (fixedDecimalScale props)) in
    let parts := splitDecimal numStr (allowNegative props) in
    let before := beforeDecimal parts in
    let after := afterDecimal parts in
    (* apply decimal precision if its defined *)
    let after :=
      match decimalScale props with
      | Some scale => limitToScale after scale (truthy (fixedDecimalScale props))
      | None => after
      end in
    let before :=
      if nonEmpty (sepThousand separators)
      then applyThousandSeparator before (sepThousand separators)
             (orDefault (thousandsGroupStyle props) Thousand)
      else before in
    (* add prefix and suffix when there is a number present *)
    let before := if nonEmpty pre then pre ++ before else before in
    let after := if nonEmpty suf then after ++ suf else after in
    (* restore negation sign *)
    let before := if addNegation parts then dash :: before else before in
    before ++ (if hasDecimalSeparator then sepDecimal separators else []) ++ after.

(** [/(-)(.)*(-)/.test(value)]: two dashes with no line terminator between
    them.  [seen] tells that a dash was read since the last line terminator. *)
Fixpoint doubleNegation (seen : bool) (value : str) : bool :=
  match value with
  | [] => false
  | c :: rest =>
      if ascii_eqb c dash then (if seen then true else doubleNegation true rest)
      else if isLineTerminator c then doubleNegation false rest
      else doubleNegation seen rest
  end.

Definition handleNegation (value : str) (allowNegative : option bool) : str :=
  (* Check number has '-' value *)
  let hasNegation := existsb (fun c => ascii_eqb c dash) value in
  (* Check number has 2 or more '-' values *)
  let removeNegation := doubleNegation false value in
  (* remove negation *)
  let value := filter (fun c => negb (ascii_eqb c dash)) value in
  if hasNegation && negb removeNegation && truthy allowNegative
  then dash :: value
  else value.

(** The matches of [getNumberRegex(decimalSeparator, true)], that is of
    [/(^-)|[0-9]|SEP/g] where [SEP] is the separator escaped so that it
    matches itself, in the order the alternatives are tried: a dash at
    index 0, one digit, the separator.  [skip] counts the code units that
    belong to the separator matched last; an empty separator matches the
    empty string wherever the first two alternatives fail. *)
Fixpoint numberMatches (sep : str) (atStart : bool) (skip : nat) (value : str)
  : list str :=
  match value with
  | [] => match sep with [] => [[]] | _ => [] end
  | c :: rest =>
      match skip with
      | S k => numberMatches sep false k rest
      | O =>
          if atStart && ascii_eqb c dash then [c] :: numberMatches sep false O rest
          else if isDigit c then [c] :: numberMatches sep false O rest
          else if startsWith value sep
               then sep :: numberMatches sep false (Nat.pred (List.length sep)) rest
               else numberMatches sep false O rest
      end
  end.

(** [value.match(regex)]: [null] ([None]) when nothing matches. *)
Definition matchNumber (sep : str) (value : str) : option (list str) :=
  match numberMatches sep true O value with
  | [] => None
  | l => Some l
  end.

(** [(value.match(regex) || []).join('')]: remove non numeric characters. *)
Definition keepNumeric (sep : str) (value : str) : str :=
  List.concat (orDefault (matchNumber sep value) []).

(** [value.replace(new RegExp(SEP, 'g'), (match, index) => index === firstIndex
    ? '.' : '')]: the scan of the global replace, [idx] being the index in
    [value] of the code unit being read. *)
Fixpoint replaceSeparators (sep : str) (firstIndex : option nat)
    (idx skip : nat) (value : str) : str :=
  let replacement :=
    match firstIndex with
    | Some i => if (idx =? i)%nat then [dot] else []
    | None => []
    end in
  match value with
  | [] => match sep with [] => replacement | _ => [] end
  | c :: rest =>
      match skip with
      | S k => replaceSeparators sep firstIndex (S idx) k rest
      | O =>
          if startsWith value sep then
            match sep with
            | [] => replacement ++ c :: replaceSeparators sep firstIndex (S idx) O rest
            | _ => replacement
                     ++ replaceSeparators sep firstIndex (S idx)
                          (Nat.pred (List.length sep)) rest
            end
          else c :: replaceSeparators sep firstIndex (S idx) O rest
      end
  end.

(** Replace the decimal separator with [.], and only keep the first
    separator, ignore following ones. *)
Definition collapseSeparators (sep : str) (value : str) : str :=
  replaceSeparators sep (indexOf value sep) O O value.

Definition isWhiteSpace (c : ascii) : bool :=
  let n := nat_of_ascii c in (((9 <=? n) && (n <=? 13)) || (n =? 32))%nat.

Fixpoint dropWhile {A} (f : A -> bool) (l : list A) : list A :=
  match l with
  | [] => []
  | x :: l' => if f x then dropWhile f l' else l
  end.

Fixpoint takeWhile {A} (f : A -> bool) (l : list A) : list A :=
  match l with
  | [] => []
  | x :: l' => if f x then x :: takeWhile f l' else []
  end.

Definition isZero (c : ascii) : bool := ascii_eqb c "0"%char.

(** [!parseFloat(s)]: [parseFloat] skips white space, reads an optional sign
    and the longest decimal literal; the result is falsy when there is no
    literal ([NaN]) or when it denotes zero.  The mantissa decides: the
    exponent part is not read, which is exact unless a mantissa that is not
    zero underflows to zero through its exponent; the text after the
    decimal point, to which the source applies it, has no exponent. *)
Definition parseFloatFalsy (s : str) : bool :=
  let s := dropWhile isWhiteSpace s in
  let s := match s with
           | c :: s' => if ascii_eqb c dash || ascii_eqb c "+"%char then s' else s
           | [] => s
           end in
  if startsWith s (lit "Infinity") then false
  else
    let intPart := takeWhile isDigit s in
    let rest := dropWhile isDigit s in
    let fracPart := match rest with
                    | c :: rest' => if ascii_eqb c dot then takeWhile isDigit rest' else []
                    | [] => []
                    end in
    match intPart ++ fracPart with
    | [] => true
    | digits => forallb isZero digits
    end.

(** What the inner function [stripNegation] returns. *)
Record Negation := mkNegation {
  nValue : str;
  nStart : Z;
  nEnd : Z;
  nHasNegation : bool
}.

Definition stripNegation (pre suf : str) (value : str) (start end_ : Z) : Negation :=
  (* if prefix starts with - we don't allow negative number to avoid confusion
     if suffix starts with - and the value length is same as suffix length,
     then the - sign is from the suffix
     In other cases, if the value starts with - then it is a negation *)
  let '(hasNegation, hasDoubleNegation) :=
    if startsWith pre (lit "-") then (false, false)
    else if startsWith value (lit "--") then (false, true)
    else if startsWith suf (lit "-") && (len value =? len suf) then (false, false)
    else if charAt_is value 0 (lit "-") then (true, false)
    else (false, false) in
  let charsToRemove : Z := if hasDoubleNegation then 2 else if hasNegation then 1 else 0 in
  (* remove negation/double negation from start *)
  if charsToRemove =? 0 then mkNegation value start end_ hasNegation
  else mkNegation (substringFrom value charsToRemove)
         (start - charsToRemove) (end_ - charsToRemove) hasNegation.

(** The first test of [removeFormatting]: if only a number is added on empty
    input which matches with the prefix or suffix, the value is returned as
    it is. *)
Definition returnsUnchanged `{Utils} (value : str) (changeMeta : ChangeMeta)
    (props : NumericFormatProps) : bool :=
  let pre := orDefault (prefix props) [] in
  let suf := orDefault (suffix props) [] in
  charIsNumber value
  && (str_eqb value pre || str_eqb value suf)
  && str_eqb (lastValue changeMeta) [].

(** Check for any allowed decimal separator is added in the numeric format
    and replace it with decimal separator. *)
Definition replaceTypedSeparator (value : str) (changeMeta : ChangeMeta)
    (props : NumericFormatProps) : str :=
  let separators := getSeparators props in
  let toStart := r_start (to changeMeta) in
  let toEnd := r_end (to changeMeta) in
  if (toEnd - toStart =? 1) && charAt_mem value toStart (sepAllowed separators)
  then
    let separator :=
      match decimalScale props with
      | Some O => []
      | _ => sepDecimal separators
      end in
    substring value 0 toStart ++ separator ++ substring value (toStart + 1) (len value)
  else value.

(** If only prefix and suffix part is updated, the value is reset to the
    last value; if the changed range is from suffix in the updated value,
    and the suffix starts with the same characters, the change is allowed.
    [value] is the input once the typed separator is replaced. *)
Definition resetsToLastValue (value : str) (changeMeta : ChangeMeta)
    (props : NumericFormatProps) : bool :=
  let pre := orDefault (prefix props) [] in
  let suf := orDefault (suffix props) [] in
  let toMetadata :=
    stripNegation pre suf value (r_start (to changeMeta)) (r_end (to changeMeta)) in
  let fromMetadata :=
    stripNegation pre suf (lastValue changeMeta)
      (r_start (from changeMeta)) (r_end (from changeMeta)) in
  let updatedSuffixPart :=
    substring (nValue toMetadata) (nStart toMetadata) (nEnd toMetadata) in
  nonEmpty (nValue toMetadata)
  && nonEmpty (nValue fromMetadata)
  && ((nStart fromMetadata >? len (nValue fromMetadata) - len suf)
      || (nEnd fromMetadata <? len pre))
  && negb (nonEmpty updatedSuffixPart && startsWith suf updatedSuffixPart).

(** The state of [removeFormatting] once negation, prefix and suffix are
    removed and the sign is put back: the text, and [changeMeta.to] as the
    function has updated it in place. *)
Record Stripped := mkStripped {
  sText : str;
  sToStart : Z;
  sToEnd : Z
}.

Definition stripDecorations (value : str) (changeMeta : ChangeMeta)
    (props : NumericFormatProps) : Stripped :=
  let pre := orDefault (prefix props) [] in
  let suf := orDefault (suffix props) [] in
  let typed := replaceTypedSeparator value changeMeta props in
  let toMetadata :=
    stripNegation pre suf typed (r_start (to changeMeta)) (r_end (to changeMeta)) in
  let hasNegation := nHasNegation toMetadata in
  let toStart := nStart toMetadata in
  let toEnd := nEnd toMetadata in
  let fromMetadata :=
    stripNegation pre suf (lastValue changeMeta)
      (r_start (from changeMeta)) (r_end (from changeMeta)) in
  let value :=
    if resetsToLastValue typed changeMeta props
    then nValue fromMetadata
    else nValue toMetadata in
  (* remove prefix: the whole prefix if it is present on the value; if the
     prefix is partially deleted remove only the partial part of it *)
  let startIndex :=
    if startsWith value pre then len pre
    else if toStart <? len pre then toStart
    else 0 in
  let value := substringFrom value startIndex in
  (* account for deleted prefix for end *)
  let toEnd := toEnd - startIndex in
  (* remove suffix *)
  let suffixStartIndex := len value - len suf in
  let endIndex :=
    if endsWith value suf then suffixStartIndex
    else if toEnd >? suffixStartIndex then toEnd
    else if toEnd >? len value - len suf then toEnd
    else len value in
  let value := substring value 0 endIndex in
  (* add the negation back and handle for double negation *)
  let value :=
    handleNegation (if hasNegation then dash :: value else value)
      (allowNegative props) in
  mkStripped value toStart toEnd.

(** The value before the last step: non numeric characters removed, the
    first decimal separator turned into [.] and the others dropped. *)
Definition numericText (value : str) (changeMeta : ChangeMeta)
    (props : NumericFormatProps) : str :=
  let sep := sepDecimal (getSeparators props) in
  collapseSeparators sep (keepNumeric sep (sText (stripDecorations value changeMeta props))).

(** The last test of [removeFormatting]: clear only if something got deleted
    before decimal (cursor is before decimal). *)
Definition clearsValue `{Utils} (value : str) (changeMeta : ChangeMeta)
    (props : NumericFormatProps) : bool :=
  let isBeforeDecimalSeparator :=
    charAt_is value (r_end (to changeMeta)) (sepDecimal (getSeparators props)) in
  let st := stripDecorations value changeMeta props in
  let parts := splitDecimal (numericText value changeMeta props) (allowNegative props) in
  (sToEnd st - sToStart st <? r_end (from changeMeta) - r_start (from changeMeta))
  && str_eqb (beforeDecimal parts) []
  && isBeforeDecimalSeparator
  && parseFloatFalsy (afterDecimal parts).

Definition removeFormatting `{Utils} (value : str) (changeMeta : ChangeMeta)
    (props : NumericFormatProps) : str :=
  if returnsUnchanged value changeMeta props then value
  else
    let result := numericText value changeMeta props in
    if clearsValue value changeMeta props
    then
      if addNegation (splitDecimal result (allowNegative props)) then lit "-" else []
    else result.

(** [removeFormatting(value)] with the default of its second parameter. *)
Definition removeFormattingDefault `{Utils} (value : str)
    (props : NumericFormatProps) : str :=
  removeFormatting value (getDefaultChangeMeta value) props.

Definition getCaretBoundary (formattedValue : str) (props : NumericFormatProps)
  : list bool :=
  let pre := orDefault (prefix props) [] in
  let suf := orDefault (suffix props) [] in
  let boundaryAry := repeat true (List.length formattedValue + 1) in
  let hasNegation := charAt_is formattedValue 0 (lit "-") in
  (* fill for prefix and negation *)
  let boundaryAry :=
    JSArray.fill boundaryAry false 0 (len pre + (if hasNegation then 1 else 0)) in
  (* fill for suffix *)
  let valLn := len formattedValue in
  JSArray.fill boundaryAry false (valLn - len suf + 1) (valLn + 1).

(** [validateAndUpdateProps]: throws when both separators are the same,
    and turns [allowNegative] off when the prefix starts with a dash (the
    message it logs then is not modelled). *)
Definition validateAndUpdateProps (props : NumericFormatProps)
  : Outcome NumericFormatProps :=
  let separators := getSeparators props in
  let allowNeg := orDefault (allowNegative props) true in
  let pre := orDefault (prefix props) [] in
  if str_eqb (sepThousand separators) (sepDecimal separators)
  then Throws (lit "Decimal separator can't be same as thousand separator.")
  else
    let allowNeg := if startsWith pre (lit "-") && allowNeg then false else allowNeg in
    Returns (mkNumericProps
               (thousandSeparator props) (decimalSeparator props)
               (allowedDecimalSeparators props) (thousandsGroupStyle props)
               (decimalScale props) (fixedDecimalScale props)
               (Some allowNeg) (suffix props) (prefix props)).

(** What [useNumericFormat] hands to the base component, as far as the
    formatting pair goes: both functions close over the validated props. *)
Record FormatPair := mkFormatPair {
  fpFormat : str -> str;
  fpRemoveFormatting : str -> option ChangeMeta -> str
}.

Definition useNumericFormat `{Utils} (props : NumericFormatProps)
  : Outcome FormatPair :=
  (* validate props *)
  match validateAndUpdateProps props with
  | Throws m => Throws m
  | Returns props =>
      Returns (mkFormatPair
                 (fun numStr => format numStr props)
                 (fun inputValue changeMeta =>
                    removeFormatting inputValue
                      (orDefault changeMeta (getDefaultChangeMeta inputValue))
                      props))
  end.

End Numeric.

(** ** A second copy of the numeric module ([unnamed/part_001])

    The repository holds another copy of the numeric format module.  Its
    [removeFormatting] differs from the one above in four places: the test
    that resets the value to the last value reads the start of the changed
    range where the first reads the length of the last value, and is
    followed by a second test that protects the prefix; [allowNegative]
    defaults to [true]; the decimal separator that is kept is the typed
    character when one character was typed and it is an allowed decimal
    separator, else the rightmost allowed decimal separator; and the
    remaining characters are removed by a character class.  The steps the
    two copies share are taken from [Numeric]. *)

Module Variant.

(** [for (let i = value.length - 1; i >= 0; i--)]: the first index, going
    down from [n - 1], that holds an allowed decimal separator and is not
    [skip]; [-1] when there is none. *)
Fixpoint rightmostSeparator (allowed : list str) (skip : option Z) (value : str)
    (n : nat) : Z :=
  match n with
  | O => -1
  | S i =>
      if charAt_mem value (Z.of_nat i) allowed
         && match skip with Some s => negb (Z.of_nat i =? s) | None => true end
      then Z.of_nat i
      else rightmostSeparator allowed skip value i
  end.

(** [toStart] and [toEnd] are [changeMeta.to.start] and [changeMeta.to.end]
    as the function has updated them at that point, [startIndex] the number
    of characters cut at the start of the value. *)
Definition decimalSeparatorIndex (allowed : list str) (value : str)
    (toStart toEnd startIndex : Z) : Z :=
  if toEnd - toStart =? 1 then
    let adjustedTypedPos := toStart - startIndex in
    if (0 <=? adjustedTypedPos) && (adjustedTypedPos <? len value)
       && charAt_mem value adjustedTypedPos allowed
    then adjustedTypedPos
    else rightmostSeparator allowed (Some adjustedTypedPos) value (List.length value)
  else rightmostSeparator allowed None value (List.length value).

(** The loop that builds [cleanValue], from index [i] on. *)
Fixpoint cleanValue (allowed : list str) (index : Z) (value : str) (i : Z) : str :=
  match value with
  | [] => []
  | c :: rest =>
      if JS.mem [c] allowed
      then (if i =? index then dot :: cleanValue allowed index rest (i + 1)
            else cleanValue allowed index rest (i + 1))
      else c :: cleanValue allowed index rest (i + 1)
  end.

(** Remove all separators and only keep the decimal one. *)
Definition keepOneSeparator (allowed : list str) (value : str)
    (toStart toEnd startIndex : Z) : str :=
  let index := decimalSeparatorIndex allowed value toStart toEnd startIndex in
  if negb (index =? -1) then cleanValue allowed index value 0 else value.

(** [value.replace(new RegExp('[^0-9.\-' + SEP + ']', 'g'), '')], where
    [SEP] is the decimal separator escaped so that each of its characters
    stands for itself in the class: every character is removed but the
    digits, the point, the dash and the characters of the separator. *)
Definition stripOthers (sep : str) (value : str) : str :=
  filter (fun c => isDigit c || ascii_eqb c dot || ascii_eqb c dash
                   || existsb (ascii_eqb c) sep) value.

(** The state of [removeFormatting] before its separator pass. *)
Record Stripped := mkStripped {
  sText : str;
  sToStart : Z;
  sToEnd : Z;
  sStartIndex : Z
}.

Definition stripDecorations (value : str) (changeMeta : ChangeMeta)
    (props : NumericFormatProps) : Stripped :=
  let pre := orDefault (prefix props) [] in
  let suf := orDefault (suffix props) [] in
  let typed := Numeric.replaceTypedSeparator value changeMeta props in
  let toMetadata :=
    Numeric.stripNegation pre suf typed
      (r_start (to changeMeta)) (r_end (to changeMeta)) in
  let hasNegation := Numeric.nHasNegation toMetadata in
  let value := Numeric.nValue toMetadata in
  let toStart := Numeric.nStart toMetadata in
  let toEnd := Numeric.nEnd toMetadata in
  let negotiation :=
    Numeric.stripNegation pre suf (lastValue changeMeta)
      (r_start (from changeMeta)) (r_end (from changeMeta)) in
  let updatedSuffixPart := substring value toStart toEnd in
  let value :=
    if nonEmpty value
       && negb (Numeric.nStart negotiation =? 0)
       && ((Numeric.nStart negotiation
            >? len (Numeric.nValue negotiation) - len suf)
           || (Numeric.nEnd negotiation <? len pre))
       && negb (nonEmpty updatedSuffixPart && startsWith suf updatedSuffixPart)
    then Numeric.nValue negotiation
    else value in
  let value :=
    if (toStart <? len pre)
       && negb (startsWith value pre)
       && startsWith (lastValue changeMeta) pre
       && (len pre >? 0)
    then
      let isFullReplacement :=
        (r_start (from changeMeta) =? 0)
        && (r_end (from changeMeta) =? len (lastValue changeMeta)) in
      if (toEnd <? len (lastValue changeMeta)) && negb isFullReplacement
      then Numeric.nValue negotiation
      else value
    else value in
  let startIndex :=
    if startsWith value pre then len pre
    else if toStart <? len pre then toStart
    else 0 in
  let value := substringFrom value startIndex in
  let toEnd := toEnd - startIndex in
  let suffixStartIndex := len value - len suf in
  let endIndex :=
    if endsWith value suf then suffixStartIndex
    else if toEnd >? suffixStartIndex then toEnd
    else if toEnd >? len value - len suf then toEnd
    else len value in
  let value := substring value 0 endIndex in
  let value :=
    Numeric.handleNegation (if hasNegation then dash :: value else value)
      (Some (orDefault (allowNegative props) true)) in
  mkStripped value toStart toEnd startIndex.

Definition removeFormatting `{Utils} (value : str) (changeMeta : ChangeMeta)
    (props : NumericFormatProps) : str :=
  let separators := Numeric.getSeparators props in
  let isBeforeDecimalSeparator :=
    charAt_is value (r_end (to changeMeta)) (Numeric.sepDecimal separators) in
  if Numeric.returnsUnchanged value changeMeta props then value
  else
    let st := stripDecorations value changeMeta props in
    let value :=
      keepOneSeparator (Numeric.sepAllowed separators) (sText st)
        (sToStart st) (sToEnd st) (sStartIndex st) in
    (* Remove any remaining non-numeric characters except dots and minus *)
    let value := stripOthers (Numeric.sepDecimal separators) value in
    let decimal := splitDecimal value (Some (orDefault (allowNegative props) true)) in
    if (sToEnd st - sToStart st <? r_end (from changeMeta) - r_start (from changeMeta))
       && str_eqb (beforeDecimal decimal) []
       && isBeforeDecimalSeparator
       && Numeric.parseFloatFalsy (afterDecimal decimal)
    then (if addNegation decimal then lit "-" else [])
    else value.

End Variant.

(** ** What the specification says about the helpers of [./utils] *)

(** [Grouped sep digits g]: [g] is [digits] with copies of the separator
    [sep] put between, before or after some of its characters. *)
Inductive Grouped (sep : str) : str -> str -> Prop :=
| Grouped_nil : Grouped sep [] []
| Grouped_char c digits g :
    Grouped sep digits g -> Grouped sep (c :: digits) (c :: g)
| Grouped_sep digits g :
    Grouped sep digits g -> Grouped sep digits (sep ++ g).

(** A canonical value: an optional leading dash, digits, and an optional
    decimal point followed by digits. *)
Definition signText (negative : bool) : str := if negative then [dash] else [].

Definition fractionText (fraction : option str) : str :=
  match fraction with
  | Some digits => dot :: digits
  | None => []
  end.

Definition fractionDigits (fraction : option str) : str :=
  match fraction with
  | Some digits => digits
  | None => []
  end.

Definition canonicalValue (negative : bool) (whole : str) (fraction : option str) : str :=
  signText negative ++ whole ++ fractionText fraction.

Definition allDigits (s : str) : bool := forallb isDigit s.

Class UtilsLaws (U : Utils) : Prop := {
  (** a string that is told to be a number has a digit *)
  charIsNumber_has_digit :
    forall s, charIsNumber s = true -> existsb isDigit s = true;
  (** on one character, [charIsNumber] tells whether it is a digit *)
  charIsNumber_char :
    forall c, charIsNumber [c] = isDigit c;
  (** Split into before/after decimal point; the sign is kept only when
      negative numbers are allowed *)
  splitDecimal_canonical :
    forall negative whole fraction allowNeg,
      allDigits whole = true ->
      allDigits (fractionDigits fraction) = true ->
      (negative = true -> allowNeg = Some true) ->
      splitDecimal (canonicalValue negative whole fraction) allowNeg
      = mkSplit whole (fractionDigits fraction) negative;
  (** a decimal part that already has the scale's length, or is shorter
      when the scale is not fixed, is left as it is *)
  limitToScale_exact :
    forall digits scale fixed,
      (List.length digits <= scale)%nat ->
      (fixed = true -> List.length digits = scale) ->
      limitToScale digits scale fixed = digits;
  (** grouping only inserts the separator *)
  applyThousandSeparator_grouped :
    forall digits sep style,
      Grouped sep digits (applyThousandSeparator digits sep style);
  (** by default the whole of the value is new, on an empty last value *)
  getDefaultChangeMeta_whole :
    forall value,
      getDefaultChangeMeta value
      = mkChangeMeta (mkRange 0 0) (mkRange 0 (len value)) []
}.

(** ** An implementation of the helpers, from the specification *)

Module UtilsModel.

(** Modelled from the spec: [charIsNumber] of [./utils] (absent from src/).
    It is applied to single characters, to tell digits from other input,
    and in [removeFormatting] to a whole value; the test "when prefix is
    multiple digit" needs it to accept a value of several digits.  Taken
    as: the argument contains a decimal digit. *)
Definition charIsNumber (s : str) : bool := existsb isDigit s.

Fixpoint removeFirstDash (s : str) : str :=
  match s with
  | [] => []
  | c :: s' => if ascii_eqb c dash then s' else c :: removeFirstDash s'
  end.

(** The text up to the first decimal point. *)
Fixpoint beforeDot (s : str) : str :=
  match s with
  | [] => []
  | c :: s' => if ascii_eqb c dot then [] else c :: beforeDot s'
  end.

(** The text after the first decimal point. *)
Fixpoint afterDot (s : str) : str :=
  match s with
  | [] => []
  | c :: s' => if ascii_eqb c dot then s' else afterDot s'
  end.

(** Modelled from the spec: [splitDecimal] of [./utils] (absent from src/):
    "Split into before/after decimal point"; the negation sign is a leading
    dash and is reattached only when negative numbers are allowed
    ([allowNegative], default true).  The decimal part ends at a second
    decimal point, if there is one. *)
Definition splitDecimal (numStr : str) (allowNegative : option bool) : SplitDecimal :=
  let hasNegation := charAt_is numStr 0 (lit "-") in
  let addNegation := hasNegation && orDefault allowNegative true in
  let numStr := removeFirstDash numStr in
  mkSplit (beforeDot numStr) (beforeDot (afterDot numStr)) addNegation.

(** Modelled from the spec: [limitToScale] of [./utils] (absent from src/):
    "decimal-scale truncation/padding ... zero-pad when fixedDecimalScale".
    The decimal part is cut to [scale] digits and, when the scale is fixed,
    padded with zeros up to it. *)
Fixpoint limitToScale (numStr : str) (scale : nat) (fixedDecimalScale : bool) : str :=
  match scale with
  | O => []
  | S scale' =>
      match numStr with
      | c :: rest => c :: limitToScale rest scale' fixedDecimalScale
      | [] => if fixedDecimalScale
              then "0"%char :: limitToScale [] scale' fixedDecimalScale
              else []
      end
  end.

(** Whether a separator follows a digit that has [remaining] digits after
    it: "thousand: groups of 3; lakh: Indian grouping, first group of 3 then
    groups of 2; wan: groups of 4; none: no grouping". *)
Definition groupEnds (style : GroupStyle) (remaining : nat) : bool :=
  match remaining with
  | O => false
  | _ =>
      match style with
      | Thousand => (remaining mod 3 =? 0)%nat
      | Wan => (remaining mod 4 =? 0)%nat
      | Lakh => (3 <=? remaining)%nat && ((remaining - 3) mod 2 =? 0)%nat
      | NoGrouping => false
      end
  end.

Fixpoint groupDigits (sep : str) (style : GroupStyle) (digits : str) : str :=
  match digits with
  | [] => []
  | c :: rest =>
      c :: (if groupEnds style (List.length rest) then sep ++ groupDigits sep style rest
            else groupDigits sep style rest)
  end.

(** Modelled from the spec: [applyThousandSeparator] of [./utils] (absent
    from src/): "apply thousands grouping to the integer part per grouping
    style".  Leading zeros are not grouped, as the test "should not apply
    thousand separator on the leading zeros #289" asks. *)
Definition applyThousandSeparator (s : str) (thousandSeparator : str)
    (thousandsGroupStyle : GroupStyle) : str :=
  Numeric.takeWhile Numeric.isZero s
  ++ groupDigits thousandSeparator thousandsGroupStyle
       (Numeric.dropWhile Numeric.isZero s).

(** Modelled from the spec: [getDefaultChangeMeta] of [./utils] (absent from
    src/), the default of [removeFormatting]'s second parameter: nothing of
    an empty last value is replaced by the whole of the value. *)
Definition getDefaultChangeMeta (value : str) : ChangeMeta :=
  mkChangeMeta (mkRange 0 0) (mkRange 0 (len value)) [].

(** Modelled from the spec: [getMaskAtIndex] of [./utils] (absent from
    src/): "mask (single-char or per-slot array placeholder)"; a slot with
    no mask of its own shows a space ("by default space is mask" in the
    tests). *)
Definition getMaskAtIndex (mask : option Mask) (index : nat) : str :=
  match mask with
  | None => lit " "
  | Some (MaskString s) => s
  | Some (MaskArray l) =>
      match nth_error l index with
      | Some (c :: s) => c :: s
      | _ => lit " "
      end
  end.

End UtilsModel.

#[export] Instance utilsModel : Utils := {
  charIsNumber := UtilsModel.charIsNumber;
  splitDecimal := UtilsModel.splitDecimal;
  limitToScale := UtilsModel.limitToScale;
  applyThousandSeparator := UtilsModel.applyThousandSeparator;
  getDefaultChangeMeta := UtilsModel.getDefaultChangeMeta;
  getMaskAtIndex := UtilsModel.getMaskAtIndex
}.

(** ** [src/pattern_format.tsx] *)

Module Pattern.

(** [props.patternChar || '#']. *)
Definition patternCharOf (props : PatternFormatProps) : str :=
  match patternChar props with
  | Some (c :: s) => c :: s
  | _ => lit "#"
  end.

(** The loop of [format] over the characters of the format string: the
    array [formattedNumberAry], one string per character of the format. *)
Fixpoint fillSlots `{Utils} (patChar : str) (msk : option Mask) (numStr : str)
    (hashCount : nat) (fmt : str) : list str :=
  match fmt with
  | [] => []
  | c :: rest =>
      if str_eqb [c] patChar
      then
        match nth_error numStr hashCount with
        | Some d => [d]
        | None => getMaskAtIndex msk hashCount
        end :: fillSlots patChar msk numStr (S hashCount) rest
      else [c] :: fillSlots patChar msk numStr hashCount rest
  end.

Definition format `{Utils} (numStr : str) (props : PatternFormatProps) : str :=
  if str_eqb numStr [] && negb (truthy (allowEmptyFormatting props)) then []
  else List.concat (fillSlots (patternCharOf props) (mask props) numStr O (pformat props)).

(** [str.replace(/[^0-9]/g, '')]. *)
Definition extractNumbers (s : str) : str := filter isDigit s.

Definition isNumericSlot (props : PatternFormatProps) (caretPos : Z) : bool :=
  charAt_is (pformat props) caretPos (patternCharOf props).

Fixpoint removeFormatChar `{Utils} (props : PatternFormatProps) (s : str)
    (startIndex : Z) : str :=
  match s with
  | [] => []
  | c :: rest =>
      if isNumericSlot props startIndex && charIsNumber [c]
      then c :: removeFormatChar props rest (startIndex + 1)
      else removeFormatChar props rest (startIndex + 1)
  end.

(** The loop over a value as long as the format: [None] when a character
    outside the numeric slots differs from the format. *)
Fixpoint matchWholeFormat `{Utils} (props : PatternFormatProps) (value : str)
    (i : Z) : option str :=
  match value with
  | [] => Some []
  | c :: rest =>
      if isNumericSlot props i
      then
        match matchWholeFormat props rest (i + 1) with
        | Some s => Some (if charIsNumber [c] then c :: s else s)
        | None => None
        end
      else if charAt_is (pformat props) i [c]
           then matchWholeFormat props rest (i + 1)
           else None
  end.

Definition removeFormatting `{Utils} (value : str) (changeMeta : ChangeMeta)
    (props : PatternFormatProps) : str :=
  (* if format doesn't have any number, remove all the non numeric characters *)
  if negb (existsb isDigit (pformat props)) then extractNumbers value
  else if (str_eqb (lastValue changeMeta) []
           || (r_end (from changeMeta) - r_start (from changeMeta)
               =? len (lastValue changeMeta)))
          && (len value =? len (pformat props))
  then
    match matchWholeFormat props value 0 with
    | Some s => s
    | None => extractNumbers value
    end
  else
    let firstSection := substring (lastValue changeMeta) 0 (r_start (from changeMeta)) in
    let middleSection := substring value (r_start (to changeMeta)) (r_end (to changeMeta)) in
    let lastSection := substringFrom (lastValue changeMeta) (r_end (from changeMeta)) in
    removeFormatChar props firstSection 0
    ++ extractNumbers middleSection
    ++ removeFormatChar props lastSection (r_end (from changeMeta)).

(** The [forEach] over the format: [maskAndIndexMap] as the list of its
    values, index by index ([None] for [undefined]). *)
Fixpoint maskAndIndexMap `{Utils} (patChar : str) (msk : option Mask)
    (hashCount : nat) (fmt : str) : list (option str) :=
  match fmt with
  | [] => []
  | c :: rest =>
      if str_eqb [c] patChar
      then Some (getMaskAtIndex msk hashCount)
             :: maskAndIndexMap patChar msk (S hashCount) rest
      else None :: maskAndIndexMap patChar msk hashCount rest
  end.

(** [firstEmptySlot]: the first numeric slot that shows its mask, [-1] when
    there is none. *)
Fixpoint firstEmptySlot (formattedValue : str) (index : Z)
    (masks : list (option str)) : Z :=
  match masks with
  | [] => -1
  | m :: rest =>
      match m with
      | Some maskAtIndex =>
          if charAt_is formattedValue index maskAtIndex then index
          else firstEmptySlot formattedValue (index + 1) rest
      | None => firstEmptySlot formattedValue (index + 1) rest
      end
  end.

(** The position is allowed if the position is not masked and valid number
    area. *)
Definition isPosAllowed (props : PatternFormatProps) (formattedValue : str)
    (masks : list (option str)) (pos : Z) : bool :=
  charAt_is (pformat props) pos (patternCharOf props)
  && negb (match (if pos <? 0 then None else nth_error masks (Z.to_nat pos)) with
           | Some (Some m) => charAt_is formattedValue pos m
           | _ => match charAt formattedValue pos with
                  | None => true
                  | Some _ => false
                  end
           end).

Fixpoint boundaryLoop (props : PatternFormatProps) (formattedValue : str)
    (masks : list (option str)) (firstEmpty : Z) (i : Z) (n : nat) : list (option bool) :=
  match n with
  | O => []
  | S n' =>
      Some ((i =? firstEmpty)
            || isPosAllowed props formattedValue masks i
            || isPosAllowed props formattedValue masks (i - 1))
        :: boundaryLoop props formattedValue masks firstEmpty (i + 1) n'
  end.

(** [format.indexOf(patternChar)], [-1] when the pattern character is not
    in the format. *)
Definition indexOfZ (s p : str) : Z :=
  match indexOf s p with
  | Some i => Z.of_nat i
  | None => -1
  end.

Definition getCaretBoundary `{Utils} (formattedValue : str)
    (props : PatternFormatProps) : list (option bool) :=
  let patChar := patternCharOf props in
  let masks := maskAndIndexMap patChar (mask props) O (pformat props) in
  let firstEmpty := firstEmptySlot formattedValue 0 masks in
  let boundaryAry :=
    boundaryLoop props formattedValue masks firstEmpty 0
      (List.length formattedValue + 1) in
  (* the first patternChar position is always allowed *)
  JSArray.assign boundaryAry (indexOfZ (pformat props) patChar) true.

End Pattern.

(** ** Where the two [removeFormatting] could throw

    Calling a method or reading a property of [undefined] or [null] throws a
    [TypeError]; nothing else in the two functions can throw (the regular
    expressions are built from the escaped separator, and [substring] and
    the index operator accept any index).  The values that may be
    [undefined] or [null] when the functions run are the change-meta, which
    the base component leaves out when it reads a formatted value back, and
    the result of [match].  Here the functions are put together again from
    their steps with each such value as an [option] and each use of it as a
    call that may throw. *)

Module MayThrow.

Definition typeError : str := lit "TypeError".

(** [x.f(...)] or [x.p]: throws when [x] is [undefined] or [null]. *)
Definition call {A B} (x : option A) (f : A -> B) : Outcome B :=
  match x with
  | Some a => Returns (f a)
  | None => Throws typeError
  end.

Definition bind {A B} (x : Outcome A) (f : A -> Outcome B) : Outcome B :=
  match x with
  | Returns a => f a
  | Throws m => Throws m
  end.

(** [x ?? d], [x || d] for an object or an array, and a parameter [x = d]:
    [d] stands for [x] when [x] is [undefined] (or [null]). *)
Definition coalesce {A} (x : option A) (d : A) : option A :=
  match x with
  | Some a => Some a
  | None => Some d
  end.

(** [removeFormatting] of [numeric_format]. *)
Definition numericRemoveFormatting `{Utils} (value : str)
    (changeMeta : option ChangeMeta) (props : NumericFormatProps) : Outcome str :=
  (* changeMeta: ChangeMeta = getDefaultChangeMeta(value); its fields are
     read from here on *)
  bind (call (coalesce changeMeta (getDefaultChangeMeta value)) (fun m => m))
    (fun changeMeta =>
       if Numeric.returnsUnchanged value changeMeta props then Returns value
       else
         let sep := Numeric.sepDecimal (Numeric.getSeparators props) in
         let text := Numeric.sText (Numeric.stripDecorations value changeMeta props) in
         (* (value.match(regex) || []).join('') *)
         bind (call (coalesce (Numeric.matchNumber sep text) []) (@List.concat ascii))
           (fun kept =>
              let result := Numeric.collapseSeparators sep kept in
              if Numeric.clearsValue value changeMeta props
              then Returns (if addNegation (splitDecimal result (allowNegative props))
                            then lit "-" else [])
              else Returns result)).

(** [removeFormatting] of [pattern_format]: the result of [format.match] is
    only tested, the characters read by index are only compared or given to
    [charIsNumber]. *)
Definition patternRemoveFormatting `{Utils} (value : str)
    (changeMeta : option ChangeMeta) (props : PatternFormatProps) : Outcome str :=
  bind (call (coalesce changeMeta (getDefaultChangeMeta value)) (fun m => m))
    (fun changeMeta => Returns (Pattern.removeFormatting value changeMeta props)).

End MayThrow.

(** ** [src/number_format_base]: the edit handler

    The handler reads and writes the input element, keeps the caret region
    recorded by the last key or mouse event, and notifies its parent through
    [onValueChange] and [onChange].  The element, the component's variables
    and the calls made to the parent are explicit state here.  The caret
    helpers of [./utils] ([findChangeRange], [getCaretPosition],
    [setCaretPosition], ...) are not among the sources: they are fields of the
    environment [Env], next to the props of the component; so is the
    assignment [el.value = v] of the browser, which may move the selection
    of the element. *)

Module Base.

(** The three properties of the input element the handler touches. *)
Record InputElement := mkInput {
  elValue : str;
  selectionStart : Z;
  selectionEnd : Z
}.

(** [caretPositionBeforeChange]. *)
Record CaretRegion := mkRegion {
  regionStart : Z;
  regionEnd : Z
}.

Inductive SourceType := SourceEvent | SourceProps.

(** [{formattedValue, value, floatValue}]; the type [F] stands for the
    floating point numbers of [floatValue]. *)
Record NumberFormatValues (F : Type) := mkValues {
  vFormattedValue : str;
  vValue : str;
  vFloatValue : option F
}.

(** A call made to the parent. *)
Inductive Notification (F : Type) :=
| OnValueChange (values : NumberFormatValues F) (source : SourceType)
| OnChange (target : InputElement).

(** The timer [timeout.setCaretTimeout] once set: the caret position and
    the value its callback will compare with. *)
Record CaretTimer := mkTimer {
  timerCaretPos : Z;
  timerValue : str
}.

Record State (F : Type) := mkState {
  input : InputElement;
  formattedValue : str;
  numAsString : str;
  caretPositionBeforeChange : option CaretRegion;
  setCaretTimeout : option CaretTimer;
  notifications : list (Notification F)
}.

(** The props of the base component and the helpers of [./utils] it calls. *)
Record Env (F : Type) := mkEnv {
  (* props *)
  format : str -> str;
  removeFormatting : str -> option ChangeMeta -> str;
  getCaretBoundary : str -> list bool;
  isAllowed : option (NumberFormatValues F -> bool);
  (* JavaScript and the DOM *)
  parseFloat : str -> option F;
  setValue : InputElement -> str -> InputElement;
  (* ./utils *)
  findChangeRange : str -> str -> Range * Range;
  findChangedRangeFromCaretPositions : CaretRegion -> Z -> Range * Range;
  geInputCaretPosition : InputElement -> Z;
  getCaretPosition : str -> str -> str -> Z -> list bool -> Z;
  getCaretPosInBoundary : str -> Z -> list bool -> Z;
  setCaretPosition : InputElement -> Z -> InputElement
}.

Arguments mkValues {F}.
Arguments OnValueChange {F}.
Arguments OnChange {F}.
Arguments mkState {F}.

(** [value.replace(/[^0-9]/g, '')] and the identity: the defaults of the
    props [removeFormatting] and [format]. *)
Definition defaultRemoveFormatting (value : str) : str := filter isDigit value.

Definition defaultFormat (value : str) : str := value.

Section Handler.

Variable F : Type.
Variable env : Env F.

Definition getValueObject (formatted numStr : str) : NumberFormatValues F :=
  mkValues formatted numStr (parseFloat env numStr).

Definition withInput (st : State F) (el : InputElement) (timer : option CaretTimer)
  : State F :=
  mkState el (formattedValue st) (numAsString st)
    (caretPositionBeforeChange st) timer (notifications st).

(** [setPatchedCaretPosition]: the element it leaves and the timer it sets;
    nothing happens when the whole input content is selected. *)
Definition setPatchedCaretPosition (st : State F) (caretPos : Z) (currentValue : str)
  : State F :=
  let el := input st in
  if (selectionStart el =? 0) && (selectionEnd el =? len (elValue el)) then st
  else withInput st (setCaretPosition env el caretPos)
         (Some (mkTimer caretPos currentValue)).

Definition getNewCaretPosition (st : State F) (inputValue newFormattedValue : str)
    (caretPos : Z) : Z :=
  let caretBoundary := getCaretBoundary env newFormattedValue in
  let updatedCaretPos :=
    getCaretPosition env newFormattedValue (formattedValue st) inputValue caretPos
      caretBoundary in
  (* correct caret position if its outside of editable area *)
  getCaretPosInBoundary env newFormattedValue updatedCaretPos caretBoundary.

(** Modelled from the spec: [_onValueChange] hands the values to
    [onFormattedValueChange] of [useInternalValues] (in [./utils]), which
    stores them and notifies the parent of the value change. *)
Definition onValueChange_ (st : State F) (values : NumberFormatValues F)
    (source : SourceType) : State F :=
  mkState (input st) (vFormattedValue values) (vValue values)
    (caretPositionBeforeChange st) (setCaretTimeout st)
    (notifications st ++ [OnValueChange values source]).

Definition updateValueAndCaretPosition (st : State F) (newFormattedValue numStr : str)
    (inputValue : str) (source : SourceType) : State F :=
  let inputValue := if nonEmpty inputValue then inputValue else elValue (input st) in
  let currentCaretPosition := geInputCaretPosition env (input st) in
  (* set the value imperatively *)
  let st := withInput st (setValue env (input st) newFormattedValue) (setCaretTimeout st) in
  (* get the caret position and set it imperatively *)
  let caretPos := getNewCaretPosition st inputValue newFormattedValue currentCaretPosition in
  let st := setPatchedCaretPosition st caretPos newFormattedValue in
  if str_eqb newFormattedValue (formattedValue st) then st
  else onValueChange_ st (getValueObject newFormattedValue numStr) source.

(** [formatInputValue]: the new state and whether the change was taken. *)
Definition formatInputValue (st : State F) (inputValue : str) (source : SourceType)
  : State F * bool :=
  let el := input st in
  let changeRange :=
    match caretPositionBeforeChange st with
    | Some region => findChangedRangeFromCaretPositions env region (selectionEnd el)
    | None => findChangeRange env (formattedValue st) inputValue
    end in
  let changeMeta := mkChangeMeta (fst changeRange) (snd changeRange) (formattedValue st) in
  let numStr := removeFormatting env inputValue (Some changeMeta) in
  let formatted := format env numStr in
  (* formatting can remove some of the number chars, so we need to find
     the number string again *)
  let numStr := removeFormatting env formatted None in
  match isAllowed env with
  | Some allowed =>
      if negb (allowed (getValueObject formatted numStr))
      then
        (* reset the caret position *)
        let currentCaretPosition := geInputCaretPosition env el in
        let caretPos :=
          getNewCaretPosition st inputValue (formattedValue st) currentCaretPosition in
        let st := withInput st (setValue env el (formattedValue st)) (setCaretTimeout st) in
        (setPatchedCaretPosition st caretPos (formattedValue st), false)
      else (updateValueAndCaretPosition st formatted numStr inputValue source, true)
  | None => (updateValueAndCaretPosition st formatted numStr inputValue source, true)
  end.

(** [_onChange]: the handler of the input event; [st] holds the element as
    the edit left it. *)
Definition onChange_ (st : State F) : State F :=
  let inputValue := elValue (input st) in
  let '(st, changed) := formatInputValue st inputValue SourceEvent in
  let st :=
    if changed
    then mkState (input st) (formattedValue st) (numAsString st)
           (caretPositionBeforeChange st) (setCaretTimeout st)
           (notifications st ++ [OnChange (input st)])
    else st in
  (* reset the position, as we have already handled the caret position *)
  mkState (input st) (formattedValue st) (numAsString st) None
    (setCaretTimeout st) (notifications st).

(** The edit was turned down by [isAllowed]. *)
Definition rejected (st : State F) : Prop :=
  exists allowed,
    isAllowed env = Some allowed /\
    let inputValue := elValue (input st) in
    let el := input st in
    let changeRange :=
      match caretPositionBeforeChange st with
      | Some region => findChangedRangeFromCaretPositions env region (selectionEnd el)
      | None => findChangeRange env (formattedValue st) inputValue
      end in
    let changeMeta := mkChangeMeta (fst changeRange) (snd changeRange) (formattedValue st) in
    let formatted := format env (removeFormatting env inputValue (Some changeMeta)) in
    allowed (getValueObject formatted (removeFormatting env formatted None)) = false.

End Handler.

End Base.

(** * Properties *)

Unset Implicit Arguments.

(** ** Strings *)

Section StringFacts.

Lemma ascii_eqb_true (a b : ascii) : ascii_eqb a b = true <-> a = b.
Proof. apply Ascii.eqb_eq. Qed.

Lemma ascii_eqb_false (a b : ascii) : ascii_eqb a b = false <-> a <> b.
Proof. apply Ascii.eqb_neq. Qed.

Lemma ascii_eqb_refl (a : ascii) : ascii_eqb a a = true.
Proof. apply Ascii.eqb_refl. Qed.

Lemma str_eqb_true (s t : str) : str_eqb s t = true <-> s = t.
Proof.
  revert t; induction s as [|a s IH]; intros [|b t]; simpl; split;
    try congruence; try reflexivity.
  - intros H. apply andb_true_iff in H as [Hab Hst].
    apply ascii_eqb_true in Hab. apply IH in Hst. congruence.
  - intros H. inversion H; subst. rewrite ascii_eqb_refl. simpl. now apply IH.
Qed.

Lemma str_eqb_refl (s : str) : str_eqb s s = true.
Proof. now apply str_eqb_true. Qed.

Lemma str_eqb_false (s t : str) : str_eqb s t = false <-> s <> t.
Proof.
  destruct (str_eqb s t) eqn:E; split; try congruence.
  - apply str_eqb_true in E. congruence.
  - intros _ H. apply str_eqb_true in H. congruence.
Qed.

Lemma len_app (s t : str) : len (s ++ t) = len s + len t.
Proof. unfold len. rewrite length_app. lia. Qed.

Lemma len_nonneg (s : str) : 0 <= len s.
Proof. unfold len. lia. Qed.

Lemma len_cons (c : ascii) (s : str) : len (c :: s) = 1 + len s.
Proof. unfold len. simpl List.length. lia. Qed.

Lemma startsWith_app (p s : str) : startsWith (p ++ s) p = true.
Proof.
  induction p as [|b p IH]; simpl.
  - now destruct s.
  - now rewrite ascii_eqb_refl.
Qed.

Lemma startsWith_nil (s : str) : startsWith s [] = true.
Proof. now destruct s. Qed.

Lemma startsWith_true (s p : str) :
  startsWith s p = true <-> exists r, s = p ++ r.
Proof.
  split.
  - revert s; induction p as [|b p IH]; intros s H.
    + now exists s.
    + destruct s as [|a s]; simpl in H; [discriminate|].
      apply andb_true_iff in H as [Hab Hs].
      apply ascii_eqb_true in Hab. destruct (IH _ Hs) as [r ->].
      exists r. now subst.
  - intros [r ->]. apply startsWith_app.
Qed.

Lemma startsWith_cons_false (c d : ascii) (s p : str) :
  c <> d -> startsWith (c :: s) (d :: p) = false.
Proof.
  intros H. simpl. apply ascii_eqb_false in H. now rewrite H.
Qed.

Lemma clamp_len (s : str) : clamp s (len s) = List.length s.
Proof. unfold clamp, len. lia. Qed.

Lemma clamp_zero (s : str) : clamp s 0 = O.
Proof. unfold clamp, len. lia. Qed.

Lemma clamp_inside (s : str) (n : nat) :
  (n <= List.length s)%nat -> clamp s (Z.of_nat n) = n.
Proof. unfold clamp, len. lia. Qed.

Lemma clamp_negative (s : str) (i : Z) : i <= 0 -> clamp s i = O.
Proof. unfold clamp, len. lia. Qed.

Lemma substringFrom_app (p s : str) : substringFrom (p ++ s) (len p) = s.
Proof.
  unfold substringFrom. unfold len at 1.
  rewrite clamp_inside by (rewrite length_app; lia).
  now rewrite skipn_app, skipn_all, Nat.sub_diag.
Qed.

Lemma substringFrom_zero (s : str) : substringFrom s 0 = s.
Proof. unfold substringFrom. now rewrite clamp_zero. Qed.

Lemma substring_zero_len (s : str) : substring s 0 (len s) = s.
Proof.
  unfold substring. rewrite clamp_zero, clamp_len. simpl.
  rewrite Nat.sub_0_r. apply firstn_all.
Qed.

Lemma substring_prefix (s t : str) : substring (s ++ t) 0 (len s) = s.
Proof.
  unfold substring. rewrite clamp_zero. unfold len.
  rewrite clamp_inside by (rewrite length_app; lia).
  simpl. rewrite Nat.sub_0_r.
  rewrite firstn_app, firstn_all, Nat.sub_diag. simpl. apply app_nil_r.
Qed.

Lemma endsWith_app (s p : str) : endsWith (s ++ p) p = true.
Proof.
  unfold endsWith. rewrite length_app.
  replace (List.length s + List.length p - List.length p)%nat
    with (List.length s) by lia.
  rewrite skipn_app, skipn_all, Nat.sub_diag. simpl.
  rewrite str_eqb_refl, andb_true_r. apply Nat.leb_le. lia.
Qed.

Lemma nonEmpty_app_l (p s : str) :
  (if nonEmpty p then p ++ s else s) = p ++ s.
Proof. now destruct p. Qed.

Lemma nonEmpty_app_r (p s : str) :
  (if nonEmpty p then s ++ p else s) = s ++ p.
Proof. destruct p; simpl; [now rewrite app_nil_r | reflexivity]. Qed.

Lemma charAt_is_head (c d : ascii) (s : str) :
  charAt_is (c :: s) 0 [d] = ascii_eqb c d.
Proof. reflexivity. Qed.

Lemma charAt_is_nil (i : Z) (t : str) : charAt_is [] i t = false.
Proof.
  unfold charAt_is, charAt. destruct (i <? 0); [reflexivity|].
  now destruct (Z.to_nat i).
Qed.

End StringFacts.

(** ** Numeric format: incomplete values and validation *)

(** C9. Incomplete values pass through [format]: for every numeric
    configuration, [format('', props)] is [''] and [format('-', props)] is
    ['-']; neither prefix, suffix, separators nor decimal padding are
    applied. *)
Theorem format_incomplete_value_unchanged `{Utils} (props : NumericFormatProps) :
  Numeric.format (lit "") props = lit ""
  /\ Numeric.format (lit "-") props = lit "-".
Proof. split; reflexivity. Qed.

(** A configuration whose separators are the same: [.] groups the
    thousands and is the default decimal separator. *)
Definition sameSeparators : NumericFormatProps :=
  mkNumericProps (Some (TSString (lit "."))) None None None None None
    (Some true) None None.

Lemma validate_throws_iff (props : NumericFormatProps) :
  (exists m, Numeric.validateAndUpdateProps props = Throws m)
  <-> Numeric.sepThousand (Numeric.getSeparators props)
      = Numeric.sepDecimal (Numeric.getSeparators props).
Proof.
  unfold Numeric.validateAndUpdateProps.
  destruct (str_eqb _ _) eqn:E.
  - apply str_eqb_true in E. split; [intros _; exact E | intros _; eexists; reflexivity].
  - apply str_eqb_false in E. split; [intros [m Hm]; discriminate | intros Heq; contradiction].
Qed.

Lemma useNumericFormat_throws_iff `{Utils} (props : NumericFormatProps) :
  (exists m, Numeric.useNumericFormat props = Throws m)
  <-> (exists m, Numeric.validateAndUpdateProps props = Throws m).
Proof.
  unfold Numeric.useNumericFormat.
  destruct (Numeric.validateAndUpdateProps props) as [props'|m].
  - split; intros [m Hm]; discriminate.
  - split; intros _; exists m; reflexivity.
Qed.

(** C4. Separators are validated when the numeric format is set up, not
    on each edit: [validateAndUpdateProps], and so [useNumericFormat] which
    calls it first, throws exactly when the resolved thousand separator
    ([,] for [true], the string when one is given, [''] otherwise) equals
    the resolved decimal separator (the given one, [.] by default); [format]
    and [removeFormatting] themselves make no such check: on a configuration
    that validation turns down they compute a result all the same. *)
Theorem validation_throws_iff_separators_equal `{Utils} (props : NumericFormatProps) :
  let thousand :=
    match thousandSeparator props with
    | Some (TSBool true) => lit ","
    | Some (TSString s) => s
    | _ => lit ""
    end in
  let decimal :=
    match decimalSeparator props with
    | Some s => s
    | None => lit "."
    end in
  ((exists m, Numeric.validateAndUpdateProps props = Throws m) <-> thousand = decimal)
  /\ ((exists m, Numeric.useNumericFormat props = Throws m) <-> thousand = decimal)
  /\ (exists m, Numeric.validateAndUpdateProps sameSeparators = Throws m)
  /\ @Numeric.format utilsModel (lit "1234.5") sameSeparators = lit "1.234.5"
  /\ Numeric.removeFormatting (lit "1.234.5")
       (mkChangeMeta (mkRange 0 0) (mkRange 0 7) (lit "")) sameSeparators
     = lit "1.2345".
Proof.
  cbv zeta.
  assert (Hv : (exists m, Numeric.validateAndUpdateProps props = Throws m)
               <-> match thousandSeparator props with
                   | Some (TSBool true) => lit ","
                   | Some (TSString s) => s
                   | _ => lit ""
                   end
                   = match decimalSeparator props with
                     | Some s => s
                     | None => lit "."
                     end).
  { rewrite validate_throws_iff. unfold Numeric.getSeparators. simpl.
    destruct (thousandSeparator props) as [[[|]|s]|], (decimalSeparator props);
      reflexivity. }
  split; [exact Hv|].
  split; [rewrite useNumericFormat_throws_iff; exact Hv|].
  split; [eexists; reflexivity|].
  split; [reflexivity|].
  unfold Numeric.removeFormatting, Numeric.returnsUnchanged.
  replace (charIsNumber (lit "1.234.5")
           && (str_eqb (lit "1.234.5") (orDefault (prefix sameSeparators) [])
               || str_eqb (lit "1.234.5") (orDefault (suffix sameSeparators) []))
           && str_eqb (lastValue (mkChangeMeta (mkRange 0 0) (mkRange 0 7) (lit ""))) [])
    with false by (simpl; now rewrite andb_false_r).
  reflexivity.
Qed.

(** ** Numeric format: the caret boundary *)

Section FillFacts.

Context {A : Type}.

Lemma fillFrom_length (a : list A) (v : A) (i k f : nat) :
  List.length (JSArray.fillFrom i a v k f) = List.length a.
Proof.
  revert i; induction a as [|x a IH]; intros i; simpl; [reflexivity|].
  now rewrite IH.
Qed.

Lemma fill_length (a : list A) (v : A) (s e : Z) :
  List.length (JSArray.fill a v s e) = List.length a.
Proof. apply fillFrom_length. Qed.

Lemma fillFrom_nth_error (a : list A) (v : A) (i k f j : nat) :
  nth_error (JSArray.fillFrom i a v k f) j
  = option_map (fun x => if (k <=? i + j)%nat && (i + j <? f)%nat then v else x)
      (nth_error a j).
Proof.
  revert i j; induction a as [|x a IH]; intros i [|j]; simpl; try reflexivity.
  - now rewrite Nat.add_0_r.
  - rewrite IH. now replace (S i + j)%nat with (i + S j)%nat by lia.
Qed.

Lemma fill_nth_error (a : list A) (v : A) (s e : Z) (j : nat) :
  nth_error (JSArray.fill a v s e) j
  = option_map
      (fun x =>
         if (JSArray.relIndex (Z.of_nat (List.length a)) s <=? j)%nat
            && (j <? JSArray.relIndex (Z.of_nat (List.length a)) e)%nat
         then v else x)
      (nth_error a j).
Proof. unfold JSArray.fill. now rewrite fillFrom_nth_error. Qed.

End FillFacts.

Lemma nth_error_repeat_true {A} (x : A) (n j : nat) :
  (j < n)%nat -> nth_error (repeat x n) j = Some x.
Proof.
  revert j; induction n as [|n IH]; intros [|j] Hj; simpl; try lia; auto.
  apply IH. lia.
Qed.

(** The slots the numeric boundary closes: the first [prefix.length] ones,
    one more when the value starts with a dash, and the last
    [suffix.length] ones. *)
Definition closedSlot (formattedValue : str) (props : NumericFormatProps) (i : nat)
  : bool :=
  let pre := orDefault (prefix props) [] in
  let suf := orDefault (suffix props) [] in
  let sign := if charAt_is formattedValue 0 (lit "-") then 1%nat else O in
  (i <? List.length pre + sign)%nat
  || (List.length formattedValue <? i + List.length suf)%nat.

(** The exact shape of the numeric boundary, whatever the lengths: the
    suffix fill starts at [valLn - suffix.length + 1], which [fill] reads
    from the end of the array when it is negative. *)
Lemma numeric_boundary_nth (formattedValue : str) (props : NumericFormatProps)
    (i : nat) :
  (i <= List.length formattedValue)%nat ->
  let pre := orDefault (prefix props) [] in
  let suf := orDefault (suffix props) [] in
  let sign := if charAt_is formattedValue 0 (lit "-") then 1 else 0 in
  let n := len formattedValue + 1 in
  nth_error (Numeric.getCaretBoundary formattedValue props) i
  = Some (negb ((Z.of_nat i <? len pre + sign)
                || (Z.of_nat (JSArray.relIndex n (len formattedValue - len suf + 1))
                    <=? Z.of_nat i))).
Proof.
  intros Hi. cbv zeta. unfold Numeric.getCaretBoundary.
  rewrite fill_nth_error, fill_nth_error, fill_length, repeat_length.
  rewrite nth_error_repeat_true by lia. unfold option_map.
  replace (Z.of_nat (List.length formattedValue + 1)) with (len formattedValue + 1)
    by (unfold len; lia).
  set (sign := if charAt_is formattedValue 0 (lit "-") then 1 else 0).
  set (n := len formattedValue + 1).
  set (k2 := JSArray.relIndex n (len formattedValue - len (orDefault (suffix props) []) + 1)).
  assert (Hsign : 0 <= sign <= 1) by (subst sign; destruct (charAt_is _ _ _); lia).
  assert (Hn : n = Z.of_nat (List.length formattedValue) + 1) by (subst n; unfold len; lia).
  assert (He2 : JSArray.relIndex n n = S (List.length formattedValue)).
  { unfold JSArray.relIndex. destruct (Z.ltb_spec n 0); lia. }
  assert (Hk1 : JSArray.relIndex n 0 = O).
  { unfold JSArray.relIndex. simpl. lia. }
  rewrite He2, Hk1.
  assert (He1 : Z.of_nat (JSArray.relIndex n (len (orDefault (prefix props) []) + sign))
                = Z.min (len (orDefault (prefix props) []) + sign) n).
  { unfold JSArray.relIndex.
    pose proof (len_nonneg (orDefault (prefix props) [])).
    destruct (Z.ltb_spec (len (orDefault (prefix props) []) + sign) 0); lia. }
  destruct (Z.ltb_spec (Z.of_nat i) (len (orDefault (prefix props) []) + sign)) as [H1|H1];
    destruct (Z.leb_spec (Z.of_nat k2) (Z.of_nat i)) as [H2|H2]; simpl.
  - destruct (Nat.leb_spec k2 i); destruct (Nat.ltb_spec i (S (List.length formattedValue)));
      simpl; try lia; reflexivity.
  - destruct (Nat.leb_spec k2 i); try lia. simpl.
    destruct (Nat.ltb_spec i (JSArray.relIndex n (len (orDefault (prefix props) []) + sign)));
      simpl; [reflexivity | lia].
  - destruct (Nat.leb_spec k2 i); destruct (Nat.ltb_spec i (S (List.length formattedValue)));
      simpl; try lia; reflexivity.
  - destruct (Nat.leb_spec k2 i); try lia. simpl.
    destruct (Nat.ltb_spec i (JSArray.relIndex n (len (orDefault (prefix props) []) + sign)));
      simpl; [lia | reflexivity].
Qed.

Lemma numeric_boundary_length (formattedValue : str) (props : NumericFormatProps) :
  List.length (Numeric.getCaretBoundary formattedValue props)
  = (List.length formattedValue + 1)%nat.
Proof.
  unfold Numeric.getCaretBoundary. now rewrite !fill_length, repeat_length.
Qed.

(** Case analysis on every comparison of the goal, then arithmetic. *)
Ltac split_comparisons :=
  repeat match goal with
         | |- context [(?a <? ?b)%nat] => destruct (Nat.ltb_spec a b)
         | |- context [(?a <=? ?b)%nat] => destruct (Nat.leb_spec a b)
         | |- context [(?a <? ?b)%Z] => destruct (Z.ltb_spec a b)
         | |- context [(?a <=? ?b)%Z] => destruct (Z.leb_spec a b)
         end;
  simpl; try reflexivity; try lia.

(** Whenever the suffix is not longer than the array, the numeric boundary
    closes exactly the slots of [closedSlot]. *)
Lemma numeric_boundary_shape (formattedValue : str) (props : NumericFormatProps)
    (i : nat) :
  (List.length (orDefault (suffix props) []) <= List.length formattedValue + 1)%nat ->
  (i <= List.length formattedValue)%nat ->
  nth_error (Numeric.getCaretBoundary formattedValue props) i
  = Some (negb (closedSlot formattedValue props i)).
Proof.
  intros Hsuf Hi. rewrite numeric_boundary_nth by exact Hi. cbv zeta.
  unfold closedSlot, JSArray.relIndex, len. f_equal. f_equal.
  destruct (charAt_is formattedValue 0 (lit "-")); split_comparisons.
Qed.

(** The two values [format] leaves alone: the boundary of [''] and of ['-']
    has the claimed shape whatever the length of the suffix. *)
Lemma numeric_boundary_shape_short (formattedValue : str)
    (props : NumericFormatProps) (i : nat) :
  formattedValue = lit "" \/ formattedValue = lit "-" ->
  (i <= List.length formattedValue)%nat ->
  nth_error (Numeric.getCaretBoundary formattedValue props) i
  = Some (negb (closedSlot formattedValue props i)).
Proof.
  intros Hfv Hi. rewrite numeric_boundary_nth by exact Hi. cbv zeta.
  unfold closedSlot, JSArray.relIndex, len. f_equal. f_equal.
  destruct Hfv as [-> | ->]; simpl in Hi; simpl List.length;
    [change (charAt_is (lit "") 0 (lit "-")) with false
    |change (charAt_is (lit "-") 0 (lit "-")) with true]; cbv iota;
    split_comparisons.
Qed.

(** A value that [format] decorates ends with the suffix. *)
Lemma format_suffix_length `{Utils} (numStr : str) (props : NumericFormatProps) :
  numStr <> lit "" -> numStr <> lit "-" ->
  (List.length (orDefault (suffix props) [])
   <= List.length (Numeric.format numStr props))%nat.
Proof.
  intros H0 H1. unfold Numeric.format.
  apply str_eqb_false in H0. apply str_eqb_false in H1.
  change (lit "") with (@nil ascii) in H0. rewrite H0, H1. simpl orb. cbv iota.
  rewrite nonEmpty_app_r. rewrite !length_app. lia.
Qed.

(** C5. The numeric caret boundary of a formatted value: for every value
    that [format] produces and every prefix and suffix, [getCaretBoundary]
    returns an array of [formattedValue.length + 1] entries which are false
    exactly at the first [prefix.length] slots (one more when the value
    starts with a dash) and at the last [suffix.length] slots, and true at
    every slot in between. *)
Theorem numeric_boundary_of_formatted_value `{Utils} (numStr : str)
    (props : NumericFormatProps) :
  let formattedValue := Numeric.format numStr props in
  let pre := orDefault (prefix props) [] in
  let suf := orDefault (suffix props) [] in
  let sign := if charAt_is formattedValue 0 (lit "-") then 1%nat else O in
  List.length (Numeric.getCaretBoundary formattedValue props)
  = (List.length formattedValue + 1)%nat
  /\ forall i,
       (i <= List.length formattedValue)%nat ->
       nth_error (Numeric.getCaretBoundary formattedValue props) i
       = Some (negb ((i <? List.length pre + sign)%nat
                     || (List.length formattedValue <? i + List.length suf)%nat)).
Proof.
  cbv zeta. split; [apply numeric_boundary_length|].
  intros i Hi.
  change (Some (negb ((i <? List.length (orDefault (prefix props) [])
                           + (if charAt_is (Numeric.format numStr props) 0 (lit "-")
                              then 1 else 0))%nat
                      || (List.length (Numeric.format numStr props)
                          <? i + List.length (orDefault (suffix props) []))%nat)))
    with (Some (negb (closedSlot (Numeric.format numStr props) props i))).
  destruct (str_eqb numStr (lit "")) eqn:E0.
  { apply str_eqb_true in E0. subst numStr.
    apply numeric_boundary_shape_short; [now left | exact Hi]. }
  destruct (str_eqb numStr (lit "-")) eqn:E1.
  { apply str_eqb_true in E1. subst numStr.
    apply numeric_boundary_shape_short; [now right | exact Hi]. }
  apply str_eqb_false in E0. apply str_eqb_false in E1.
  apply numeric_boundary_shape; [|exact Hi].
  pose proof (format_suffix_length numStr props E0 E1). lia.
Qed.

(** ** Pattern format: the caret boundary *)

Lemma boundaryLoop_length (props : PatternFormatProps) (formattedValue : str)
    (masks : list (option str)) (firstEmpty i : Z) (n : nat) :
  List.length (Pattern.boundaryLoop props formattedValue masks firstEmpty i n) = n.
Proof.
  revert i; induction n as [|n IH]; intros i; simpl; [reflexivity|].
  now rewrite IH.
Qed.

Lemma setNth_length {A} (a : list A) (i : nat) (v : A) :
  List.length (JSArray.setNth a i v) = List.length a.
Proof.
  revert i; induction a as [|x a IH]; intros [|i]; simpl; try reflexivity.
  now rewrite IH.
Qed.

Lemma assign_length {A} (a : list (option A)) (i : Z) (v : A) :
  List.length (JSArray.assign a i v)
  = Nat.max (List.length a) (Z.to_nat (i + 1)).
Proof.
  unfold JSArray.assign.
  destruct (Z.ltb_spec i 0); [lia|].
  destruct (Nat.ltb_spec (Z.to_nat i) (List.length a)).
  - rewrite setNth_length. lia.
  - rewrite !length_app, repeat_length. simpl. lia.
Qed.

(** The length of the pattern boundary: one entry per caret slot, unless
    the first pattern character of the format lies further right than the
    value is long; the write to that index then extends the array. *)
Lemma pattern_boundary_length `{Utils} (formattedValue : str)
    (props : PatternFormatProps) :
  List.length (Pattern.getCaretBoundary formattedValue props)
  = Nat.max (List.length formattedValue + 1)
      (Z.to_nat (Pattern.indexOfZ (pformat props) (Pattern.patternCharOf props) + 1)).
Proof.
  unfold Pattern.getCaretBoundary. now rewrite assign_length, boundaryLoop_length.
Qed.

Lemma pattern_boundary_length_inside `{Utils} (formattedValue : str)
    (props : PatternFormatProps) :
  Pattern.indexOfZ (pformat props) (Pattern.patternCharOf props) <= len formattedValue ->
  List.length (Pattern.getCaretBoundary formattedValue props)
  = (List.length formattedValue + 1)%nat.
Proof.
  intros Hidx. rewrite pattern_boundary_length. unfold len in Hidx. lia.
Qed.

(** A phone number pattern: the first slot for a digit is at index 4. *)
Definition phonePattern : PatternFormatProps :=
  mkPatternProps (lit "+1 (###) ### ####") None None None.

(** C6. The pattern caret boundary is meant to have one entry per caret
    slot, [formattedValue.length + 1] of them, the empty value included.
    On the empty value of a pattern whose first pattern character is at
    index 4 the source returns an array of length 5 and not 1: the closing
    write [boundaryAry[format.indexOf(patternChar)] = true] lands past the
    end of the array and extends it, leaving holes at the indices 1 to 3. *)
Theorem pattern_boundary_of_empty_value_is_extended `{Utils} :
  Pattern.format (lit "") phonePattern = lit ""
  /\ List.length (Pattern.getCaretBoundary (lit "") phonePattern) = 5%nat
  /\ (List.length (lit "") + 1 = 1)%nat
  /\ skipn 1 (Pattern.getCaretBoundary (lit "") phonePattern)
     = [None; None; None; Some true].
Proof. repeat split; reflexivity. Qed.

(** ** Pattern format: the template *)

(** The number of pattern characters among the first [i] characters of the
    format: the value of [hashCount] when the loop reaches index [i]. *)
Fixpoint slotsBefore (patChar : str) (fmt : str) (i : nat) : nat :=
  match i, fmt with
  | S i', c :: rest =>
      ((if str_eqb [c] patChar then 1 else 0) + slotsBefore patChar rest i')%nat
  | _, _ => O
  end.

Lemma fillSlots_length `{Utils} (patChar : str) (msk : option Mask) (numStr : str)
    (hashCount : nat) (fmt : str) :
  List.length (Pattern.fillSlots patChar msk numStr hashCount fmt) = List.length fmt.
Proof.
  revert hashCount; induction fmt as [|c fmt IH]; intros h; [reflexivity|].
  cbn [Pattern.fillSlots].
  destruct (str_eqb [c] patChar); cbn [List.length]; f_equal; apply IH.
Qed.

Lemma fillSlots_nth `{Utils} (patChar : str) (msk : option Mask) (numStr : str)
    (hashCount : nat) (fmt : str) (i : nat) (c : ascii) :
  nth_error fmt i = Some c ->
  nth_error (Pattern.fillSlots patChar msk numStr hashCount fmt) i
  = Some (if str_eqb [c] patChar
          then match nth_error numStr (hashCount + slotsBefore patChar fmt i) with
               | Some d => [d]
               | None => getMaskAtIndex msk (hashCount + slotsBefore patChar fmt i)
               end
          else [c]).
Proof.
  revert hashCount i c; induction fmt as [|x fmt IH]; intros h i c Hc.
  - destruct i; discriminate.
  - destruct i as [|i]; cbn [nth_error] in Hc; cbn [Pattern.fillSlots slotsBefore].
    + inversion Hc; subst x. rewrite Nat.add_0_r.
      destruct (str_eqb [c] patChar); reflexivity.
    + destruct (str_eqb [x] patChar) eqn:E; cbn [nth_error].
      * rewrite (IH (S h) i c Hc).
        now replace (S h + slotsBefore patChar fmt i)%nat
          with (h + (1 + slotsBefore patChar fmt i))%nat by lia.
      * now rewrite (IH h i c Hc).
Qed.

(** Concatenating strings of one character each keeps the positions. *)
Lemma concat_singletons_nth (l : list str) (i : nat) :
  Forall (fun s => List.length s = 1%nat) l ->
  nth_error (List.concat l) i
  = match nth_error l i with
    | Some s => nth_error s O
    | None => None
    end.
Proof.
  intros Hl. revert i; induction Hl as [|s l Hs Hl IH]; intros i; simpl.
  - now destruct i.
  - destruct s as [|a [|b s]]; simpl in Hs; try discriminate.
    destruct i; simpl; [reflexivity | apply IH].
Qed.

Lemma concat_singletons_length (l : list str) :
  Forall (fun s => List.length s = 1%nat) l ->
  List.length (List.concat l) = List.length l.
Proof.
  induction 1 as [|s l Hs Hl IH]; simpl; [reflexivity|].
  rewrite length_app, IH, Hs. reflexivity.
Qed.

Lemma fillSlots_singletons `{Utils} (patChar : str) (msk : option Mask)
    (numStr : str) (hashCount : nat) (fmt : str) :
  (forall index, List.length (getMaskAtIndex msk index) = 1%nat) ->
  Forall (fun s => List.length s = 1%nat)
    (Pattern.fillSlots patChar msk numStr hashCount fmt).
Proof.
  intros Hmask. revert hashCount; induction fmt as [|c fmt IH]; intros h;
    cbn [Pattern.fillSlots].
  - constructor.
  - destruct (str_eqb [c] patChar); constructor; try apply IH; try reflexivity.
    destruct (nth_error numStr h); [reflexivity | apply Hmask].
Qed.

(** C10. The pattern template: when [numStr] is not empty or
    [allowEmptyFormatting] is set, and the mask shows one character in every
    slot (a one character mask, or an array of such), [format] returns a
    string as long as the format string; a position whose format character
    is not the pattern character holds that character unchanged, and a
    position that holds the pattern character is filled with the next
    character of [numStr] or, when [numStr] is used up, with the mask of
    that slot. *)
Theorem pattern_format_keeps_template `{Utils} (numStr : str)
    (props : PatternFormatProps) :
  numStr <> lit "" \/ allowEmptyFormatting props = Some true ->
  (forall index, List.length (getMaskAtIndex (mask props) index) = 1%nat) ->
  let patChar := Pattern.patternCharOf props in
  let formatted := Pattern.format numStr props in
  List.length formatted = List.length (pformat props)
  /\ forall i c,
       nth_error (pformat props) i = Some c ->
       (str_eqb [c] patChar = false -> nth_error formatted i = Some c)
       /\ (str_eqb [c] patChar = true ->
           let slot := slotsBefore patChar (pformat props) i in
           exists d,
             nth_error formatted i = Some d
             /\ match nth_error numStr slot with
                | Some digit => d = digit
                | None => getMaskAtIndex (mask props) slot = [d]
                end).
Proof.
  intros Hfill Hmask. cbv zeta.
  assert (Hfmt : Pattern.format numStr props
                 = List.concat (Pattern.fillSlots (Pattern.patternCharOf props)
                                  (mask props) numStr O (pformat props))).
  { unfold Pattern.format.
    destruct Hfill as [Hne | Hallow].
    - apply str_eqb_false in Hne. change (lit "") with (@nil ascii) in Hne.
      now rewrite Hne.
    - rewrite Hallow. simpl. now rewrite andb_false_r. }
  rewrite Hfmt.
  assert (Hone : Forall (fun s => List.length s = 1%nat)
                   (Pattern.fillSlots (Pattern.patternCharOf props) (mask props)
                      numStr O (pformat props)))
    by (apply fillSlots_singletons; exact Hmask).
  split.
  - rewrite concat_singletons_length by exact Hone. apply fillSlots_length.
  - intros i c Hc.
    rewrite concat_singletons_nth by exact Hone.
    erewrite fillSlots_nth by exact Hc. cbn [Nat.add].
    split; intros Hpat; rewrite Hpat.
    + reflexivity.
    + cbv zeta.
      destruct (nth_error numStr (slotsBefore (Pattern.patternCharOf props)
                                    (pformat props) i)) as [digit|] eqn:Edigit.
      * exists digit. split; reflexivity.
      * specialize (Hmask (slotsBefore (Pattern.patternCharOf props) (pformat props) i)).
        destruct (getMaskAtIndex (mask props)
                    (slotsBefore (Pattern.patternCharOf props) (pformat props) i))
          as [|d [|d' m]]; simpl in Hmask; try discriminate.
        exists d. split; reflexivity.
Qed.

(** The template of a masked phone number, on the helpers modelled from the
    specification. *)
Lemma pattern_format_keeps_template_witness :
  let props := mkPatternProps (lit "+1 (###) ### ####") (Some (MaskString (lit "_")))
                 None None in
  (lit "4155" <> lit "" \/ allowEmptyFormatting props = Some true)
  /\ List.length (Pattern.format (lit "4155") props) = 17%nat
  /\ Pattern.format (lit "4155") props = lit "+1 (415) 5__ ____".
Proof.
  cbv zeta. split; [left; discriminate|]. split; [|reflexivity].
  refine (proj1 (@pattern_format_keeps_template utilsModel (lit "4155")
                   (mkPatternProps (lit "+1 (###) ### ####")
                      (Some (MaskString (lit "_"))) None None) _ _)).
  - left; discriminate.
  - intros index; reflexivity.
Defined.

(** ** Numeric format: the numeric text *)

(** What [keepNumeric] keeps after the first character when the separator
    is one character: the digits and the separator. *)
Definition keeps (d c : ascii) : bool := isDigit c || ascii_eqb c d.

(** What the collapse of a one character separator [d] amounts to: the
    first [d] becomes the decimal point, the later ones are dropped. *)
Fixpoint collapseFirst (d : ascii) (s : str) : str :=
  match s with
  | [] => []
  | c :: rest =>
      if ascii_eqb c d
      then dot :: filter (fun x => negb (ascii_eqb x d)) rest
      else c :: collapseFirst d rest
  end.

Section NumericText.

Lemma keepNumeric_concat (sep value : str) :
  Numeric.keepNumeric sep value = List.concat (Numeric.numberMatches sep true O value).
Proof.
  unfold Numeric.keepNumeric, Numeric.matchNumber.
  now destruct (Numeric.numberMatches sep true O value).
Qed.

Lemma startsWith_single (c d : ascii) (s : str) :
  startsWith (c :: s) [d] = ascii_eqb c d.
Proof. cbn [startsWith]. now rewrite startsWith_nil, andb_true_r. Qed.

Lemma numberMatches_single (d : ascii) (s : str) :
  List.concat (Numeric.numberMatches [d] false O s) = filter (keeps d) s.
Proof.
  induction s as [|c s IH]; [reflexivity|].
  cbn [Numeric.numberMatches andb filter]. unfold keeps at 1.
  rewrite startsWith_single.
  destruct (isDigit c) eqn:Ed; cbn [orb].
  - cbn [List.concat app]. now rewrite IH.
  - destruct (ascii_eqb c d) eqn:Ecd.
    + apply ascii_eqb_true in Ecd. subst c.
      cbn [List.length Nat.pred List.concat app]. now rewrite IH.
    + exact IH.
Qed.

Lemma keepNumeric_single (d : ascii) (s : str) :
  Numeric.keepNumeric [d] s
  = match s with
    | c :: rest => if ascii_eqb c dash then dash :: filter (keeps d) rest
                   else filter (keeps d) s
    | [] => []
    end.
Proof.
  rewrite keepNumeric_concat. destruct s as [|c s]; [reflexivity|].
  cbn [Numeric.numberMatches andb]. rewrite startsWith_single.
  destruct (ascii_eqb c dash) eqn:Edash.
  - apply ascii_eqb_true in Edash. subst c.
    cbn [List.concat app]. now rewrite numberMatches_single.
  - cbn [filter]. unfold keeps at 1.
    destruct (isDigit c) eqn:Ed; cbn [orb].
    + cbn [List.concat app]. now rewrite numberMatches_single.
    + destruct (ascii_eqb c d) eqn:Ecd.
      * apply ascii_eqb_true in Ecd. subst c.
        cbn [List.length Nat.pred List.concat app]. now rewrite numberMatches_single.
      * apply numberMatches_single.
Qed.

Lemma indexOf_single_cons (d c : ascii) (s : str) :
  indexOf (c :: s) [d]
  = if ascii_eqb c d then Some O else option_map S (indexOf s [d]).
Proof.
  cbn [indexOf]. rewrite startsWith_single. destruct (ascii_eqb c d); reflexivity.
Qed.

(** Past the first separator, every separator is replaced by nothing. *)
Lemma replaceSeparators_past (d : ascii) (i idx : nat) (s : str) :
  (i < idx)%nat ->
  Numeric.replaceSeparators [d] (Some i) idx O s
  = filter (fun x => negb (ascii_eqb x d)) s.
Proof.
  revert idx; induction s as [|c s IH]; intros idx Hlt; [reflexivity|].
  cbn [Numeric.replaceSeparators filter]. rewrite startsWith_single.
  destruct (ascii_eqb c d) eqn:Ecd; cbn [negb].
  - cbn [List.length Nat.pred].
    destruct (Nat.eqb_spec idx i); [lia|]. cbn [app].
    apply IH. lia.
  - f_equal. apply IH. lia.
Qed.

Lemma replaceSeparators_first (d : ascii) (idx : nat) (s : str) :
  Numeric.replaceSeparators [d]
    (option_map (fun i => (idx + i)%nat) (indexOf s [d])) idx O s
  = collapseFirst d s.
Proof.
  revert idx; induction s as [|c s IH]; intros idx.
  - cbn. reflexivity.
  - rewrite indexOf_single_cons.
    cbn [Numeric.replaceSeparators collapseFirst]. rewrite startsWith_single.
    destruct (ascii_eqb c d) eqn:Ecd; cbn [option_map].
    + cbn [List.length Nat.pred]. rewrite Nat.add_0_r, Nat.eqb_refl.
      cbn [app]. f_equal. apply replaceSeparators_past. lia.
    + f_equal. rewrite <- (IH (S idx)). f_equal.
      destruct (indexOf s [d]); cbn [option_map]; [f_equal; lia | reflexivity].
Qed.

Lemma collapseSeparators_single (d : ascii) (s : str) :
  Numeric.collapseSeparators [d] s = collapseFirst d s.
Proof.
  unfold Numeric.collapseSeparators. rewrite <- (replaceSeparators_first d O s).
  f_equal. destruct (indexOf s [d]); reflexivity.
Qed.

End NumericText.

(** ** Numeric format: the first separator is the decimal point *)

Section FirstSeparator.

Lemma collapseFirst_split (d : ascii) (u w : str) :
  existsb (ascii_eqb d) u = false ->
  collapseFirst d (u ++ d :: w)
  = u ++ dot :: filter (fun x => negb (ascii_eqb x d)) w.
Proof.
  induction u as [|c u IH]; intros Hu.
  - cbn [app collapseFirst]. now rewrite ascii_eqb_refl.
  - cbn [existsb] in Hu. apply orb_false_iff in Hu as [Hc Hu].
    cbn [app collapseFirst].
    replace (ascii_eqb c d) with false
      by (symmetry; apply ascii_eqb_false; apply ascii_eqb_false in Hc; congruence).
    now rewrite IH.
Qed.

Lemma collapseFirst_none (d : ascii) (s : str) :
  existsb (ascii_eqb d) s = false -> collapseFirst d s = s.
Proof.
  induction s as [|c s IH]; intros Hs; [reflexivity|].
  cbn [existsb] in Hs. apply orb_false_iff in Hs as [Hc Hs].
  cbn [collapseFirst].
  replace (ascii_eqb c d) with false
    by (symmetry; apply ascii_eqb_false; apply ascii_eqb_false in Hc; congruence).
  now rewrite IH.
Qed.

End FirstSeparator.

(** ** The implementation modelled from the specification meets the laws *)

Section ModelLaws.

Lemma isDigit_not_dash (c : ascii) : isDigit c = true -> ascii_eqb c dash = false.
Proof.
  intros H. apply ascii_eqb_false. intros ->. discriminate H.
Qed.

Lemma isDigit_not_dot (c : ascii) : isDigit c = true -> ascii_eqb c dot = false.
Proof.
  intros H. apply ascii_eqb_false. intros ->. discriminate H.
Qed.

Lemma takeWhile_dropWhile {A} (f : A -> bool) (l : list A) :
  Numeric.takeWhile f l ++ Numeric.dropWhile f l = l.
Proof.
  induction l as [|x l IH]; [reflexivity|].
  cbn [Numeric.takeWhile Numeric.dropWhile].
  destruct (f x); [cbn [app]; now rewrite IH | reflexivity].
Qed.

Lemma Grouped_refl (sep s : str) : Grouped sep s s.
Proof. induction s; constructor; assumption. Qed.

Lemma Grouped_app_l (sep a b g : str) :
  Grouped sep b g -> Grouped sep (a ++ b) (a ++ g).
Proof. intros H. induction a; [exact H | now constructor]. Qed.

Lemma groupDigits_grouped (sep : str) (style : GroupStyle) (digits : str) :
  Grouped sep digits (UtilsModel.groupDigits sep style digits).
Proof.
  induction digits as [|c digits IH]; [constructor|].
  cbn [UtilsModel.groupDigits]. constructor.
  destruct (UtilsModel.groupEnds style (List.length digits)); [now constructor | exact IH].
Qed.

Lemma removeFirstDash_digits (s : str) (rest : str) :
  allDigits s = true ->
  UtilsModel.removeFirstDash (s ++ rest) = s ++ UtilsModel.removeFirstDash rest.
Proof.
  induction s as [|c s IH]; intros Hs; [reflexivity|].
  cbn [allDigits forallb] in Hs. apply andb_true_iff in Hs as [Hc Hs].
  cbn [app UtilsModel.removeFirstDash]. rewrite (isDigit_not_dash _ Hc).
  now rewrite IH.
Qed.

Lemma beforeDot_digits (s rest : str) :
  allDigits s = true ->
  UtilsModel.beforeDot (s ++ rest) = s ++ UtilsModel.beforeDot rest.
Proof.
  induction s as [|c s IH]; intros Hs; [reflexivity|].
  cbn [allDigits forallb] in Hs. apply andb_true_iff in Hs as [Hc Hs].
  cbn [app UtilsModel.beforeDot]. rewrite (isDigit_not_dot _ Hc).
  now rewrite IH.
Qed.

Lemma afterDot_digits (s rest : str) :
  allDigits s = true ->
  UtilsModel.afterDot (s ++ rest) = UtilsModel.afterDot rest.
Proof.
  induction s as [|c s IH]; intros Hs; [reflexivity|].
  cbn [allDigits forallb] in Hs. apply andb_true_iff in Hs as [Hc Hs].
  cbn [app UtilsModel.afterDot]. rewrite (isDigit_not_dot _ Hc).
  now apply IH.
Qed.

Lemma removeFirstDash_all_digits (s : str) :
  allDigits s = true -> UtilsModel.removeFirstDash s = s.
Proof.
  intros Hs. rewrite <- (app_nil_r s) at 1.
  rewrite removeFirstDash_digits by exact Hs. apply app_nil_r.
Qed.

Lemma beforeDot_all_digits (s : str) :
  allDigits s = true -> UtilsModel.beforeDot s = s.
Proof.
  intros Hs. rewrite <- (app_nil_r s) at 1.
  rewrite beforeDot_digits by exact Hs. apply app_nil_r.
Qed.

Lemma removeFirstDash_canonical (whole : str) (fraction : option str) :
  allDigits whole = true ->
  allDigits (fractionDigits fraction) = true ->
  UtilsModel.removeFirstDash (whole ++ fractionText fraction)
  = whole ++ fractionText fraction.
Proof.
  intros Hw Hf. rewrite removeFirstDash_digits by exact Hw. f_equal.
  destruct fraction as [digits|]; cbn [fractionText fractionDigits] in *;
    [|reflexivity].
  cbn [UtilsModel.removeFirstDash]. change (ascii_eqb dot dash) with false.
  cbv iota. now rewrite removeFirstDash_all_digits.
Qed.

Lemma split_canonical_text (whole : str) (fraction : option str) :
  allDigits whole = true ->
  allDigits (fractionDigits fraction) = true ->
  UtilsModel.beforeDot (whole ++ fractionText fraction) = whole
  /\ UtilsModel.beforeDot (UtilsModel.afterDot (whole ++ fractionText fraction))
     = fractionDigits fraction.
Proof.
  intros Hw Hf.
  rewrite beforeDot_digits, afterDot_digits by exact Hw.
  destruct fraction as [digits|]; cbn [fractionText fractionDigits] in *.
  - cbn [UtilsModel.beforeDot UtilsModel.afterDot].
    rewrite ascii_eqb_refl. rewrite app_nil_r. split; [reflexivity|].
    now apply beforeDot_all_digits.
  - cbn. split; [apply app_nil_r | reflexivity].
Qed.

Lemma model_limitToScale_exact (digits : str) (scale : nat) (fixed : bool) :
  (List.length digits <= scale)%nat ->
  (fixed = true -> List.length digits = scale) ->
  UtilsModel.limitToScale digits scale fixed = digits.
Proof.
  revert digits; induction scale as [|scale IH]; intros digits Hle Hfix.
  - destruct digits; [reflexivity | simpl in Hle; lia].
  - destruct digits as [|c digits]; cbn [UtilsModel.limitToScale].
    + destruct fixed; [|reflexivity]. specialize (Hfix eq_refl). discriminate.
    + f_equal. apply IH; simpl in *; [lia|]. intros Hf. specialize (Hfix Hf). lia.
Qed.

#[export] Instance utilsModel_laws : UtilsLaws utilsModel.
Proof.
  constructor.
  - intros s Hs. exact Hs.
  - intros c. cbn. apply orb_false_r.
  - intros negative whole fraction allowNeg Hw Hf Hneg.
    cbn [splitDecimal utilsModel]. unfold UtilsModel.splitDecimal, canonicalValue.
    destruct (split_canonical_text whole fraction Hw Hf) as [Hb Ha].
    destruct negative; cbn [signText app].
    + rewrite (Hneg eq_refl).
      change (charAt_is (dash :: whole ++ fractionText fraction) 0 (lit "-")) with true.
      cbn [andb orDefault UtilsModel.removeFirstDash].
      change (ascii_eqb dash dash) with true. cbv iota.
      now rewrite Hb, Ha.
    + assert (Hhead : charAt_is (whole ++ fractionText fraction) 0 (lit "-") = false).
      { destruct whole as [|c whole].
        - destruct fraction; reflexivity.
        - cbn [allDigits forallb] in Hw. apply andb_true_iff in Hw as [Hc _].
          cbn [app]. change (lit "-") with [dash]. rewrite charAt_is_head.
          now apply isDigit_not_dash. }
      rewrite Hhead. cbn [andb].
      rewrite removeFirstDash_canonical by assumption.
      now rewrite Hb, Ha.
  - intros digits scale fixed. apply model_limitToScale_exact.
  - intros digits sep style. cbn [applyThousandSeparator utilsModel].
    unfold UtilsModel.applyThousandSeparator.
    rewrite <- (takeWhile_dropWhile Numeric.isZero digits) at 1.
    apply Grouped_app_l, groupDigits_grouped.
  - intros value. reflexivity.
Qed.

End ModelLaws.

(** ** [removeFormatting] always returns a value *)

(** The text left after stripping holds neither a digit nor the decimal
    separator. *)
Definition degenerateText (value : str) (changeMeta : ChangeMeta)
    (props : NumericFormatProps) : bool :=
  let text := Numeric.sText (Numeric.stripDecorations value changeMeta props) in
  negb (existsb isDigit text)
  && negb (includes text (Numeric.sepDecimal (Numeric.getSeparators props))).

Section NeverFails.

Lemma indexOf_none_cons (c : ascii) (s sep : str) :
  indexOf (c :: s) sep = None ->
  startsWith (c :: s) sep = false /\ indexOf s sep = None.
Proof.
  cbn [indexOf]. destruct (startsWith (c :: s) sep); [discriminate|].
  destruct (indexOf s sep); [discriminate|]. now split.
Qed.

Lemma indexOf_none_sep (s sep : str) : indexOf s sep = None -> sep <> [].
Proof.
  intros H ->. destruct s; cbn in H; discriminate.
Qed.

Lemma numberMatches_nothing (sep s : str) :
  indexOf s sep = None ->
  existsb isDigit s = false ->
  List.concat (Numeric.numberMatches sep false O s) = [].
Proof.
  induction s as [|c s IH]; intros Hidx Hdig.
  - cbn [Numeric.numberMatches]. pose proof (indexOf_none_sep _ _ Hidx).
    destruct sep; [contradiction | reflexivity].
  - apply indexOf_none_cons in Hidx as [Hsw Hidx].
    cbn [existsb] in Hdig. apply orb_false_iff in Hdig as [Hc Hdig].
    cbn [Numeric.numberMatches andb]. rewrite Hc, Hsw. now apply IH.
Qed.

Lemma keepNumeric_nothing (sep s : str) :
  indexOf s sep = None ->
  existsb isDigit s = false ->
  Numeric.keepNumeric sep s = [] \/ Numeric.keepNumeric sep s = [dash].
Proof.
  intros Hidx Hdig. rewrite keepNumeric_concat.
  destruct s as [|c s].
  - left. cbn [Numeric.numberMatches]. pose proof (indexOf_none_sep _ _ Hidx).
    destruct sep; [contradiction | reflexivity].
  - apply indexOf_none_cons in Hidx as [Hsw Hidx].
    cbn [existsb] in Hdig. apply orb_false_iff in Hdig as [Hc Hdig].
    cbn [Numeric.numberMatches andb]. rewrite Hc, Hsw.
    destruct (ascii_eqb c dash) eqn:Edash.
    + right. apply ascii_eqb_true in Edash. subst c.
      cbn [List.concat app]. now rewrite numberMatches_nothing.
    + left. now apply numberMatches_nothing.
Qed.

Lemma replaceSeparators_nothing (sep : str) (first : option nat) (idx : nat) (s : str) :
  indexOf s sep = None ->
  Numeric.replaceSeparators sep first idx O s = s.
Proof.
  revert idx; induction s as [|c s IH]; intros idx Hidx.
  - cbn [Numeric.replaceSeparators]. pose proof (indexOf_none_sep _ _ Hidx).
    destruct sep; [contradiction | reflexivity].
  - apply indexOf_none_cons in Hidx as [Hsw Hidx].
    cbn [Numeric.replaceSeparators]. rewrite Hsw. f_equal. now apply IH.
Qed.

Lemma collapseSeparators_nothing (sep s : str) :
  indexOf s sep = None -> Numeric.collapseSeparators sep s = s.
Proof. intros H. now apply replaceSeparators_nothing. Qed.

Lemma includes_false (s sep : str) : includes s sep = false -> indexOf s sep = None.
Proof. unfold includes. now destruct (indexOf s sep). Qed.

(** A text with no digit and no separator leaves nothing but a sign. *)
Lemma numericText_degenerate (value : str) (changeMeta : ChangeMeta)
    (props : NumericFormatProps) :
  degenerateText value changeMeta props = true ->
  Numeric.numericText value changeMeta props = lit ""
  \/ Numeric.numericText value changeMeta props = lit "-".
Proof.
  unfold degenerateText, Numeric.numericText.
  set (text := Numeric.sText (Numeric.stripDecorations value changeMeta props)).
  set (sep := Numeric.sepDecimal (Numeric.getSeparators props)).
  clearbody text sep.
  intros H. apply andb_true_iff in H as [Hdig Hsep].
  apply negb_true_iff in Hdig. apply negb_true_iff, includes_false in Hsep.
  destruct (keepNumeric_nothing _ _ Hsep Hdig) as [E|E]; rewrite E.
  - left. apply collapseSeparators_nothing.
    pose proof (indexOf_none_sep _ _ Hsep). destruct sep; [contradiction | reflexivity].
  - right. apply collapseSeparators_nothing.
    (* the separator is not the dash: the text starts with one *)
    destruct text as [|c text]; [rewrite keepNumeric_concat in E; cbn in E;
                                  destruct sep; discriminate|].
    destruct (indexOf_none_cons _ _ _ Hsep) as [Hsw _].
    assert (Hc : c = dash).
    { rewrite keepNumeric_concat in E. cbn [Numeric.numberMatches andb] in E.
      cbn [existsb] in Hdig. apply orb_false_iff in Hdig as [Hc Hdig].
      rewrite Hc, Hsw in E.
      destruct (ascii_eqb c dash) eqn:Edash; [now apply ascii_eqb_true in Edash|].
      rewrite numberMatches_nothing in E; [discriminate| |exact Hdig].
      now destruct (indexOf_none_cons _ _ _ Hsep). }
    subst c. pose proof (indexOf_none_sep _ _ Hsep) as Hne.
    destruct sep as [|x [|y sep]]; [contradiction| |].
    + rewrite startsWith_single in Hsw. change (lit "-") with [dash].
      cbn [indexOf]. rewrite startsWith_single, Hsw. reflexivity.
    + change (lit "-") with [dash]. cbn [indexOf startsWith].
      rewrite andb_false_r. reflexivity.
Qed.

Lemma forallb_filter_self {A} (f : A -> bool) (l : list A) :
  forallb f (filter f l) = true.
Proof.
  induction l as [|x l IH]; [reflexivity|].
  cbn [filter]. destruct (f x) eqn:E; [|exact IH]. cbn [forallb]. now rewrite E, IH.
Qed.

Lemma removeFormatChar_digits `{U : Utils} (L : UtilsLaws U)
    (props : PatternFormatProps) (s : str) (startIndex : Z) :
  allDigits (Pattern.removeFormatChar props s startIndex) = true.
Proof.
  revert startIndex; induction s as [|c s IH]; intros i; [reflexivity|].
  cbn [Pattern.removeFormatChar].
  destruct (Pattern.isNumericSlot props i); cbn [andb]; [|apply IH].
  rewrite charIsNumber_char.
  destruct (isDigit c) eqn:E; [|apply IH].
  unfold allDigits. cbn [forallb]. rewrite E. apply IH.
Qed.

Lemma matchWholeFormat_digits `{U : Utils} (L : UtilsLaws U)
    (props : PatternFormatProps) (value : str) (i : Z) (s : str) :
  Pattern.matchWholeFormat props value i = Some s -> allDigits s = true.
Proof.
  revert i s; induction value as [|c value IH]; intros i s Hs.
  - cbn in Hs. now inversion Hs.
  - cbn [Pattern.matchWholeFormat] in Hs.
    destruct (Pattern.isNumericSlot props i).
    + destruct (Pattern.matchWholeFormat props value (i + 1)) as [s'|] eqn:E;
        [|discriminate].
      inversion Hs; subst s. rewrite charIsNumber_char.
      destruct (isDigit c) eqn:Ec; [|now apply (IH (i + 1))].
      unfold allDigits. cbn [forallb]. rewrite Ec. now apply (IH (i + 1)).
    + destruct (charAt_is (pformat props) i [c]); [|discriminate].
      now apply (IH (i + 1)).
Qed.

Lemma pattern_removeFormatting_digits `{U : Utils} (L : UtilsLaws U)
    (value : str) (changeMeta : ChangeMeta) (props : PatternFormatProps) :
  allDigits (Pattern.removeFormatting value changeMeta props) = true.
Proof.
  unfold Pattern.removeFormatting, Pattern.extractNumbers.
  destruct (negb (existsb isDigit (pformat props))); [apply forallb_filter_self|].
  destruct (_ && _).
  - destruct (Pattern.matchWholeFormat props value 0) eqn:E.
    + now apply (matchWholeFormat_digits L props value 0 _ E).
    + apply forallb_filter_self.
  - unfold allDigits. rewrite !forallb_app.
    rewrite forallb_filter_self.
    pose proof (removeFormatChar_digits L props) as H. unfold allDigits in H.
    now rewrite !H.
Qed.

End NeverFails.

(** ** Numeric format: stripping a decorated value *)

Definition noDash (s : str) : bool := forallb (fun c => negb (ascii_eqb c dash)) s.

Section Stripping.

Lemma startsWith_dash_head (s : str) :
  startsWith s (lit "-") = charAt_is s 0 (lit "-").
Proof.
  destruct s as [|c s]; [reflexivity|].
  change (lit "-") with [dash]. now rewrite startsWith_single, charAt_is_head.
Qed.

Lemma startsWith_two_dashes (s : str) :
  startsWith s (lit "-") = false -> startsWith s (lit "--") = false.
Proof.
  destruct s as [|c s]; [reflexivity|].
  change (lit "-") with [dash]. change (lit "--") with [dash; dash].
  rewrite startsWith_single. intros H. cbn [startsWith]. now rewrite H.
Qed.

Lemma startsWith_app_head (p s : str) :
  startsWith (p ++ s) (lit "-") = false -> startsWith p (lit "-") = false.
Proof.
  destruct p as [|c p]; [reflexivity|].
  change (lit "-") with [dash]. cbn [app]. now rewrite !startsWith_single.
Qed.

Lemma doubleNegation_noDash (seen : bool) (s : str) :
  noDash s = true -> Numeric.doubleNegation seen s = false.
Proof.
  revert seen; induction s as [|c s IH]; intros seen Hs; [reflexivity|].
  cbn [noDash forallb] in Hs. apply andb_true_iff in Hs as [Hc Hs].
  apply negb_true_iff in Hc. cbn [Numeric.doubleNegation]. rewrite Hc.
  destruct (isLineTerminator c); now apply IH.
Qed.

Lemma filter_noDash (s : str) :
  noDash s = true -> filter (fun c => negb (ascii_eqb c dash)) s = s.
Proof.
  induction s as [|c s IH]; intros Hs; [reflexivity|].
  cbn [noDash forallb] in Hs. apply andb_true_iff in Hs as [Hc Hs].
  cbn [filter]. rewrite Hc. f_equal. now apply IH.
Qed.

Lemma existsb_dash_noDash (s : str) :
  noDash s = true -> existsb (fun c => ascii_eqb c dash) s = false.
Proof.
  induction s as [|c s IH]; intros Hs; [reflexivity|].
  cbn [noDash forallb] in Hs. apply andb_true_iff in Hs as [Hc Hs].
  apply negb_true_iff in Hc. cbn [existsb]. rewrite Hc. now apply IH.
Qed.

(** Putting the sign back on a text that holds no dash. *)
Lemma handleNegation_signed (negative : bool) (body : str) (allowNeg : option bool) :
  noDash body = true ->
  Numeric.handleNegation (if negative then dash :: body else body) allowNeg
  = signText (negative && truthy allowNeg) ++ body.
Proof.
  intros Hbody. unfold Numeric.handleNegation. destruct negative.
  - cbn [existsb filter Numeric.doubleNegation].
    change (ascii_eqb dash dash) with true. cbn [orb negb andb].
    rewrite doubleNegation_noDash, filter_noDash by exact Hbody.
    cbn [negb andb]. now destruct (truthy allowNeg).
  - rewrite existsb_dash_noDash, filter_noDash by exact Hbody. reflexivity.
Qed.

(** [stripNegation] on a value made of an optional sign and a text that
    does not start with a dash (or whose prefix does, and then the value
    has no sign). *)
Lemma stripNegation_signed (pre suf : str) (negative : bool) (text : str)
    (start end_ : Z) :
  (negative = false /\ startsWith pre (lit "-") = true)
  \/ startsWith text (lit "-") = false ->
  (negative = true -> startsWith pre (lit "-") = false) ->
  len suf <= len text ->
  Numeric.stripNegation pre suf (signText negative ++ text) start end_
  = Numeric.mkNegation text (start - len (signText negative))
      (end_ - len (signText negative)) negative.
Proof.
  intros Hhead Hpre Hlen. unfold Numeric.stripNegation.
  destruct negative; cbn [signText app].
  - rewrite (Hpre eq_refl).
    destruct Hhead as [[Hn _]|Htext]; [discriminate|].
    assert (H2 : startsWith (dash :: text) (lit "--") = false).
    { change (lit "--") with [dash; dash]. cbn [startsWith].
      change (ascii_eqb dash dash) with true. cbn [andb].
      destruct text as [|c text]; [reflexivity|].
      change (lit "-") with [dash] in Htext. rewrite startsWith_single in Htext.
      cbn [startsWith]. now rewrite Htext. }
    rewrite H2.
    assert (H3 : (len (dash :: text) =? len suf) = false).
    { apply Z.eqb_neq. rewrite len_cons. lia. }
    rewrite H3, andb_false_r.
    change (charAt_is (dash :: text) 0 (lit "-")) with true. cbv iota.
    change (1 =? 0) with false. cbv iota.
    unfold substringFrom. rewrite clamp_inside with (n := 1%nat)
      by (simpl; lia).
    reflexivity.
  - destruct (startsWith pre (lit "-")) eqn:Epre.
    + cbn. f_equal; lia.
    + destruct Hhead as [[_ Hp]|Htext]; [discriminate|].
      rewrite (startsWith_two_dashes _ Htext).
      rewrite <- startsWith_dash_head, Htext.
      destruct (startsWith suf (lit "-") && (len text =? len suf));
        cbn; f_equal; lia.
Qed.

Lemma charAt_app_middle (u w : str) (c : ascii) :
  charAt (u ++ c :: w) (len u) = Some c.
Proof.
  unfold charAt, len.
  destruct (Z.ltb_spec (Z.of_nat (List.length u)) 0); [lia|].
  rewrite Nat2Z.id. rewrite nth_error_app2 by lia. now rewrite Nat.sub_diag.
Qed.

Lemma substring_suffix (u w : str) : substring (u ++ w) (len u) (len (u ++ w)) = w.
Proof.
  unfold substring. rewrite clamp_len. unfold len.
  rewrite clamp_inside by (rewrite length_app; lia).
  rewrite length_app.
  rewrite Nat.min_l, Nat.max_r by lia.
  rewrite skipn_app, skipn_all, Nat.sub_diag. cbn [app skipn].
  replace (List.length u + List.length w - List.length u)%nat
    with (List.length w) by lia.
  apply firstn_all.
Qed.

End Stripping.

Section Framed.

(** Stripping a value made of an optional sign, the prefix, a text with no
    dash and the suffix gives the signed text back; the sign stays when
    negative numbers are allowed. *)
Lemma stripDecorations_framed (value : str) (changeMeta : ChangeMeta)
    (props : NumericFormatProps) (negative : bool) (body : str) :
  let pre := orDefault (prefix props) [] in
  let suf := orDefault (suffix props) [] in
  Numeric.replaceTypedSeparator value changeMeta props
  = signText negative ++ pre ++ body ++ suf ->
  Numeric.resetsToLastValue (signText negative ++ pre ++ body ++ suf) changeMeta props
  = false ->
  (negative = false /\ startsWith pre (lit "-") = true)
  \/ startsWith (pre ++ body ++ suf) (lit "-") = false ->
  noDash body = true ->
  Numeric.stripDecorations value changeMeta props
  = Numeric.mkStripped
      (signText (negative && truthy (allowNegative props)) ++ body)
      (r_start (to changeMeta) - len (signText negative))
      (r_end (to changeMeta) - len (signText negative) - len pre).
Proof.
  cbv zeta. intros Htyped Hreset Hhead Hbody.
  unfold Numeric.stripDecorations. rewrite Htyped, Hreset.
  assert (Hpre : negative = true ->
                 startsWith (orDefault (prefix props) []) (lit "-") = false).
  { intros ->. destruct Hhead as [[Hn _]|Htext]; [discriminate|].
    exact (startsWith_app_head _ _ Htext). }
  assert (Hlen : len (orDefault (suffix props) [])
                 <= len (orDefault (prefix props) [] ++ body
                         ++ orDefault (suffix props) [])).
  { rewrite !len_app. pose proof (len_nonneg (orDefault (prefix props) [])).
    pose proof (len_nonneg body). lia. }
  rewrite (stripNegation_signed _ _ _ _ _ _ Hhead Hpre Hlen).
  cbn [Numeric.nValue Numeric.nStart Numeric.nEnd Numeric.nHasNegation].
  rewrite startsWith_app, substringFrom_app.
  rewrite endsWith_app.
  replace (len (body ++ orDefault (suffix props) []) - len (orDefault (suffix props) []))
    with (len body) by (rewrite len_app; lia).
  rewrite substring_prefix.
  rewrite handleNegation_signed by exact Hbody.
  reflexivity.
Qed.

Lemma filter_keeps_digits (d : ascii) (s : str) :
  existsb (fun c => ascii_eqb c d) s = false ->
  filter (keeps d) s = filter isDigit s.
Proof.
  induction s as [|c s IH]; intros Hs; [reflexivity|].
  cbn [existsb] in Hs. apply orb_false_iff in Hs as [Hc Hs].
  cbn [filter]. unfold keeps at 1. rewrite Hc, orb_false_r.
  now rewrite IH.
Qed.

Lemma filter_digits_no_sep (d : ascii) (s : str) :
  isDigit d = false ->
  existsb (ascii_eqb d) (filter isDigit s) = false.
Proof.
  intros Hd. induction s as [|c s IH]; [reflexivity|].
  cbn [filter]. destruct (isDigit c) eqn:Ec; [|exact IH].
  cbn [existsb]. rewrite IH, orb_false_r.
  apply ascii_eqb_false. intros ->. congruence.
Qed.

(** The numeric characters of a signed text without dashes. *)
Lemma keepNumeric_signed (d : ascii) (sign : bool) (body : str) :
  d <> dash ->
  noDash body = true ->
  Numeric.keepNumeric [d] (signText sign ++ body)
  = signText sign ++ filter (keeps d) body.
Proof.
  intros Hd Hbody. rewrite keepNumeric_single.
  destruct sign; cbn [signText app].
  - now rewrite ascii_eqb_refl.
  - destruct body as [|c body]; [reflexivity|].
    cbn [noDash forallb] in Hbody. apply andb_true_iff in Hbody as [Hc _].
    apply negb_true_iff in Hc. now rewrite Hc.
Qed.

Lemma noDash_app (s t : str) : noDash (s ++ t) = noDash s && noDash t.
Proof. apply forallb_app. Qed.

Lemma existsb_sign_sep (d : ascii) (sign : bool) :
  d <> dash -> existsb (ascii_eqb d) (signText sign) = false.
Proof.
  intros Hd. destruct sign; [|reflexivity].
  cbn. rewrite orb_false_r. now apply ascii_eqb_false.
Qed.

End Framed.

(** ** Numeric format: a typed decimal separator *)

Section TypedSeparator.

Lemma str_eqb_longer (s t : str) :
  (List.length t < List.length s)%nat -> str_eqb s t = false.
Proof.
  intros H. apply str_eqb_false. intros ->. lia.
Qed.

End TypedSeparator.

(** ** Numeric format: the scan of the separators

    The removal of the non numeric characters and the collapse of the
    decimal separators, for a separator of any length. *)

(** [text.replace(new RegExp(SEP, 'g'), '')]: what the replacement does past
    the first separator, where its callback returns [''] for every match. *)
Definition dropSeparators (sep : str) (s : str) : str :=
  Numeric.replaceSeparators sep None O O s.

(** The test of [handleNegation] for putting one dash back in front:
    [hasNegation && !removeNegation && allowNegative]. *)
Definition keepsSign (value : str) (allowNegative : option bool) : bool :=
  existsb (fun c => ascii_eqb c dash) value
  && negb (Numeric.doubleNegation false value)
  && truthy allowNegative.

(** The decimal points of a text. *)
Definition dots (s : str) : nat := count_occ ascii_dec s dot.

(** The one point a replacement may still add when it reads index [idx]. *)
Definition pointLeft (first : option nat) (idx : nat) : nat :=
  match first with
  | Some i => if (idx <=? i)%nat then 1%nat else O
  | None => O
  end.

Section Negation.

Let notDash := fun c : ascii => negb (ascii_eqb c dash).

Lemma noDash_filter (s : str) : noDash (filter notDash s) = true.
Proof. unfold noDash. apply forallb_filter_self. Qed.

Lemma handleNegation_cases (value : str) (allowNeg : option bool) :
  (Numeric.handleNegation value allowNeg = dash :: filter notDash value
   /\ truthy allowNeg = true
   /\ Numeric.doubleNegation false value = false
   /\ existsb (fun c => ascii_eqb c dash) value = true)
  \/ (Numeric.handleNegation value allowNeg = filter notDash value
      /\ (truthy allowNeg = false
          \/ Numeric.doubleNegation false value = true
          \/ existsb (fun c => ascii_eqb c dash) value = false)).
Proof.
  unfold Numeric.handleNegation. cbv zeta.
  destruct (existsb _ value); [|right; split; [reflexivity | now right; right]].
  destruct (Numeric.doubleNegation false value);
    [right; split; [reflexivity | now right; left]|].
  destruct (truthy allowNeg);
    [left; now repeat split | right; split; [reflexivity | now left]].
Qed.

End Negation.

Section Sign.

Let notDash := fun c : ascii => negb (ascii_eqb c dash).

Lemma handleNegation_sign (value : str) (allowNeg : option bool) :
  Numeric.handleNegation value allowNeg
  = signText (keepsSign value allowNeg) ++ filter notDash value.
Proof.
  unfold Numeric.handleNegation, keepsSign. cbv zeta.
  now destruct (_ && _ && _).
Qed.

Lemma filter_signText (negative : bool) : filter notDash (signText negative) = [].
Proof. now destruct negative. Qed.

Lemma filter_keeps_notDash (d : ascii) (s : str) :
  d <> dash ->
  filter (keeps d) (filter notDash s) = filter (keeps d) s.
Proof.
  intros Hd. induction s as [|c s IH]; [reflexivity|].
  cbn [filter]. subst notDash. cbv beta.
  destruct (ascii_eqb c dash) eqn:Ec; cbn [negb filter]; [|now rewrite IH].
  apply ascii_eqb_true in Ec. subst c.
  unfold keeps at 2. change (isDigit dash) with false.
  replace (ascii_eqb dash d) with false
    by (symmetry; apply ascii_eqb_false; congruence).
  exact IH.
Qed.

Lemma filter_sep_keeps (d : ascii) (s : str) :
  isDigit d = false ->
  filter (fun x => negb (ascii_eqb x d)) (filter (keeps d) s) = filter isDigit s.
Proof.
  intros Hd. induction s as [|c s IH]; [reflexivity|].
  cbn [filter]. unfold keeps at 1.
  destruct (isDigit c) eqn:Ec; cbn [orb].
  - cbn [filter].
    replace (ascii_eqb c d) with false
      by (symmetry; apply ascii_eqb_false; intros ->; congruence).
    cbn [negb]. now rewrite IH.
  - destruct (ascii_eqb c d) eqn:Ecd; [|exact IH].
    cbn [filter]. rewrite Ecd. exact IH.
Qed.

Lemma collapseFirst_app (d : ascii) (u w : str) :
  existsb (ascii_eqb d) u = false ->
  collapseFirst d (u ++ w) = u ++ collapseFirst d w.
Proof.
  induction u as [|c u IH]; intros Hu; [reflexivity|].
  cbn [existsb] in Hu. apply orb_false_iff in Hu as [Hc Hu].
  cbn [app collapseFirst].
  replace (ascii_eqb c d) with false
    by (symmetry; apply ascii_eqb_false; apply ascii_eqb_false in Hc; congruence).
  now rewrite IH.
Qed.

End Sign.

(** As [stripDecorations_framed], for a text that may hold dashes. *)
Lemma stripDecorations_framed_text (value : str) (changeMeta : ChangeMeta)
    (props : NumericFormatProps) (negative : bool) (body : str) :
  let pre := orDefault (prefix props) [] in
  let suf := orDefault (suffix props) [] in
  Numeric.replaceTypedSeparator value changeMeta props
  = signText negative ++ pre ++ body ++ suf ->
  Numeric.resetsToLastValue (signText negative ++ pre ++ body ++ suf) changeMeta props
  = false ->
  (negative = false /\ startsWith pre (lit "-") = true)
  \/ startsWith (pre ++ body ++ suf) (lit "-") = false ->
  Numeric.sText (Numeric.stripDecorations value changeMeta props)
  = Numeric.handleNegation (if negative then dash :: body else body)
      (allowNegative props).
Proof.
  cbv zeta. intros Htyped Hreset Hhead.
  unfold Numeric.stripDecorations. rewrite Htyped, Hreset.
  assert (Hpre : negative = true ->
                 startsWith (orDefault (prefix props) []) (lit "-") = false).
  { intros ->. destruct Hhead as [[Hn _]|Htext]; [discriminate|].
    exact (startsWith_app_head _ _ Htext). }
  assert (Hlen : len (orDefault (suffix props) [])
                 <= len (orDefault (prefix props) [] ++ body
                         ++ orDefault (suffix props) [])).
  { rewrite !len_app. pose proof (len_nonneg (orDefault (prefix props) [])).
    pose proof (len_nonneg body). lia. }
  rewrite (stripNegation_signed _ _ _ _ _ _ Hhead Hpre Hlen).
  cbn [Numeric.nValue Numeric.nStart Numeric.nEnd Numeric.nHasNegation Numeric.sText].
  rewrite startsWith_app, substringFrom_app.
  rewrite endsWith_app.
  replace (len (body ++ orDefault (suffix props) []) - len (orDefault (suffix props) []))
    with (len body) by (rewrite len_app; lia).
  now rewrite substring_prefix.
Qed.

Section Scanning.

Variable sep : str.

Lemma replaceSeparators_past_any (i idx idx' skip : nat) (s : str) :
  (i < idx)%nat ->
  Numeric.replaceSeparators sep (Some i) idx skip s
  = Numeric.replaceSeparators sep None idx' skip s.
Proof.
  revert idx idx' skip; induction s as [|c s IH]; intros idx idx' skip Hlt.
  - cbn [Numeric.replaceSeparators].
    destruct (Nat.eqb_spec idx i); [lia | reflexivity].
  - cbn [Numeric.replaceSeparators].
    destruct (Nat.eqb_spec idx i); [lia|].
    destruct skip as [|k]; [|apply IH; lia].
    destruct (startsWith (c :: s) sep).
    + destruct sep; cbn [app]; [f_equal|]; apply IH; lia.
    + f_equal. apply IH. lia.
Qed.

Lemma replaceSeparators_skip (first : option nat) (idx : nat) (p s : str) :
  Numeric.replaceSeparators sep first idx (List.length p) (p ++ s)
  = Numeric.replaceSeparators sep first (idx + List.length p) O s.
Proof.
  revert idx; induction p as [|c p IH]; intros idx.
  - cbn [List.length app]. now rewrite Nat.add_0_r.
  - cbn [List.length app Numeric.replaceSeparators]. rewrite IH.
    f_equal. lia.
Qed.

Lemma replaceSeparators_shift (first : option nat) (idx skip : nat) (s : str) :
  Numeric.replaceSeparators sep (option_map S first) (S idx) skip s
  = Numeric.replaceSeparators sep first idx skip s.
Proof.
  revert idx skip; induction s as [|c s IH]; intros idx skip.
  - cbn [Numeric.replaceSeparators]. destruct first; reflexivity.
  - cbn [Numeric.replaceSeparators].
    destruct skip as [|k]; [|apply IH].
    assert (Hr : match option_map S first with
                 | Some i => if (S idx =? i)%nat then [dot] else []
                 | None => []
                 end
                 = match first with
                   | Some i => if (idx =? i)%nat then [dot] else []
                   | None => []
                   end) by (destruct first; reflexivity).
    rewrite Hr.
    destruct (startsWith (c :: s) sep); [|now rewrite IH].
    destruct sep; now rewrite IH.
Qed.

End Scanning.

Section Collapse.

Lemma replaceSeparators_empty (first : option nat) (idx : nat) (s : str) :
  (match first with Some i => (i < idx)%nat | None => True end) ->
  Numeric.replaceSeparators [] first idx O s = s.
Proof.
  revert idx; induction s as [|c s IH]; intros idx Hlt.
  - cbn [Numeric.replaceSeparators]. destruct first as [i|]; [|reflexivity].
    destruct (Nat.eqb_spec idx i); [lia | reflexivity].
  - cbn [Numeric.replaceSeparators startsWith].
    rewrite IH by (destruct first; [lia | exact I]).
    destruct first as [i|]; [|reflexivity].
    destruct (Nat.eqb_spec idx i); [lia | reflexivity].
Qed.

Lemma collapseSeparators_empty (s : str) :
  Numeric.collapseSeparators [] s = dot :: s.
Proof.
  unfold Numeric.collapseSeparators. destruct s as [|c s]; [reflexivity|].
  cbn [indexOf startsWith Numeric.replaceSeparators Nat.eqb app].
  now rewrite replaceSeparators_empty by (cbn; lia).
Qed.

Lemma dropSeparators_empty (s : str) : dropSeparators [] s = s.
Proof. apply replaceSeparators_empty. exact I. Qed.

Lemma replaceSeparators_at_first (sep : str) (idx k : nat) (s : str) :
  sep <> [] ->
  indexOf s sep = Some k ->
  Numeric.replaceSeparators sep (Some (idx + k)%nat) idx O s
  = firstn k s ++ dot :: dropSeparators sep (skipn (k + List.length sep) s).
Proof.
  intros Hsep. revert idx k; induction s as [|c s IH]; intros idx k Hidx.
  - cbn [indexOf] in Hidx. destruct sep; [contradiction | discriminate].
  - cbn [indexOf] in Hidx. cbn [Numeric.replaceSeparators].
    destruct (startsWith (c :: s) sep) eqn:Esw.
    + injection Hidx as <-. rewrite Nat.add_0_r, Nat.eqb_refl.
      apply startsWith_true in Esw as [rest Hrest].
      destruct sep as [|x sep']; [contradiction|].
      cbn [app] in Hrest. injection Hrest as -> ->.
      cbn [List.length Nat.pred firstn app Nat.add skipn].
      rewrite replaceSeparators_skip, skipn_app, skipn_all, Nat.sub_diag.
      cbn [app skipn]. f_equal.
      apply replaceSeparators_past_any. lia.
    + destruct (indexOf s sep) as [k'|] eqn:Ek; [|discriminate].
      cbn [option_map] in Hidx. injection Hidx as <-.
      cbn [firstn Nat.add skipn app]. f_equal.
      replace (idx + S k')%nat with (S idx + k')%nat by lia.
      now apply IH.
Qed.

(** The first occurrence of the separator becomes the decimal point and
    every later occurrence is dropped. *)
Lemma collapseSeparators_at_first (sep : str) (k : nat) (s : str) :
  indexOf s sep = Some k ->
  Numeric.collapseSeparators sep s
  = firstn k s ++ dot :: dropSeparators sep (skipn (k + List.length sep) s).
Proof.
  intros Hidx. destruct sep as [|x sep'] eqn:Esep.
  - assert (k = O) as ->.
    { destruct s; cbn in Hidx; now injection Hidx as <-. }
    cbn [firstn app Nat.add List.length skipn].
    now rewrite collapseSeparators_empty, dropSeparators_empty.
  - unfold Numeric.collapseSeparators. rewrite Hidx.
    apply (replaceSeparators_at_first (x :: sep') 0 k s); [discriminate | exact Hidx].
Qed.

Lemma dropSeparators_single (d : ascii) (s : str) :
  dropSeparators [d] s = filter (fun x => negb (ascii_eqb x d)) s.
Proof.
  unfold dropSeparators. generalize O at 1.
  induction s as [|c s IH]; intros idx; [reflexivity|].
  cbn [Numeric.replaceSeparators filter]. rewrite startsWith_single.
  destruct (ascii_eqb c d); cbn [negb List.length Nat.pred app].
  - apply IH.
  - f_equal. apply IH.
Qed.

End Collapse.

Section Counting.

Lemma dots_app (s t : str) : dots (s ++ t) = (dots s + dots t)%nat.
Proof. apply count_occ_app. Qed.

Lemma dots_cons (c : ascii) (s : str) :
  dots (c :: s) = ((if ascii_eqb c dot then 1 else 0) + dots s)%nat.
Proof.
  unfold dots. cbn [count_occ].
  destruct (ascii_dec c dot) as [->|Hne].
  - now rewrite ascii_eqb_refl.
  - replace (ascii_eqb c dot) with false; [reflexivity|].
    symmetry. now apply ascii_eqb_false.
Qed.

Lemma pointLeft_step (first : option nat) (idx : nat) :
  (dots (match first with
         | Some i => if (idx =? i)%nat then [dot] else []
         | None => []
         end)
   + pointLeft first (S idx) <= pointLeft first idx)%nat.
Proof.
  unfold pointLeft. destruct first as [i|]; [|cbn; lia].
  destruct (Nat.eqb_spec idx i); destruct (Nat.leb_spec (S idx) i);
    destruct (Nat.leb_spec idx i); cbn; lia.
Qed.

Lemma pointLeft_mono (first : option nat) (idx idx' : nat) :
  (idx <= idx')%nat -> (pointLeft first idx' <= pointLeft first idx)%nat.
Proof.
  unfold pointLeft. destruct first as [i|]; [|lia].
  destruct (Nat.leb_spec idx' i); destruct (Nat.leb_spec idx i); lia.
Qed.

Lemma pointLeft_at (i : nat) :
  pointLeft (Some i) i = 1%nat /\ pointLeft (Some i) (S i) = O.
Proof.
  unfold pointLeft. destruct (Nat.leb_spec i i); destruct (Nat.leb_spec (S i) i);
    split; lia.
Qed.

(** The replacement adds one point at most to those of the text. *)
Lemma replaceSeparators_dots (sep : str) (first : option nat)
    (idx skip : nat) (s : str) :
  (dots (Numeric.replaceSeparators sep first idx skip s)
   <= dots s + pointLeft first idx)%nat.
Proof.
  revert idx skip; induction s as [|c s IH]; intros idx skip.
  - cbn [Numeric.replaceSeparators]. destruct sep; [|cbn; lia].
    destruct first as [i|]; [|cbn; lia].
    destruct (Nat.eqb_spec idx i) as [->|Hne]; [|cbn; lia].
    destruct (pointLeft_at i) as [-> _]. cbn. lia.
  - cbn [Numeric.replaceSeparators]. rewrite dots_cons.
    pose proof (pointLeft_mono first idx (S idx) (Nat.le_succ_diag_r idx)) as Hmono.
    destruct skip as [|k]; [|specialize (IH (S idx) k); lia].
    assert (Hrepl : forall n out,
              (dots out <= n + dots s + pointLeft first (S idx))%nat ->
              (dots (match first with
                     | Some i => if (idx =? i)%nat then [dot] else []
                     | None => []
                     end ++ out)
               <= n + dots s + pointLeft first idx)%nat).
    { intros n out Hout. destruct first as [i|]; [|cbn [app]; lia].
      destruct (Nat.eqb_spec idx i) as [->|Hne]; [|cbn [app]; lia].
      destruct (pointLeft_at i) as [H1 H0]. rewrite H0 in Hout.
      rewrite dots_app, H1. cbn. lia. }
    destruct (startsWith (c :: s) sep).
    + destruct sep as [|x sep'].
      * apply Hrepl. rewrite dots_cons. specialize (IH (S idx) O). lia.
      * etransitivity; [apply (Hrepl O), IH | lia].
    + rewrite dots_cons. specialize (IH (S idx) O). lia.
Qed.

Lemma pointLeft_le (first : option nat) (idx : nat) : (pointLeft first idx <= 1)%nat.
Proof. unfold pointLeft. destruct first; [destruct (_ <=? _)%nat|]; lia. Qed.

Lemma allDigits_dots (s : str) : allDigits s = true -> dots s = O.
Proof.
  induction s as [|c s IH]; intros Hs; [reflexivity|].
  cbn [allDigits forallb] in Hs. apply andb_true_iff in Hs as [Hc Hs].
  rewrite dots_cons, (IH Hs).
  destruct (ascii_eqb c dot) eqn:E; [|reflexivity].
  apply ascii_eqb_true in E. subst c. discriminate Hc.
Qed.

End Counting.

Section Tokens.

Variable sep : str.

Let tokens (skip : nat) (s : str) : list str := Numeric.numberMatches sep false skip s.

(** The text [keepNumeric] keeps: a leading dash, then the digits and the
    separators matched in the rest. *)
Lemma keepNumeric_head (s : str) :
  Numeric.keepNumeric sep s
  = match s with
    | c :: rest =>
        if ascii_eqb c dash then dash :: List.concat (tokens O rest)
        else List.concat (tokens O s)
    | [] => []
    end.
Proof.
  rewrite keepNumeric_concat. subst tokens. cbv beta.
  destruct s as [|c s]; [cbn; now destruct sep|].
  cbn [Numeric.numberMatches andb].
  destruct (ascii_eqb c dash) eqn:Edash; [|reflexivity].
  apply ascii_eqb_true in Edash. now subst c.
Qed.

(** Where the separator can never be matched, only digits are kept. *)
Lemma tokens_digits (skip : nat) (s : str) :
  (forall c rest, In c s -> isDigit c = false ->
                  sep = [] \/ startsWith (c :: rest) sep = false) ->
  List.concat (tokens skip s) = filter isDigit (skipn skip s).
Proof.
  subst tokens. cbv beta.
  revert skip; induction s as [|c s IH]; intros skip Hnever.
  - cbn [Numeric.numberMatches]. rewrite skipn_nil. now destruct sep.
  - cbn [Numeric.numberMatches andb].
    assert (Hrest : forall c' rest, In c' s -> isDigit c' = false ->
                                    sep = [] \/ startsWith (c' :: rest) sep = false)
      by (intros c' rest Hin; apply Hnever; now right).
    destruct skip as [|k]; [|cbn [skipn]; now apply IH].
    cbn [skipn filter].
    destruct (isDigit c) eqn:Ed.
    + cbn [List.concat app]. rewrite (IH O Hrest). reflexivity.
    + destruct (Hnever c s (or_introl eq_refl) Ed) as [-> | Hsw].
      * cbn [startsWith List.length Nat.pred List.concat app]. now rewrite (IH O Hrest).
      * rewrite Hsw. now rewrite (IH O Hrest).
Qed.

End Tokens.

Section Aligned.

(** A separator that starts with a character [h] that is not a digit. *)
Variable h : ascii.
Variable sep' : str.
Hypothesis Hdigit : isDigit h = false.

(** What [numberMatches] yields past the first character: digits and
    copies of the separator. *)
Inductive Token : str -> Prop :=
| Token_digit c : isDigit c = true -> Token [c]
| Token_sep : Token (h :: sep').

Lemma numberMatches_tokens (skip : nat) (s : str) :
  Forall Token (Numeric.numberMatches (h :: sep') false skip s).
Proof.
  revert skip; induction s as [|c s IH]; intros skip.
  - cbn. constructor.
  - cbn [Numeric.numberMatches andb]. destruct skip as [|k]; [|apply IH].
    destruct (isDigit c) eqn:Ed.
    + constructor; [now constructor | apply IH].
    + destruct (startsWith (c :: s) (h :: sep')); [|apply IH].
      constructor; [constructor | apply IH].
Qed.

(** On digits and copies of the separator the scan of the replacement
    meets every copy: no character of a separator is left. *)
Lemma replaceSeparators_tokens (first : option nat) (l : list str) (idx : nat) :
  Forall Token l ->
  (dots (Numeric.replaceSeparators (h :: sep') first idx O (List.concat l))
   <= pointLeft first idx)%nat.
Proof.
  intros Hl. revert idx; induction Hl as [|t l Ht Hl IH]; intros idx.
  - cbn. lia.
  - pose proof (pointLeft_mono first idx (S idx) (Nat.le_succ_diag_r idx)) as Hmono.
    destruct Ht as [c Hc|].
    + cbn [List.concat app Numeric.replaceSeparators].
      assert (Hsw : startsWith (c :: List.concat l) (h :: sep') = false).
      { cbn [startsWith].
        replace (ascii_eqb c h) with false; [reflexivity|].
        symmetry. apply ascii_eqb_false. intros ->. congruence. }
      rewrite Hsw, dots_cons.
      replace (ascii_eqb c dot) with false
        by (symmetry; apply ascii_eqb_false; intros ->; discriminate Hc).
      specialize (IH (S idx)). lia.
    + cbn [List.concat].
      assert (Hsw : startsWith ((h :: sep') ++ List.concat l) (h :: sep') = true)
        by apply startsWith_app.
      cbn [app] in *. cbn [Numeric.replaceSeparators]. rewrite Hsw.
      cbn [List.length Nat.pred].
      rewrite replaceSeparators_skip, dots_app.
      specialize (IH (S idx + List.length sep')%nat).
      pose proof (pointLeft_mono first (S idx) (S idx + List.length sep')%nat
                    ltac:(lia)) as Hfar.
      assert (Hnil : dots [] = O) by reflexivity.
      assert (Hdot : dots [dot] = 1%nat) by reflexivity.
      destruct first as [i|]; [|lia].
      destruct (Nat.eqb_spec idx i) as [->|Hne]; [|lia].
      destruct (pointLeft_at i) as [H1 H0]. lia.
Qed.

End Aligned.

Section OnePoint.

Lemma noDash_In (s : str) (c : ascii) :
  noDash s = true -> In c s -> ascii_eqb c dash = false.
Proof.
  unfold noDash. rewrite forallb_forall. intros Hs Hin.
  now apply negb_true_iff, Hs.
Qed.

Lemma dots_digits (s : str) : dots (filter isDigit s) = O.
Proof. apply allDigits_dots, forallb_filter_self. Qed.

(** The separator can be matched in no text when it starts with a digit,
    and in no text without dash when it starts with a dash. *)
Lemma separator_never_matched (h : ascii) (sep' : str) (s : str) :
  isDigit h = true \/ (h = dash /\ noDash s = true) ->
  forall c rest, In c s -> isDigit c = false ->
                 h :: sep' = [] \/ startsWith (c :: rest) (h :: sep') = false.
Proof.
  intros Hh c rest Hin Hc. right. cbn [startsWith].
  replace (ascii_eqb c h) with false; [reflexivity|].
  symmetry. destruct Hh as [Hh | [-> Hs]].
  - apply ascii_eqb_false. intros ->. congruence.
  - now apply (noDash_In s).
Qed.

(** Whatever the separator, the numeric text of a string that has no dash
    past its first character holds one point at most. *)
Lemma collapse_one_point (sep text : str) :
  noDash (tl text) = true ->
  (dots (Numeric.collapseSeparators sep (Numeric.keepNumeric sep text)) <= 1)%nat.
Proof.
  intros Htail. unfold Numeric.collapseSeparators.
  set (first := indexOf (Numeric.keepNumeric sep text) sep). clearbody first.
  pose proof (pointLeft_le first O) as Hone.
  assert (Hplain : forall kept,
            dots kept = O ->
            (dots (Numeric.replaceSeparators sep first O O kept) <= 1)%nat).
  { intros kept Hkept.
    pose proof (replaceSeparators_dots sep first O O kept). lia. }
  rewrite keepNumeric_head.
  destruct text as [|c rest]; [now apply Hplain|].
  cbn [tl] in Htail.
  destruct sep as [|h sep'].
  - (* the empty separator *)
    apply Hplain.
    assert (Hnever : forall s c' rest', In c' s -> isDigit c' = false ->
                       @nil ascii = [] \/ startsWith (c' :: rest') [] = false)
      by (intros; now left).
    destruct (ascii_eqb c dash).
    + rewrite (tokens_digits [] O rest (Hnever rest)). cbn [skipn].
      rewrite dots_cons. cbn. apply dots_digits.
    + rewrite (tokens_digits [] O (c :: rest) (Hnever (c :: rest))). apply dots_digits.
  - destruct (isDigit h) eqn:Hdigit.
    + (* the separator starts with a digit *)
      apply Hplain. destruct (ascii_eqb c dash).
      * rewrite (tokens_digits (h :: sep') O rest
                   (separator_never_matched h sep' rest (or_introl Hdigit))).
        rewrite dots_cons. cbn. apply dots_digits.
      * rewrite (tokens_digits (h :: sep') O (c :: rest)
                   (separator_never_matched h sep' (c :: rest) (or_introl Hdigit))).
        apply dots_digits.
    + destruct (ascii_eqb h dash) eqn:Hdash.
      * (* the separator starts with a dash *)
        apply ascii_eqb_true in Hdash. subst h.
        apply Hplain. destruct (ascii_eqb c dash) eqn:Ec.
        -- rewrite (tokens_digits (dash :: sep') O rest
                      (separator_never_matched dash sep' rest
                         (or_intror (conj eq_refl Htail)))).
           rewrite dots_cons. cbn. apply dots_digits.
        -- assert (Hall : noDash (c :: rest) = true).
           { unfold noDash in *. cbn [forallb]. now rewrite Ec, Htail. }
           rewrite (tokens_digits (dash :: sep') O (c :: rest)
                      (separator_never_matched dash sep' (c :: rest)
                         (or_intror (conj eq_refl Hall)))).
           apply dots_digits.
      * (* the scan of the replacement meets the separators kept *)
        destruct (ascii_eqb c dash) eqn:Ec.
        -- cbn [Numeric.replaceSeparators startsWith].
           replace (ascii_eqb dash h) with false
             by (symmetry; apply ascii_eqb_false; apply ascii_eqb_false in Hdash;
                 congruence).
           cbn [andb]. rewrite dots_cons. cbn [ascii_eqb Ascii.eqb].
           pose proof (replaceSeparators_tokens h sep' Hdigit first _ 1
                         (numberMatches_tokens h sep' O rest)) as Hrest.
           pose proof (pointLeft_le first 1).
           change (ascii_eqb dash dot) with false. cbv iota. lia.
        -- pose proof (replaceSeparators_tokens h sep' Hdigit first _ O
                         (numberMatches_tokens h sep' O (c :: rest))) as Hall.
           lia.
Qed.

End OnePoint.

Section WithoutDigits.

Lemma filter_no_digit (s : str) : existsb isDigit s = false -> filter isDigit s = [].
Proof.
  induction s as [|c s IH]; intros Hs; [reflexivity|].
  cbn [existsb] in Hs. apply orb_false_iff in Hs as [Hc Hs].
  cbn [filter]. rewrite Hc. now apply IH.
Qed.

Lemma replaceSeparators_none_idx (sep : str) (idx idx' skip : nat) (s : str) :
  Numeric.replaceSeparators sep None idx skip s
  = Numeric.replaceSeparators sep None idx' skip s.
Proof.
  revert idx idx' skip; induction s as [|c s IH]; intros idx idx' skip;
    [reflexivity|].
  cbn [Numeric.replaceSeparators]. destruct skip as [|k]; [|apply IH].
  destruct (startsWith (c :: s) sep).
  - destruct sep; cbn [app]; [f_equal|]; apply IH.
  - f_equal. apply IH.
Qed.

Lemma dropSeparators_app (sep rest : str) :
  sep <> [] -> dropSeparators sep (sep ++ rest) = dropSeparators sep rest.
Proof.
  intros Hsep. unfold dropSeparators.
  destruct sep as [|x sep']; [contradiction|].
  pose proof (startsWith_app (x :: sep') rest) as Hsw.
  cbn [app] in *. cbn [Numeric.replaceSeparators]. rewrite Hsw.
  cbn [List.length Nat.pred app].
  rewrite replaceSeparators_skip. apply replaceSeparators_none_idx.
Qed.

Lemma dropSeparators_copies (sep : str) (k : nat) :
  sep <> [] -> dropSeparators sep (List.concat (repeat sep k)) = [].
Proof.
  intros Hsep. induction k as [|k IH].
  - cbn [repeat List.concat]. unfold dropSeparators.
    destruct sep; [contradiction | reflexivity].
  - cbn [repeat List.concat]. now rewrite dropSeparators_app.
Qed.

Lemma indexOf_startsWith (s p : str) :
  startsWith s p = true -> indexOf s p = Some O.
Proof. intros H. destruct s; cbn [indexOf]; now rewrite H. Qed.

(** Copies of the separator collapse to one point. *)
Lemma collapseSeparators_copies (sep : str) (k : nat) :
  sep <> [] ->
  Numeric.collapseSeparators sep (List.concat (repeat sep k))
  = match k with O => [] | S _ => [dot] end.
Proof.
  intros Hsep. destruct k as [|k].
  - cbn [repeat List.concat]. unfold Numeric.collapseSeparators.
    destruct sep; [contradiction | reflexivity].
  - cbn [repeat List.concat].
    assert (Hidx : indexOf (sep ++ List.concat (repeat sep k)) sep = Some O)
      by apply indexOf_startsWith, startsWith_app.
    rewrite (collapseSeparators_at_first sep O _ Hidx).
    cbn [firstn app Nat.add]. rewrite skipn_app, skipn_all, Nat.sub_diag.
    cbn [skipn app]. now rewrite dropSeparators_copies.
Qed.

(** In a text without digits, only copies of the separator are kept. *)
Lemma numberMatches_copies (sep : str) (skip : nat) (s : str) :
  existsb isDigit s = false ->
  exists k, List.concat (Numeric.numberMatches sep false skip s)
            = List.concat (repeat sep k).
Proof.
  revert skip; induction s as [|c s IH]; intros skip Hs.
  - exists O. cbn. now destruct sep.
  - cbn [existsb] in Hs. apply orb_false_iff in Hs as [Hc Hs].
    cbn [Numeric.numberMatches andb]. destruct skip as [|n]; [|now apply IH].
    rewrite Hc. destruct (startsWith (c :: s) sep); [|now apply IH].
    destruct (IH (Nat.pred (List.length sep)) Hs) as [k Hk].
    exists (S k). cbn [repeat List.concat]. now rewrite Hk.
Qed.

Lemma collapseSeparators_cons (sep : str) (c : ascii) (s : str) :
  startsWith (c :: s) sep = false ->
  Numeric.collapseSeparators sep (c :: s) = c :: Numeric.collapseSeparators sep s.
Proof.
  intros Hsw. unfold Numeric.collapseSeparators.
  cbn [indexOf Numeric.replaceSeparators]. rewrite Hsw. f_equal.
  apply replaceSeparators_shift.
Qed.

(** The numeric text of a string that holds no digit, and no dash past its
    first character: a sign at most and a point at most; the point comes
    first only under an empty separator. *)
Lemma collapse_without_digits (sep text : str) :
  noDash (tl text) = true ->
  existsb isDigit text = false ->
  let result := Numeric.collapseSeparators sep (Numeric.keepNumeric sep text) in
  result = lit "" \/ result = lit "-" \/ result = lit "." \/ result = lit "-."
  \/ (sep = [] /\ result = lit ".-").
Proof.
  intros Htail Hdigits. cbv zeta. rewrite keepNumeric_head.
  destruct sep as [|h sep'].
  - (* the empty separator: the point is put in front *)
    assert (Hnever : forall s c' rest', In c' s -> isDigit c' = false ->
                       @nil ascii = [] \/ startsWith (c' :: rest') [] = false)
      by (intros; now left).
    rewrite collapseSeparators_empty.
    destruct text as [|c rest]; [now right; right; left|].
    cbn [existsb] in Hdigits. apply orb_false_iff in Hdigits as [Hc Hrest].
    destruct (ascii_eqb c dash).
    + rewrite (tokens_digits [] O rest (Hnever rest)). cbn [skipn].
      rewrite (filter_no_digit rest Hrest). now right; right; right; right.
    + rewrite (tokens_digits [] O (c :: rest) (Hnever (c :: rest))). cbn [skipn filter].
      rewrite Hc, (filter_no_digit rest Hrest). now right; right; left.
  - assert (Hsep : h :: sep' <> []) by discriminate.
    destruct text as [|c rest]; [left; reflexivity|].
    cbn [tl] in Htail.
    pose proof Hdigits as Hall.
    cbn [existsb] in Hdigits. apply orb_false_iff in Hdigits as [Hc Hrest].
    destruct (ascii_eqb c dash) eqn:Ec.
    + destruct (ascii_eqb h dash) eqn:Hdash.
      * (* a separator that starts with a dash is matched nowhere *)
        apply ascii_eqb_true in Hdash. subst h.
        rewrite (tokens_digits (dash :: sep') O rest
                   (separator_never_matched dash sep' rest
                      (or_intror (conj eq_refl Htail)))).
        cbn [skipn]. rewrite (filter_no_digit rest Hrest).
        destruct sep' as [|x sep'']; [right; right; left; reflexivity|].
        right; left. unfold Numeric.collapseSeparators.
        cbn [indexOf startsWith Numeric.replaceSeparators option_map].
        rewrite ascii_eqb_refl. reflexivity.
      * destruct (numberMatches_copies (h :: sep') O rest Hrest) as [k Hk].
        rewrite Hk, collapseSeparators_cons,
          (collapseSeparators_copies (h :: sep') k Hsep).
        -- destruct k;
             [right; left; reflexivity | right; right; right; left; reflexivity].
        -- assert (E : ascii_eqb dash h = false).
           { apply ascii_eqb_false. apply ascii_eqb_false in Hdash. congruence. }
           cbn [startsWith]. now rewrite E.
    + destruct (numberMatches_copies (h :: sep') O (c :: rest) Hall) as [k Hk].
      rewrite Hk, (collapseSeparators_copies (h :: sep') k Hsep).
      destruct k; [left; reflexivity | right; right; left; reflexivity].
Qed.

End WithoutDigits.

Section NoDash.

Lemma noDash_cons (c : ascii) (s : str) :
  noDash (c :: s) = negb (ascii_eqb c dash) && noDash s.
Proof. reflexivity. Qed.

(** A text without dash keeps none through the removal of the non numeric
    characters and the collapse of the separators, whatever the separator. *)
Lemma numberMatches_noDash (sep : str) (atStart : bool) (skip : nat) (s : str) :
  noDash s = true ->
  noDash (List.concat (Numeric.numberMatches sep atStart skip s)) = true.
Proof.
  revert atStart skip; induction s as [|c s IH]; intros atStart skip Hs.
  - cbn. now destruct sep.
  - pose proof Hs as Hall.
    rewrite noDash_cons in Hs. apply andb_true_iff in Hs as [Hc Hs].
    cbn [Numeric.numberMatches]. destruct skip as [|k]; [|now apply IH].
    apply negb_true_iff in Hc. rewrite Hc, andb_false_r.
    destruct (isDigit c).
    + cbn [List.concat app]. rewrite noDash_cons, Hc. now apply IH.
    + destruct (startsWith (c :: s) sep) eqn:Esw; [|now apply IH].
      apply startsWith_true in Esw as [rest Hrest].
      rewrite Hrest, noDash_app in Hall. apply andb_true_iff in Hall as [Hsep _].
      cbn [List.concat]. rewrite noDash_app, Hsep. now apply IH.
Qed.

Lemma replaceSeparators_noDash (sep : str) (first : option nat)
    (idx skip : nat) (s : str) :
  noDash s = true ->
  noDash (Numeric.replaceSeparators sep first idx skip s) = true.
Proof.
  revert idx skip; induction s as [|c s IH]; intros idx skip Hs.
  - cbn [Numeric.replaceSeparators].
    destruct sep; [|reflexivity].
    destruct first as [i|]; [destruct (idx =? i)%nat|]; reflexivity.
  - rewrite noDash_cons in Hs. apply andb_true_iff in Hs as [Hc Hs].
    cbn [Numeric.replaceSeparators]. destruct skip as [|k]; [|now apply IH].
    destruct (startsWith (c :: s) sep).
    + destruct sep; rewrite noDash_app; apply andb_true_iff; split;
        try (destruct first as [i|]; [destruct (idx =? i)%nat|]; reflexivity).
      * rewrite noDash_cons, Hc. now apply IH.
      * now apply IH.
    + rewrite noDash_cons, Hc. now apply IH.
Qed.

Lemma numericText_noDash (sep text : str) :
  noDash text = true ->
  noDash (Numeric.collapseSeparators sep (Numeric.keepNumeric sep text)) = true.
Proof.
  intros Htext. unfold Numeric.collapseSeparators.
  apply replaceSeparators_noDash. rewrite keepNumeric_concat.
  now apply numberMatches_noDash.
Qed.

End NoDash.

(** ** Numeric format: only the first separator is kept *)

Lemma noDash_tl (s : str) : noDash s = true -> noDash (tl s) = true.
Proof.
  destruct s as [|c s]; [reflexivity|].
  rewrite noDash_cons. intros H. now apply andb_true_iff in H as [_ H].
Qed.

(** [handleNegation] leaves no dash past the first character. *)
Lemma handleNegation_tail (value : str) (allowNeg : option bool) :
  noDash (tl (Numeric.handleNegation value allowNeg)) = true.
Proof.
  rewrite handleNegation_sign.
  destruct (keepsSign value allowNeg); cbn [signText app tl].
  - apply noDash_filter.
  - apply noDash_tl, noDash_filter.
Qed.

Lemma sText_tail (value : str) (changeMeta : ChangeMeta) (props : NumericFormatProps) :
  noDash (tl (Numeric.sText (Numeric.stripDecorations value changeMeta props))) = true.
Proof.
  unfold Numeric.stripDecorations. cbv zeta. cbn [Numeric.sText].
  apply handleNegation_tail.
Qed.

(** C8 (as amended). Only the first decimal separator is kept, in
    [src/numeric_format].  Let [t] be the text that the removal of the
    decorations and of the non numeric characters leaves, and [sep] the
    decimal separator, of any length.  A value that is the prefix or suffix
    typed into an empty input is returned as it is, separators included.
    Otherwise the value returned holds one [.] at most; it is [''] or ['-']
    when the value is cleared; and when it is not cleared, the first
    occurrence of [sep] in [t] is turned into [.] and every later occurrence
    is dropped, while a [t] without [sep] is returned unchanged.  For a
    separator of one character [d] this reads: what stands before the first
    [d] is kept, the first [d] becomes [.], and the [d]s after it are
    removed. *)
Theorem first_decimal_separator_is_kept `{Utils} (value : str)
    (changeMeta : ChangeMeta) (props : NumericFormatProps) :
  let sep := Numeric.sepDecimal (Numeric.getSeparators props) in
  let t := Numeric.keepNumeric sep
             (Numeric.sText (Numeric.stripDecorations value changeMeta props)) in
  let result := Numeric.removeFormatting value changeMeta props in
  (Numeric.returnsUnchanged value changeMeta props = true -> result = value)
  /\ (Numeric.returnsUnchanged value changeMeta props = false ->
      (count_occ ascii_dec result dot <= 1)%nat
      /\ (Numeric.clearsValue value changeMeta props = true ->
          result = lit "" \/ result = lit "-")
      /\ (Numeric.clearsValue value changeMeta props = false ->
          (forall i,
             indexOf t sep = Some i ->
             result
             = firstn i t
               ++ dot :: dropSeparators sep (skipn (i + List.length sep) t))
          /\ (indexOf t sep = None -> result = t)
          /\ (forall d u w,
                sep = [d] ->
                t = u ++ d :: w ->
                existsb (ascii_eqb d) u = false ->
                result = u ++ dot :: filter (fun x => negb (ascii_eqb x d)) w))).
Proof.
  cbv zeta. unfold Numeric.removeFormatting. split; [now intros ->|].
  intros ->. split; [|split].
  - destruct (Numeric.clearsValue value changeMeta props).
    + destruct (addNegation _); cbn; lia.
    + unfold Numeric.numericText. apply collapse_one_point, sText_tail.
  - intros ->. destruct (addNegation _); [now right | now left].
  - intros ->. unfold Numeric.numericText. split; [|split].
    + intros i Hi. now apply collapseSeparators_at_first.
    + apply collapseSeparators_nothing.
    + intros d u w Hsep Ht Hu. rewrite Hsep in *.
      rewrite collapseSeparators_single, Ht. now apply collapseFirst_split.
Qed.

(** Pasting [1.2.3] into an empty input keeps the first point only, and so
    does pasting [1::2::3] where the decimal separator is [::]. *)
Lemma first_decimal_separator_is_kept_witness :
  let props := mkNumericProps None None None None None None (Some true) None None in
  let colons := mkNumericProps None (Some (lit "::")) None None None None
                  (Some true) None None in
  let changeMeta := mkChangeMeta (mkRange 0 0) (mkRange 0 5) (lit "") in
  let pasted := mkChangeMeta (mkRange 0 0) (mkRange 0 7) (lit "") in
  Numeric.returnsUnchanged (lit "1.2.3") changeMeta props = false
  /\ Numeric.clearsValue (lit "1.2.3") changeMeta props = false
  /\ Numeric.removeFormatting (lit "1.2.3") changeMeta props = lit "1.23"
  /\ (count_occ ascii_dec (Numeric.removeFormatting (lit "1.2.3") changeMeta props) dot
      <= 1)%nat
  /\ Numeric.removeFormatting (lit "1::2::3") pasted colons = lit "1.23".
Proof.
  cbv zeta. split; [reflexivity|]. split; [reflexivity|].
  destruct (@first_decimal_separator_is_kept utilsModel (lit "1.2.3")
              (mkChangeMeta (mkRange 0 0) (mkRange 0 5) (lit ""))
              (mkNumericProps None None None None None None (Some true) None None))
    as [_ Hkept].
  destruct (Hkept eq_refl) as [Hcount [_ Hfirst]].
  destruct (Hfirst eq_refl) as [_ [_ Hone]].
  split; [exact (Hone "."%char (lit "1") (lit "2.3") eq_refl eq_refl eq_refl)|].
  split; [exact Hcount|].
  destruct (@first_decimal_separator_is_kept utilsModel (lit "1::2::3")
              (mkChangeMeta (mkRange 0 0) (mkRange 0 7) (lit ""))
              (mkNumericProps None (Some (lit "::")) None None None None
                 (Some true) None None))
    as [_ Hcolons].
  destruct (Hcolons eq_refl) as [_ [_ Hany]].
  destruct (Hany eq_refl) as [Hat _].
  exact (Hat 1%nat eq_refl).
Defined.

(** C8, the claim as stated, fails on two counts.  A value that is the
    prefix typed into an empty input is returned at once: with the prefix
    [1.2.3] the value [1.2.3] comes back with both its points.  And the
    second copy of the module keeps the last separator where
    [src/numeric_format] keeps the first: [1.2.3] pasted into an empty
    input gives [12.3] there and [1.23] here. *)
Lemma first_separator_is_not_always_the_one_kept :
  let pasted := mkChangeMeta (mkRange 0 0) (mkRange 0 5) (lit "") in
  let plain := mkNumericProps None None None None None None (Some true) None None in
  let prefixed :=
    mkNumericProps None None None None None None (Some true) None
      (Some (lit "1.2.3")) in
  @Numeric.removeFormatting utilsModel (lit "1.2.3") pasted prefixed = lit "1.2.3"
  /\ count_occ ascii_dec (lit "1.2.3") dot = 2%nat
  /\ @Variant.removeFormatting utilsModel (lit "1.2.3") pasted plain = lit "12.3"
  /\ @Numeric.removeFormatting utilsModel (lit "1.2.3") pasted plain = lit "1.23".
Proof. cbv zeta. repeat split; reflexivity. Qed.

(** ** [removeFormatting] never throws *)

Section Returns.

Context `{U : Utils}.

Lemma numericRemoveFormatting_returns (value : str)
    (changeMeta : option ChangeMeta) (props : NumericFormatProps) :
  MayThrow.numericRemoveFormatting value changeMeta props
  = Returns (Numeric.removeFormatting value
               (orDefault changeMeta (getDefaultChangeMeta value)) props).
Proof.
  unfold MayThrow.numericRemoveFormatting, Numeric.removeFormatting,
    Numeric.numericText, Numeric.keepNumeric.
  destruct changeMeta as [meta|]; cbn [MayThrow.coalesce MayThrow.call MayThrow.bind orDefault];
    (destruct (Numeric.returnsUnchanged value _ props); [reflexivity|]);
    cbv zeta; destruct (Numeric.matchNumber _ _);
    cbn [MayThrow.coalesce MayThrow.call MayThrow.bind orDefault];
    now destruct (Numeric.clearsValue value _ props).
Qed.

Lemma patternRemoveFormatting_returns (value : str)
    (changeMeta : option ChangeMeta) (props : PatternFormatProps) :
  MayThrow.patternRemoveFormatting value changeMeta props
  = Returns (Pattern.removeFormatting value
               (orDefault changeMeta (getDefaultChangeMeta value)) props).
Proof.
  unfold MayThrow.patternRemoveFormatting. now destruct changeMeta.
Qed.

End Returns.

(** C3 (as amended). [removeFormatting] is total and silent.  Called with
    any string, with any change-meta or none, and with any configuration,
    each of the two functions returns a string: none of the calls that
    throw on [undefined] or [null] is made on such a value.  When the text
    left after stripping holds no digit, the numeric one returns the value
    as it is if it is the prefix or suffix typed into an empty input (it
    holds a digit then), and otherwise [''], ['-'], ['.'] or ['-.'], or
    ['.-'] under an empty decimal separator; the result is [''] or ['-']
    when that text does not hold the decimal separator either.  The pattern
    one returns digits only. *)
Theorem removeFormatting_total_and_silent `{U : Utils} (L : UtilsLaws U)
    (value : str) (changeMeta : option ChangeMeta)
    (props : NumericFormatProps) (patternProps : PatternFormatProps) :
  let meta := orDefault changeMeta (getDefaultChangeMeta value) in
  let sep := Numeric.sepDecimal (Numeric.getSeparators props) in
  let text := Numeric.sText (Numeric.stripDecorations value meta props) in
  let result := Numeric.removeFormatting value meta props in
  MayThrow.numericRemoveFormatting value changeMeta props = Returns result
  /\ MayThrow.patternRemoveFormatting value changeMeta patternProps
     = Returns (Pattern.removeFormatting value meta patternProps)
  /\ (existsb isDigit text = false ->
      (Numeric.returnsUnchanged value meta props = true
       /\ result = value
       /\ existsb isDigit value = true)
      \/ result = lit "" \/ result = lit "-"
      \/ result = lit "." \/ result = lit "-."
      \/ (sep = lit "" /\ result = lit ".-"))
  /\ (existsb isDigit text = false ->
      Numeric.returnsUnchanged value meta props = false ->
      includes text sep = false ->
      result = lit "" \/ result = lit "-")
  /\ allDigits (Pattern.removeFormatting value meta patternProps) = true.
Proof.
  cbv zeta.
  set (meta := orDefault changeMeta (getDefaultChangeMeta value)).
  split; [apply numericRemoveFormatting_returns|].
  split; [apply patternRemoveFormatting_returns|].
  split; [|split].
  - intros Hdigits. unfold Numeric.removeFormatting.
    destruct (Numeric.returnsUnchanged value meta props) eqn:Hret.
    + left. repeat split.
      unfold Numeric.returnsUnchanged in Hret.
      apply andb_true_iff in Hret as [Hret _].
      apply andb_true_iff in Hret as [Hnumber _].
      now apply charIsNumber_has_digit.
    + right. destruct (Numeric.clearsValue value meta props).
      * destruct (addNegation _); [now right; left | now left].
      * unfold Numeric.numericText.
        apply collapse_without_digits; [apply sText_tail | exact Hdigits].
  - intros Hdigits Hret Hsep. unfold Numeric.removeFormatting. rewrite Hret.
    destruct (Numeric.clearsValue value meta props).
    + destruct (addNegation _); [now right | now left].
    + apply numericText_degenerate. unfold degenerateText.
      now rewrite Hdigits, Hsep.
  - now apply pattern_removeFormatting_digits.
Qed.

(** Letters typed into an empty input, and read back with no change-meta,
    leave the empty value: [match] finds nothing in them, and a [join]
    called on its result as it is would throw. *)
Lemma removeFormatting_total_and_silent_witness :
  let props := mkNumericProps (Some (TSBool true)) None None None None None
                 (Some true) None (Some (lit "$")) in
  MayThrow.numericRemoveFormatting (lit "abc") None props = Returns (lit "")
  /\ MayThrow.patternRemoveFormatting (lit "abc") None phonePattern = Returns (lit "")
  /\ MayThrow.call (Numeric.matchNumber (lit ".") (lit "abc")) (@List.concat ascii)
     = Throws MayThrow.typeError.
Proof.
  cbv zeta.
  destruct (@removeFormatting_total_and_silent utilsModel utilsModel_laws
              (lit "abc") None
              (mkNumericProps (Some (TSBool true)) None None None None
                 None (Some true) None (Some (lit "$")))
              phonePattern) as [Hnumeric [Hpattern _]].
  split; [exact Hnumeric|]. split; [exact Hpattern | reflexivity].
Defined.

(** C3, the claim as stated, fails for the result of the degenerate case: a
    decimal separator typed into an empty input, or after a lone sign,
    leaves no digit after stripping, and the result is [.] or [-.], not
    [''] or ['-'].  And a prefix [7] typed into an empty input leaves the
    empty text after stripping, yet [7] is returned. *)
Lemma removeFormatting_keeps_a_lone_separator :
  let plain := mkNumericProps None None None None None None (Some true) None None in
  let seven := mkNumericProps None None None None None None (Some true) None
                 (Some (lit "7")) in
  let point := mkChangeMeta (mkRange 0 0) (mkRange 0 1) (lit "") in
  let signed := mkChangeMeta (mkRange 1 1) (mkRange 1 2) (lit "-") in
  @Numeric.removeFormatting utilsModel (lit ".") point plain = lit "."
  /\ Numeric.sText (Numeric.stripDecorations (lit ".") point plain) = lit "."
  /\ @Numeric.removeFormatting utilsModel (lit "-.") signed plain = lit "-."
  /\ Numeric.sText (Numeric.stripDecorations (lit "-.") signed plain) = lit "-."
  /\ @Numeric.removeFormatting utilsModel (lit "7") point seven = lit "7"
  /\ Numeric.sText (Numeric.stripDecorations (lit "7") point seven) = lit "".
Proof. cbv zeta. repeat split; reflexivity. Qed.

(** ** Numeric format: what a typed separator becomes *)

(** C7 (as amended). One typed decimal separator.  Let the value be an
    optional sign, the prefix, a text [a], one new character [c] (the
    change-meta's [to] range holds just it) that is one of the allowed
    decimal separators, a text [b] and the suffix, where [a] does not hold
    the decimal separator [d] (one character, no digit, no dash), the text
    after the sign does not start with a dash (unless the prefix does and
    there is no sign), and the edit is neither reset to the last value nor
    cleared.  Then [removeFormatting] returns the sign, the digits of [a],
    the decimal point [.] in the place of [c], and the digits of [b]; when
    [decimalScale] is 0 the character is dropped: the digits of [a] are
    followed by the numeric text of [b].  The sign is the one
    [handleNegation] keeps: a dash when the text holds one, no two on a
    line, and negative numbers are allowed; for [a] and [b] without dash
    that is the sign of the value, when negative numbers are allowed. *)
Theorem typed_separator_becomes_decimal_point `{Utils}
    (props : NumericFormatProps) (changeMeta : ChangeMeta)
    (negative : bool) (a b : str) (c d : ascii) :
  let pre := orDefault (prefix props) [] in
  let suf := orDefault (suffix props) [] in
  let value := signText negative ++ pre ++ a ++ [c] ++ b ++ suf in
  let typedAt := len (signText negative ++ pre ++ a) in
  let separator := match decimalScale props with Some O => [] | _ => [d] end in
  let sign :=
    keepsSign (signText negative ++ a ++ separator ++ b) (allowNegative props) in
  let fraction :=
    match decimalScale props with
    | Some O => collapseFirst d (filter (keeps d) b)
    | _ => dot :: filter isDigit b
    end in
  to changeMeta = mkRange typedAt (typedAt + 1) ->
  JS.mem [c] (Numeric.sepAllowed (Numeric.getSeparators props)) = true ->
  Numeric.sepDecimal (Numeric.getSeparators props) = [d] ->
  isDigit d = false ->
  d <> dash ->
  existsb (fun x => ascii_eqb x d) a = false ->
  (negative = false /\ startsWith pre (lit "-") = true)
  \/ startsWith (pre ++ (a ++ separator ++ b) ++ suf) (lit "-") = false ->
  Numeric.resetsToLastValue
    (signText negative ++ pre ++ (a ++ separator ++ b) ++ suf) changeMeta props
  = false ->
  Numeric.clearsValue value changeMeta props = false ->
  Numeric.removeFormatting value changeMeta props
  = signText sign ++ filter isDigit a ++ fraction
  /\ (noDash a = true -> noDash b = true ->
      sign = negative && truthy (allowNegative props)).
Proof.
  cbv zeta.
  set (pre := orDefault (prefix props) []).
  set (suf := orDefault (suffix props) []).
  set (separator := match decimalScale props with Some O => [] | _ => [d] end).
  intros Hto Hallowed Hsep Hdigit Hdash Hda Hhead Hreset Hclear.
  (* the typed character is replaced by the separator *)
  assert (Htyped : Numeric.replaceTypedSeparator
                     (signText negative ++ pre ++ a ++ [c] ++ b ++ suf) changeMeta props
                   = signText negative ++ pre ++ (a ++ separator ++ b) ++ suf).
  { unfold Numeric.replaceTypedSeparator. rewrite Hto, Hsep.
    cbn [r_start r_end].
    replace (len (signText negative ++ pre ++ a) + 1
             - len (signText negative ++ pre ++ a) =? 1) with true
      by (symmetry; apply Z.eqb_eq; lia).
    replace (signText negative ++ pre ++ a ++ [c] ++ b ++ suf)
      with ((signText negative ++ pre ++ a) ++ c :: (b ++ suf))
      by (now rewrite <- !app_assoc).
    unfold charAt_mem. rewrite charAt_app_middle, Hallowed. cbn [andb].
    rewrite substring_prefix.
    replace ((signText negative ++ pre ++ a) ++ c :: b ++ suf)
      with (((signText negative ++ pre ++ a) ++ [c]) ++ (b ++ suf))
      by (now rewrite <- !app_assoc).
    replace (len (signText negative ++ pre ++ a) + 1)
      with (len ((signText negative ++ pre ++ a) ++ [c]))
      by (rewrite (len_app _ [c]); reflexivity).
    rewrite substring_suffix. fold separator.
    now rewrite <- !app_assoc. }
  pose proof (stripDecorations_framed_text _ changeMeta props negative
                (a ++ separator ++ b) Htyped Hreset Hhead) as Hstrip.
  (* the value is longer than the prefix and than the suffix *)
  assert (Hret : Numeric.returnsUnchanged
                   (signText negative ++ pre ++ a ++ [c] ++ b ++ suf) changeMeta props
                 = false).
  { unfold Numeric.returnsUnchanged. fold pre suf.
    rewrite (str_eqb_longer _ pre), (str_eqb_longer _ suf)
      by (rewrite !length_app; simpl; lia).
    cbn [orb]. now rewrite andb_false_r. }
  assert (Hsign : forall sign,
             existsb (ascii_eqb d) (signText sign ++ filter isDigit a) = false).
  { intros sign. rewrite existsb_app, existsb_sign_sep by exact Hdash.
    now rewrite filter_digits_no_sep. }
  split.
  - unfold Numeric.removeFormatting. rewrite Hret, Hclear.
    unfold Numeric.numericText. rewrite Hsep, Hstrip.
    match goal with
    | |- context [Numeric.handleNegation ?v _] =>
        replace v with (signText negative ++ a ++ separator ++ b)
          by (now destruct negative)
    end.
    rewrite handleNegation_sign.
    rewrite (filter_app _ (signText negative)), filter_signText. cbn [app].
    rewrite collapseSeparators_single,
      keepNumeric_signed by (try exact Hdash; apply noDash_filter).
    rewrite filter_keeps_notDash by exact Hdash.
    rewrite !filter_app, (filter_keeps_digits d a Hda).
    subst separator. destruct (decimalScale props) as [[|n]|].
    + cbn [filter app]. rewrite app_assoc.
      rewrite (collapseFirst_app d _ _ (Hsign _)). now rewrite <- app_assoc.
    + cbn [filter]. unfold keeps at 1. rewrite ascii_eqb_refl, orb_true_r.
      rewrite app_assoc.
      change ([d] ++ filter (keeps d) b) with (d :: filter (keeps d) b).
      rewrite (collapseFirst_split d _ _ (Hsign _)).
      rewrite filter_sep_keeps by exact Hdigit. now rewrite <- app_assoc.
    + cbn [filter]. unfold keeps at 1. rewrite ascii_eqb_refl, orb_true_r.
      rewrite app_assoc.
      change ([d] ++ filter (keeps d) b) with (d :: filter (keeps d) b).
      rewrite (collapseFirst_split d _ _ (Hsign _)).
      rewrite filter_sep_keeps by exact Hdigit. now rewrite <- app_assoc.
  - intros Ha Hb.
    assert (Hbody : noDash (a ++ separator ++ b) = true).
    { rewrite !noDash_app, Ha, Hb. subst separator.
      assert (Hd : negb (ascii_eqb d dash) = true)
        by (apply negb_true_iff; now apply ascii_eqb_false).
      destruct (decimalScale props) as [[|n]|]; cbn; now rewrite ?Hd. }
    unfold keepsSign. destruct negative; cbn [signText app].
    + cbn [existsb Numeric.doubleNegation]. rewrite ascii_eqb_refl.
      cbn [orb]. now rewrite (doubleNegation_noDash _ _ Hbody).
    + now rewrite (existsb_dash_noDash _ Hbody).
Qed.

(** A comma is typed where both the comma and the point are allowed decimal
    separators and the point is the decimal separator. *)
Definition commaOrPoint : NumericFormatProps :=
  mkNumericProps None None (Some [lit ","; lit "."]) None None None
    (Some true) None None.

(** The comma typed into [1-234], before a digit. *)
Lemma typed_separator_becomes_decimal_point_witness :
  let changeMeta := mkChangeMeta (mkRange 3 3) (mkRange 3 4) (lit "1-234") in
  to changeMeta = mkRange 3 4
  /\ JS.mem (lit ",") (Numeric.sepAllowed (Numeric.getSeparators commaOrPoint)) = true
  /\ Numeric.resetsToLastValue (lit "1-2.34") changeMeta commaOrPoint = false
  /\ Numeric.clearsValue (lit "1-2,34") changeMeta commaOrPoint = false
  /\ Numeric.removeFormatting (lit "1-2,34") changeMeta commaOrPoint = lit "-12.34".
Proof.
  cbv zeta. split; [reflexivity|]. split; [reflexivity|]. split; [reflexivity|].
  split; [reflexivity|].
  refine (proj1 (@typed_separator_becomes_decimal_point utilsModel commaOrPoint
                   (mkChangeMeta (mkRange 3 3) (mkRange 3 4) (lit "1-234"))
                   false (lit "1-2") (lit "34") ","%char "."%char
                   eq_refl eq_refl eq_refl eq_refl _ eq_refl _ eq_refl eq_refl)).
  - discriminate.
  - right; reflexivity.
Defined.

(** C7, the claim as stated, fails where a decimal separator stands before
    the typed one: a comma typed at the end of [123.4] meets the conditions
    of the claim ([to] holds one character, an allowed decimal separator;
    [decimalScale] is not 0), yet it is dropped; the result [123.4] has its
    only decimal point at index 3, where the old one stood, and nothing at
    index 5 where the comma was typed.  It fails as well where the value is
    cleared: a comma typed over the selected [12] of [12.0] leaves [,.0],
    and the result is empty.  And it fails where the value is reset to the
    last value: under the prefix [$], a change-meta that tells of a comma
    typed into [$12] behind the [1] while its [from] range lies before the
    prefix gives [12] back. *)
Lemma typed_separator_after_a_separator_is_dropped :
  let changeMeta := mkChangeMeta (mkRange 5 5) (mkRange 5 6) (lit "123.4") in
  let result := @Numeric.removeFormatting utilsModel (lit "123.4,") changeMeta commaOrPoint in
  let typedOver := mkChangeMeta (mkRange 0 2) (mkRange 0 1) (lit "12.0") in
  let dollars :=
    mkNumericProps None None (Some [lit ","; lit "."]) None None None
      (Some true) None (Some (lit "$")) in
  let misplaced := mkChangeMeta (mkRange 0 0) (mkRange 2 3) (lit "$12") in
  r_end (to changeMeta) - r_start (to changeMeta) = 1
  /\ charAt_mem (lit "123.4,") (r_start (to changeMeta))
       (Numeric.sepAllowed (Numeric.getSeparators commaOrPoint)) = true
  /\ decimalScale commaOrPoint = None
  /\ result = lit "123.4"
  /\ nth_error result 3 = Some dot
  /\ nth_error result 5 = None
  /\ charAt_mem (lit ",.0") (r_start (to typedOver))
       (Numeric.sepAllowed (Numeric.getSeparators commaOrPoint)) = true
  /\ @Numeric.removeFormatting utilsModel (lit ",.0") typedOver commaOrPoint = lit ""
  /\ charAt_mem (lit "$1,2") (r_start (to misplaced))
       (Numeric.sepAllowed (Numeric.getSeparators dollars)) = true
  /\ @Numeric.removeFormatting utilsModel (lit "$1,2") misplaced dollars = lit "12".
Proof. cbv zeta. repeat split; reflexivity. Qed.

(** ** Numeric format: formatting and stripping again *)

(** A character that may stand in a thousand separator without being taken
    for a part of the number: no digit, no dash, not the decimal separator. *)
Definition plainChar (d x : ascii) : bool :=
  negb (isDigit x) && negb (ascii_eqb x dash) && negb (ascii_eqb x d).

(** No allowed decimal separator is a digit or the dash. *)
Definition allowedArePlain (allowed : list str) : bool :=
  forallb (fun s => match s with
                    | [x] => negb (isDigit x) && negb (ascii_eqb x dash)
                    | _ => true
                    end) allowed.

(** The configuration neither cuts nor pads the decimal part of the value,
    and shows a decimal separator exactly when the value has a point. *)
Definition keepsPrecision (props : NumericFormatProps) (fraction : option str) : bool :=
  match decimalScale props with
  | None => true
  | Some scale =>
      (List.length (fractionDigits fraction) <=? scale)%nat
      && match fraction with
         | Some _ => negb (scale =? 0)%nat
         | None => true
         end
      && (if truthy (fixedDecimalScale props) && negb (scale =? 0)%nat
          then match fraction with
               | Some digits => (List.length digits =? scale)%nat
               | None => false
               end
          else true)
  end.

Section RoundTrip.

Context `{U : Utils} (L : UtilsLaws U).

Lemma allDigits_noDash (s : str) : allDigits s = true -> noDash s = true.
Proof.
  induction s as [|c s IH]; intros Hs; [reflexivity|].
  cbn [allDigits forallb] in Hs. apply andb_true_iff in Hs as [Hc Hs].
  cbn [noDash forallb]. rewrite (isDigit_not_dash _ Hc). now apply IH.
Qed.

Lemma allDigits_keeps (d : ascii) (s : str) :
  allDigits s = true -> filter (keeps d) s = s.
Proof.
  induction s as [|c s IH]; intros Hs; [reflexivity|].
  cbn [allDigits forallb] in Hs. apply andb_true_iff in Hs as [Hc Hs].
  cbn [filter]. unfold keeps at 1. rewrite Hc. cbn [orb]. f_equal. now apply IH.
Qed.

Lemma allDigits_no_sep (d : ascii) (s : str) :
  isDigit d = false -> allDigits s = true -> existsb (ascii_eqb d) s = false.
Proof.
  intros Hd. induction s as [|c s IH]; intros Hs; [reflexivity|].
  cbn [allDigits forallb] in Hs. apply andb_true_iff in Hs as [Hc Hs].
  cbn [existsb]. rewrite (IH Hs), orb_false_r.
  apply ascii_eqb_false. intros ->. congruence.
Qed.

Lemma allDigits_filter_sep (d : ascii) (s : str) :
  isDigit d = false -> allDigits s = true ->
  filter (fun x => negb (ascii_eqb x d)) s = s.
Proof.
  intros Hd. induction s as [|c s IH]; intros Hs; [reflexivity|].
  cbn [allDigits forallb] in Hs. apply andb_true_iff in Hs as [Hc Hs].
  cbn [filter].
  replace (ascii_eqb c d) with false
    by (symmetry; apply ascii_eqb_false; intros ->; congruence).
  cbn [negb]. f_equal. now apply IH.
Qed.

Lemma plain_filtered (d : ascii) (sep : str) :
  forallb (plainChar d) sep = true -> filter (keeps d) sep = [].
Proof.
  induction sep as [|x sep IH]; intros Hs; [reflexivity|].
  cbn [forallb] in Hs. apply andb_true_iff in Hs as [Hx Hs].
  unfold plainChar in Hx. apply andb_true_iff in Hx as [Hx Hd].
  apply andb_true_iff in Hx as [Hdig _].
  apply negb_true_iff in Hdig, Hd.
  cbn [filter]. unfold keeps at 1. rewrite Hdig, Hd. now apply IH.
Qed.

Lemma plain_noDash (d : ascii) (sep : str) :
  forallb (plainChar d) sep = true -> noDash sep = true.
Proof.
  induction sep as [|x sep IH]; intros Hs; [reflexivity|].
  cbn [forallb] in Hs. apply andb_true_iff in Hs as [Hx Hs].
  unfold plainChar in Hx. apply andb_true_iff in Hx as [Hx _].
  apply andb_true_iff in Hx as [_ Hdash].
  cbn [noDash forallb]. rewrite Hdash. now apply IH.
Qed.

Lemma Grouped_keeps (d : ascii) (sep digits g : str) :
  forallb (plainChar d) sep = true ->
  Grouped sep digits g ->
  filter (keeps d) g = filter (keeps d) digits.
Proof.
  intros Hsep Hg. induction Hg as [|c digits g Hg IH|digits g Hg IH].
  - reflexivity.
  - cbn [filter]. now rewrite IH.
  - now rewrite filter_app, plain_filtered.
Qed.

Lemma Grouped_noDash (d : ascii) (sep digits g : str) :
  forallb (plainChar d) sep = true ->
  noDash digits = true ->
  Grouped sep digits g ->
  noDash g = true.
Proof.
  intros Hsep Hd Hg. induction Hg as [|c digits g Hg IH|digits g Hg IH].
  - reflexivity.
  - cbn [noDash forallb] in *. apply andb_true_iff in Hd as [Hc Hd].
    rewrite Hc. now apply IH.
  - rewrite noDash_app, (plain_noDash d) by exact Hsep. now apply IH.
Qed.

(** The text [format] puts between the prefix and the suffix. *)
Definition groupedBody (props : NumericFormatProps) (whole : str)
    (fraction : option str) : str :=
  let separators := Numeric.getSeparators props in
  (if nonEmpty (Numeric.sepThousand separators)
   then applyThousandSeparator whole (Numeric.sepThousand separators)
          (orDefault (thousandsGroupStyle props) Thousand)
   else whole)
  ++ match fraction with
     | Some digits => Numeric.sepDecimal separators ++ digits
     | None => []
     end.

Lemma includes_dot (s t : str) : includes (s ++ dot :: t) (lit ".") = true.
Proof.
  unfold includes. change (lit ".") with [dot]. induction s as [|c s IH].
  - cbn [app]. now rewrite indexOf_single_cons, ascii_eqb_refl.
  - cbn [app]. rewrite indexOf_single_cons.
    destruct (ascii_eqb c dot); [reflexivity|].
    destruct (indexOf (s ++ dot :: t) [dot]); [reflexivity | discriminate].
Qed.

Lemma includes_no_dot (s : str) :
  existsb (ascii_eqb dot) s = false -> includes s (lit ".") = false.
Proof.
  unfold includes. induction s as [|c s IH]; intros Hs; [reflexivity|].
  cbn [existsb] in Hs. apply orb_false_iff in Hs as [Hc Hs].
  change (lit ".") with [dot]. rewrite indexOf_single_cons.
  replace (ascii_eqb c dot) with false
    by (symmetry; apply ascii_eqb_false; apply ascii_eqb_false in Hc; congruence).
  specialize (IH Hs). change (lit ".") with [dot] in IH.
  now destruct (indexOf s [dot]).
Qed.

Lemma canonical_not_empty (negative : bool) (whole : str) (fraction : option str) :
  allDigits whole = true ->
  (whole <> [] \/ fraction <> None) ->
  canonicalValue negative whole fraction <> lit ""
  /\ canonicalValue negative whole fraction <> lit "-".
Proof.
  intros Hw Hne. unfold canonicalValue.
  change (lit "") with (@nil ascii). change (lit "-") with [dash].
  destruct whole as [|c whole].
  - destruct fraction as [digits|]; [|destruct Hne; congruence].
    destruct negative; cbn [signText fractionText app]; split; discriminate.
  - cbn [allDigits forallb] in Hw. apply andb_true_iff in Hw as [Hc _].
    apply isDigit_not_dash, ascii_eqb_false in Hc.
    destruct negative; cbn [signText app]; split; intros Heq;
      try discriminate Heq.
    injection Heq as Heq _. contradiction.
Qed.

(** What [format] makes of a canonical value whose precision is kept. *)
Lemma format_canonical (props : NumericFormatProps) (negative : bool)
    (whole : str) (fraction : option str) :
  allDigits whole = true ->
  allDigits (fractionDigits fraction) = true ->
  (whole <> [] \/ fraction <> None) ->
  (negative = true -> allowNegative props = Some true) ->
  keepsPrecision props fraction = true ->
  Numeric.format (canonicalValue negative whole fraction) props
  = signText negative ++ orDefault (prefix props) []
    ++ groupedBody props whole fraction ++ orDefault (suffix props) [].
Proof.
  intros Hw Hf Hne Hneg Hprec.
  destruct (canonical_not_empty negative whole fraction Hw Hne) as [H0 H1].
  unfold Numeric.format.
  apply str_eqb_false in H0, H1. change (lit "") with (@nil ascii) in H0.
  rewrite H0, H1. cbn [orb]. cbv iota.
  rewrite (@splitDecimal_canonical U L negative whole fraction _ Hw Hf Hneg).
  cbn [beforeDecimal afterDecimal addNegation].
  rewrite nonEmpty_app_l, nonEmpty_app_r.
  (* the decimal part is left as it is *)
  assert (Hafter : match decimalScale props with
                   | Some scale =>
                       limitToScale (fractionDigits fraction) scale
                         (truthy (fixedDecimalScale props))
                   | None => fractionDigits fraction
                   end = fractionDigits fraction).
  { unfold keepsPrecision in Hprec.
    destruct (decimalScale props) as [scale|]; [|reflexivity].
    apply andb_true_iff in Hprec as [Hprec Hfix].
    apply andb_true_iff in Hprec as [Hle Hzero].
    apply Nat.leb_le in Hle.
    apply limitToScale_exact; [exact Hle|].
    intros Hfixed. rewrite Hfixed in Hfix. cbn [andb] in Hfix.
    destruct (Nat.eqb_spec scale 0) as [->|Hs]; [lia|].
    cbn [negb] in Hfix. destruct fraction as [digits|]; [|discriminate].
    now apply Nat.eqb_eq in Hfix. }
  rewrite Hafter.
  (* the separator is shown exactly when the value has a point *)
  assert (Hshown : (Numeric.scaleNotZero props
                    && includes (canonicalValue negative whole fraction) (lit "."))
                   || (Numeric.scaleTruthy props && truthy (fixedDecimalScale props))
                   = match fraction with Some _ => true | None => false end).
  { unfold keepsPrecision in Hprec.
    unfold Numeric.scaleNotZero, Numeric.scaleTruthy, canonicalValue.
    destruct fraction as [digits|]; cbn [fractionText fractionDigits] in *.
    - rewrite app_assoc, includes_dot.
      destruct (decimalScale props) as [[|scale]|]; try reflexivity.
      destruct (List.length digits <=? 0)%nat; cbn in Hprec; discriminate Hprec.
    - rewrite app_nil_r, includes_no_dot.
      + destruct (decimalScale props) as [[|scale]|]; try reflexivity.
        cbn [andb orb]. destruct (truthy (fixedDecimalScale props)); [|reflexivity].
        cbn in Hprec. discriminate Hprec.
      + rewrite existsb_app.
        assert (isDigit dot = false) by reflexivity.
        rewrite (allDigits_no_sep dot whole) by assumption.
        destruct negative; reflexivity. }
  rewrite Hshown. unfold groupedBody.
  destruct negative, fraction as [digits|];
    cbn [signText fractionDigits app]; rewrite <- ?app_assoc, ?app_nil_r;
    reflexivity.
Qed.

End RoundTrip.

Section RoundTripCases.

Context `{U : Utils} (L : UtilsLaws U).

Lemma charIsNumber_no_digit (s : str) :
  existsb isDigit s = false -> charIsNumber s = false.
Proof.
  intros Hs. destruct (charIsNumber s) eqn:E; [|reflexivity].
  apply charIsNumber_has_digit in E. congruence.
Qed.

Lemma substringFrom_nil (i : Z) : substringFrom [] i = [].
Proof. unfold substringFrom. now destruct (clamp [] i). Qed.

Lemma substring_nil (a b : Z) : substring [] a b = [].
Proof.
  unfold substring. rewrite skipn_nil. now rewrite firstn_nil.
Qed.

Lemma startsWith_nil_inv (p : str) : startsWith [] p = true -> p = [].
Proof. destruct p; [reflexivity | discriminate]. Qed.

Lemma stripNegation_nil (pre suf : str) (start end_ : Z) :
  Numeric.stripNegation pre suf [] start end_ = Numeric.mkNegation [] start end_ false.
Proof.
  unfold Numeric.stripNegation.
  destruct (startsWith pre (lit "-")); [reflexivity|].
  change (startsWith [] (lit "--")) with false. cbv iota.
  destruct (startsWith suf (lit "-") && (len [] =? len suf)); reflexivity.
Qed.

(** An edit on an empty last value is never reset to it. *)
Lemma resetsToLastValue_empty (value : str) (changeMeta : ChangeMeta)
    (props : NumericFormatProps) :
  lastValue changeMeta = [] ->
  Numeric.resetsToLastValue value changeMeta props = false.
Proof.
  intros Hlast. unfold Numeric.resetsToLastValue.
  rewrite Hlast, stripNegation_nil. cbn [Numeric.nValue nonEmpty].
  now rewrite andb_false_r.
Qed.

(** Nothing is cleared when the new range is not shorter than the old. *)
Lemma clearsValue_not_shorter (value : str) (changeMeta : ChangeMeta)
    (props : NumericFormatProps) :
  r_end (from changeMeta) - r_start (from changeMeta)
  <= Numeric.sToEnd (Numeric.stripDecorations value changeMeta props)
     - Numeric.sToStart (Numeric.stripDecorations value changeMeta props) ->
  Numeric.clearsValue value changeMeta props = false.
Proof.
  intros Hle. unfold Numeric.clearsValue.
  destruct (Z.ltb_spec
              (Numeric.sToEnd (Numeric.stripDecorations value changeMeta props)
               - Numeric.sToStart (Numeric.stripDecorations value changeMeta props))
              (r_end (from changeMeta) - r_start (from changeMeta))); [lia|].
  reflexivity.
Qed.

(** The empty value comes back empty. *)
Lemma removeFormatting_empty (props : NumericFormatProps) (d : ascii) :
  Numeric.sepDecimal (Numeric.getSeparators props) = [d] ->
  Numeric.removeFormattingDefault (lit "") props = lit "".
Proof.
  intros Hsep.
  unfold Numeric.removeFormattingDefault. rewrite getDefaultChangeMeta_whole.
  change (lit "") with (@nil ascii). change (len []) with 0.
  set (changeMeta := mkChangeMeta (mkRange 0 0) (mkRange 0 0) []).
  assert (Hstrip : exists startIndex,
             startIndex <= 0
             /\ Numeric.stripDecorations [] changeMeta props
                = Numeric.mkStripped [] 0 (0 - startIndex)).
  { unfold Numeric.stripDecorations.
    rewrite resetsToLastValue_empty by reflexivity.
    change (Numeric.replaceTypedSeparator [] changeMeta props) with (@nil ascii).
    cbn [to r_start r_end changeMeta].
    rewrite stripNegation_nil.
    cbn [Numeric.nValue Numeric.nStart Numeric.nEnd Numeric.nHasNegation].
    eexists. split; [|rewrite substringFrom_nil, substring_nil; reflexivity].
    destruct (startsWith [] (orDefault (prefix props) [])) eqn:E.
    - apply startsWith_nil_inv in E. rewrite E. cbn. lia.
    - destruct (0 <? len (orDefault (prefix props) [])); lia. }
  destruct Hstrip as [startIndex [Hle Hstrip]].
  unfold Numeric.removeFormatting.
  replace (Numeric.returnsUnchanged [] changeMeta props) with false
    by (unfold Numeric.returnsUnchanged; now rewrite charIsNumber_no_digit).
  rewrite clearsValue_not_shorter
    by (rewrite Hstrip; cbn [Numeric.sToEnd Numeric.sToStart changeMeta from r_end r_start];
        lia).
  unfold Numeric.numericText. rewrite Hstrip, Hsep. reflexivity.
Qed.

(** The sign alone comes back as it is. *)
Lemma removeFormatting_sign (props : NumericFormatProps) (d : ascii) :
  Numeric.sepDecimal (Numeric.getSeparators props) = [d] ->
  d <> dash ->
  allowNegative props = Some true ->
  startsWith (orDefault (prefix props) []) (lit "-") = false ->
  orDefault (suffix props) [] <> lit "-" ->
  JS.mem (lit "-") (Numeric.sepAllowed (Numeric.getSeparators props)) = false ->
  Numeric.removeFormattingDefault (lit "-") props = lit "-".
Proof.
  intros Hsep Hd Hneg Hpre Hsuf Hallowed.
  unfold Numeric.removeFormattingDefault. rewrite getDefaultChangeMeta_whole.
  change (len (lit "-")) with 1.
  set (changeMeta := mkChangeMeta (mkRange 0 0) (mkRange 0 1) []).
  assert (Htyped : Numeric.replaceTypedSeparator (lit "-") changeMeta props = lit "-").
  { unfold Numeric.replaceTypedSeparator. cbn [to r_start r_end changeMeta].
    unfold charAt_mem. change (charAt (lit "-") 0) with (Some dash). cbv iota.
    change (lit "-") with [dash] in Hallowed. now rewrite Hallowed, andb_false_r. }
  assert (Hnegation : Numeric.stripNegation (orDefault (prefix props) [])
                        (orDefault (suffix props) []) (lit "-") 0 1
                      = Numeric.mkNegation [] (-1) 0 true).
  { unfold Numeric.stripNegation. rewrite Hpre.
    change (startsWith (lit "-") (lit "--")) with false. cbv iota.
    assert (Hs : startsWith (orDefault (suffix props) []) (lit "-")
                 && (len (lit "-") =? len (orDefault (suffix props) [])) = false).
    { destruct (orDefault (suffix props) []) as [|c [|c' s]]; try reflexivity.
      - change (lit "-") with [dash]. rewrite startsWith_single.
        destruct (ascii_eqb c dash) eqn:E; [|reflexivity].
        apply ascii_eqb_true in E. subst c. now contradiction Hsuf.
      - apply andb_false_iff. right. apply Z.eqb_neq.
        unfold len. simpl List.length. lia. }
    rewrite Hs. reflexivity. }
  assert (Hstrip : exists startIndex,
             startIndex <= 0
             /\ Numeric.stripDecorations (lit "-") changeMeta props
                = Numeric.mkStripped (lit "-") (-1) (0 - startIndex)).
  { unfold Numeric.stripDecorations.
    rewrite resetsToLastValue_empty by reflexivity.
    rewrite Htyped. cbn [to r_start r_end changeMeta]. rewrite Hnegation.
    cbn [Numeric.nValue Numeric.nStart Numeric.nEnd Numeric.nHasNegation].
    rewrite substringFrom_nil, substring_nil.
    rewrite (handleNegation_signed true []) by reflexivity.
    rewrite Hneg. cbn [truthy andb signText app].
    eexists. split; [|reflexivity].
    destruct (startsWith [] (orDefault (prefix props) [])) eqn:E.
    - apply startsWith_nil_inv in E. rewrite E. cbn. lia.
    - destruct (-1 <? len (orDefault (prefix props) [])); lia. }
  destruct Hstrip as [startIndex [Hle Hstrip]].
  unfold Numeric.removeFormatting.
  replace (Numeric.returnsUnchanged (lit "-") changeMeta props) with false
    by (unfold Numeric.returnsUnchanged; now rewrite charIsNumber_no_digit).
  rewrite clearsValue_not_shorter
    by (rewrite Hstrip; cbn [Numeric.sToEnd Numeric.sToStart changeMeta from r_end r_start];
        lia).
  unfold Numeric.numericText. rewrite Hstrip, Hsep. cbn [Numeric.sText].
  rewrite collapseSeparators_single, keepNumeric_single.
  change (lit "-") with [dash]. cbv beta iota.
  rewrite ascii_eqb_refl. cbn [filter collapseFirst].
  replace (ascii_eqb dash d) with false
    by (symmetry; apply ascii_eqb_false; congruence).
  reflexivity.
Qed.

End RoundTripCases.

Section RoundTripFormatted.

Context `{U : Utils} (L : UtilsLaws U).

Variable props : NumericFormatProps.
Variable negative : bool.
Variable whole : str.
Variable fraction : option str.
Variable d : ascii.

Hypothesis Hwhole : allDigits whole = true.
Hypothesis Hfraction : allDigits (fractionDigits fraction) = true.
Hypothesis Hsome : whole <> [] \/ fraction <> None.
Hypothesis Hsep : Numeric.sepDecimal (Numeric.getSeparators props) = [d].
Hypothesis Hdigit : isDigit d = false.
Hypothesis Hdash : d <> dash.
Hypothesis Hthousand :
  forallb (plainChar d) (Numeric.sepThousand (Numeric.getSeparators props)) = true.
Hypothesis Hallowed :
  allowedArePlain (Numeric.sepAllowed (Numeric.getSeparators props)) = true.
Hypothesis Hnegative :
  negative = true ->
  allowNegative props = Some true
  /\ startsWith (orDefault (prefix props) []) (lit "-") = false.
Hypothesis Hscale : fraction <> None -> decimalScale props <> Some O.

Let pre := orDefault (prefix props) [].
Let suf := orDefault (suffix props) [].
Let body := groupedBody props whole fraction.
Let kept := whole ++ match fraction with Some digits => d :: digits | None => [] end.

Lemma body_kept : filter (keeps d) body = kept.
Proof.
  subst body kept. unfold groupedBody. cbv zeta. rewrite filter_app, Hsep.
  match goal with
  | |- filter (keeps d) ?g ++ _ = _ =>
      assert (Hg : Grouped (Numeric.sepThousand (Numeric.getSeparators props)) whole g)
        by (destruct (nonEmpty _);
            [apply applyThousandSeparator_grouped | apply Grouped_refl]);
      rewrite (Grouped_keeps d _ _ g Hthousand Hg)
  end.
  rewrite allDigits_keeps by exact Hwhole.
  f_equal. destruct fraction as [digits|]; [|reflexivity].
  cbn [app filter]. unfold keeps at 1. rewrite ascii_eqb_refl, orb_true_r.
  f_equal. now apply allDigits_keeps.
Qed.

Lemma body_noDash : noDash body = true.
Proof.
  subst body. unfold groupedBody. cbv zeta. rewrite noDash_app, Hsep.
  match goal with
  | |- noDash ?g && _ = _ =>
      assert (Hg : Grouped (Numeric.sepThousand (Numeric.getSeparators props)) whole g)
        by (destruct (nonEmpty _);
            [apply applyThousandSeparator_grouped | apply Grouped_refl]);
      rewrite (Grouped_noDash d _ _ g Hthousand (allDigits_noDash _ Hwhole) Hg)
  end.
  destruct fraction as [digits|]; [|reflexivity].
  cbn [app noDash forallb andb].
  replace (ascii_eqb d dash) with false
    by (symmetry; now apply ascii_eqb_false).
  cbn [negb andb]. now apply allDigits_noDash.
Qed.

Lemma kept_not_empty : kept <> [].
Proof.
  subst kept. destruct Hsome as [Hw|Hf].
  - destruct whole; [contradiction | discriminate].
  - destruct fraction; [|contradiction]. destruct whole; discriminate.
Qed.

Lemma body_not_empty : (1 <= List.length body)%nat.
Proof.
  pose proof body_kept as Hk. pose proof kept_not_empty as Hne.
  destruct body as [|c b]; [cbn in Hk; congruence | simpl; lia].
Qed.

Lemma allowed_plain (x : ascii) :
  JS.mem [x] (Numeric.sepAllowed (Numeric.getSeparators props)) = true ->
  isDigit x = false /\ x <> dash.
Proof.
  unfold allowedArePlain in Hallowed.
  induction (Numeric.sepAllowed (Numeric.getSeparators props)) as [|s l IH];
    intros Hmem; [discriminate|].
  cbn [forallb] in Hallowed. apply andb_true_iff in Hallowed as [Hs Hl].
  cbn [JS.mem] in Hmem. apply orb_true_iff in Hmem as [Hx|Hmem].
  - apply str_eqb_true in Hx. subst s.
    apply andb_true_iff in Hs as [Hd Hnd]. apply negb_true_iff in Hd, Hnd.
    split; [exact Hd | now apply ascii_eqb_false].
  - now apply IH.
Qed.

Let formatted := signText negative ++ pre ++ body ++ suf.
Let changeMeta := mkChangeMeta (mkRange 0 0) (mkRange 0 (len formatted)) [].

(** Nothing is replaced in a formatted value: it is longer than one
    character, or it is one digit, or it is the decimal separator itself. *)
Lemma formatted_not_retyped :
  Numeric.replaceTypedSeparator formatted changeMeta props = formatted.
Proof.
  unfold Numeric.replaceTypedSeparator. cbn [to r_start r_end changeMeta].
  destruct (Z.eqb_spec (len formatted - 0) 1) as [Hlen|Hlen]; [|reflexivity].
  cbn [andb].
  destruct (charAt_mem formatted 0 (Numeric.sepAllowed (Numeric.getSeparators props)))
    eqn:Emem; [|reflexivity].
  (* one character: the body, which is the decimal separator *)
  assert (Hparts : signText negative = [] /\ pre = [] /\ suf = []
                   /\ List.length body = 1%nat).
  { pose proof body_not_empty as Hb. subst formatted. unfold len in Hlen.
    rewrite !length_app in Hlen.
    repeat split; try (apply length_zero_iff_nil); lia. }
  destruct Hparts as [Hs [Hp [Hf Hb]]].
  assert (Hformatted : formatted = body).
  { subst formatted. rewrite Hs, Hp, Hf. cbn [app]. apply app_nil_r. }
  rewrite Hformatted in *.
  destruct body as [|x [|y b]] eqn:Ebody; try discriminate Hb.
  unfold charAt_mem in Emem. change (charAt [x] 0) with (Some x) in Emem.
  cbv iota in Emem. destruct (allowed_plain x Emem) as [Hxd Hxn].
  pose proof body_kept as Hk. rewrite Ebody in Hk.
  cbn [filter] in Hk. unfold keeps in Hk. rewrite Hxd in Hk. cbn [orb] in Hk.
  destruct (ascii_eqb x d) eqn:Exd;
    [|exfalso; apply kept_not_empty; now rewrite <- Hk].
  apply ascii_eqb_true in Exd. subst x.
  assert (Hfr : fraction <> None).
  { subst kept. intros Hnone. rewrite Hnone, app_nil_r in Hk.
    rewrite <- Hk in Hwhole. cbn [allDigits forallb] in Hwhole.
    rewrite Hdigit in Hwhole. discriminate Hwhole. }
  specialize (Hscale Hfr). rewrite Hsep.
  change (len [d]) with 1. change (substring [d] 0 0) with (@nil ascii).
  change (substring [d] (0 + 1) 1) with (@nil ascii).
  destruct (decimalScale props) as [[|n]|]; [congruence | reflexivity | reflexivity].
Qed.

Lemma formatted_head :
  (negative = false /\ startsWith pre (lit "-") = true)
  \/ startsWith (pre ++ body ++ suf) (lit "-") = false.
Proof.
  destruct (startsWith pre (lit "-")) eqn:Epre.
  - destruct negative; [|now left].
    destruct (Hnegative eq_refl) as [_ Hp]. subst pre. congruence.
  - right. destruct pre as [|c p] eqn:E.
    + cbn [app]. pose proof body_not_empty as Hb. pose proof body_noDash as Hn.
      destruct body as [|x b]; [simpl in Hb; lia|].
      cbn [noDash forallb] in Hn. apply andb_true_iff in Hn as [Hx _].
      apply negb_true_iff in Hx. cbn [app].
      change (lit "-") with [dash]. now rewrite startsWith_single.
    + change (lit "-") with [dash] in *. cbn [app].
      now rewrite startsWith_single in *.
Qed.

(** A decorated canonical value is stripped to the value it came from. *)
Lemma removeFormatting_formatted :
  Numeric.removeFormattingDefault formatted props
  = canonicalValue negative whole fraction.
Proof.
  unfold Numeric.removeFormattingDefault. rewrite getDefaultChangeMeta_whole.
  fold changeMeta.
  pose proof (stripDecorations_framed formatted changeMeta props negative body
                formatted_not_retyped
                (resetsToLastValue_empty _ changeMeta props eq_refl)
                formatted_head body_noDash) as Hstrip.
  cbn [to from r_start r_end changeMeta] in Hstrip.
  assert (Hsign : negative && truthy (allowNegative props) = negative).
  { destruct negative; [|reflexivity].
    destruct (Hnegative eq_refl) as [Ha _]. now rewrite Ha. }
  rewrite Hsign in Hstrip.
  assert (Hret : Numeric.returnsUnchanged formatted changeMeta props = false).
  { unfold Numeric.returnsUnchanged. fold pre suf.
    pose proof body_not_empty as Hb.
    rewrite (str_eqb_longer formatted pre), (str_eqb_longer formatted suf)
      by (subst formatted; rewrite !length_app; lia).
    cbn [orb]. now rewrite andb_false_r. }
  unfold Numeric.removeFormatting. rewrite Hret.
  rewrite clearsValue_not_shorter.
  2:{ rewrite Hstrip. cbn [Numeric.sToEnd Numeric.sToStart changeMeta from r_end r_start].
      subst formatted. rewrite !len_app.
      pose proof (len_nonneg body). pose proof (len_nonneg suf).
      pose proof (len_nonneg (signText negative)). subst pre. lia. }
  unfold Numeric.numericText. rewrite Hstrip, Hsep. cbn [Numeric.sText].
  rewrite collapseSeparators_single.
  rewrite keepNumeric_signed by (exact Hdash || exact body_noDash).
  rewrite body_kept. subst kept. unfold canonicalValue.
  destruct fraction as [digits|]; cbn [fractionText fractionDigits] in *.
  - rewrite app_assoc. rewrite collapseFirst_split.
    + rewrite allDigits_filter_sep by assumption. now rewrite <- app_assoc.
    + rewrite existsb_app, existsb_sign_sep by exact Hdash.
      now apply allDigits_no_sep.
  - rewrite app_nil_r. apply collapseFirst_none.
    rewrite existsb_app, existsb_sign_sep by exact Hdash.
    now apply allDigits_no_sep.
Qed.

End RoundTripFormatted.

Lemma allowedArePlain_no_dash (allowed : list str) :
  allowedArePlain allowed = true -> JS.mem (lit "-") allowed = false.
Proof.
  unfold allowedArePlain. change (lit "-") with [dash].
  induction allowed as [|s l IH]; intros Hall; [reflexivity|].
  cbn [forallb] in Hall. apply andb_true_iff in Hall as [Hs Hl].
  cbn [JS.mem]. rewrite (IH Hl), orb_false_r.
  destruct s as [|x [|y s]]; try reflexivity.
  - apply andb_true_iff in Hs as [_ Hx]. apply negb_true_iff in Hx.
    cbn [str_eqb]. now rewrite Hx.
  - cbn [str_eqb]. now rewrite andb_false_r.
Qed.

Lemma keepsPrecision_scale (props : NumericFormatProps) (fraction : option str) :
  keepsPrecision props fraction = true ->
  fraction <> None -> decimalScale props <> Some O.
Proof.
  unfold keepsPrecision. intros Hk Hf Hs. rewrite Hs in Hk.
  destruct fraction as [digits|]; [|contradiction].
  rewrite andb_false_r in Hk. discriminate Hk.
Qed.

(** A configuration that pads: two decimal places, always shown. *)
Definition twoFixedDecimals : NumericFormatProps :=
  mkNumericProps None None None None (Some 2%nat) (Some true) (Some true) None None.

(** A dollar prefix and grouped thousands. *)
Definition groupedDollars : NumericFormatProps :=
  mkNumericProps (Some (TSBool true)) None None None None None (Some true)
    None (Some (lit "$")).

(** C1 (as amended). Formatting a canonical value and stripping the result
    with the default change-meta gives the value back.  The value is an
    optional sign, digits [whole] and an optional point followed by digits
    [fraction].  The configuration has a decimal separator [d] of one
    character, neither a digit nor the dash; the characters of the thousand
    separator are neither digits, nor the dash, nor [d]; no allowed decimal
    separator of one character is a digit or the dash; when the value is
    negative, negative numbers are allowed and the prefix does not start
    with a dash; when the value is the sign alone, the suffix is not the
    dash; and [decimalScale] neither cuts the decimal digits of the value,
    nor pads them ([fixedDecimalScale]), nor is 0 when the value has a
    point.  The helpers of [./utils] are any that meet [UtilsLaws]. *)
Theorem removeFormatting_of_format_is_identity `{U : Utils} {L : UtilsLaws U}
    (props : NumericFormatProps) (negative : bool) (whole : str)
    (fraction : option str) (d : ascii) :
  let v := canonicalValue negative whole fraction in
  allDigits whole = true ->
  allDigits (fractionDigits fraction) = true ->
  Numeric.sepDecimal (Numeric.getSeparators props) = [d] ->
  isDigit d = false ->
  d <> dash ->
  forallb (plainChar d) (Numeric.sepThousand (Numeric.getSeparators props)) = true ->
  allowedArePlain (Numeric.sepAllowed (Numeric.getSeparators props)) = true ->
  (negative = true ->
   allowNegative props = Some true
   /\ startsWith (orDefault (prefix props) []) (lit "-") = false) ->
  (v = lit "-" -> orDefault (suffix props) [] <> lit "-") ->
  keepsPrecision props fraction = true ->
  Numeric.removeFormattingDefault (Numeric.format v props) props = v.
Proof.
  cbv zeta. intros Hwhole Hfraction Hsep Hdigit Hdash Hthousand Hallowed
    Hnegative Hsuffix Hprecision.
  assert (Hcase : (whole <> [] \/ fraction <> None)
                  \/ (whole = [] /\ fraction = None)).
  { destruct whole; [|left; left; discriminate].
    destruct fraction; [left; right; discriminate | right; split; reflexivity]. }
  destruct Hcase as [Hsome | [Hw Hf]].
  { rewrite (@format_canonical U L); auto.
    - apply (@removeFormatting_formatted U L props negative whole fraction d); auto.
      now apply keepsPrecision_scale.
    - intros Hn. now destruct (Hnegative Hn). }
  subst whole fraction.
  destruct negative.
  - change (canonicalValue true [] None) with (lit "-") in *.
    change (Numeric.format (lit "-") props) with (lit "-").
    destruct (Hnegative eq_refl) as [Hallow Hprefix].
    apply (@removeFormatting_sign U L props d); auto.
    now apply allowedArePlain_no_dash.
  - change (canonicalValue false [] None) with (lit "") in *.
    change (Numeric.format (lit "") props) with (lit "").
    now apply (@removeFormatting_empty U L props d).
Qed.

(** [-1234.5] is shown as [-$1,234.5] and read back. *)
Lemma removeFormatting_of_format_is_identity_witness :
  @Numeric.format utilsModel (lit "-1234.5") groupedDollars = lit "-$1,234.5"
  /\ @Numeric.removeFormattingDefault utilsModel
       (@Numeric.format utilsModel (lit "-1234.5") groupedDollars) groupedDollars
     = lit "-1234.5".
Proof.
  split; [reflexivity|].
  refine (@removeFormatting_of_format_is_identity utilsModel utilsModel_laws
            groupedDollars true (lit "1234") (Some (lit "5")) "."%char
            _ _ _ _ _ _ _ _ _ _);
    try reflexivity; try discriminate.
  intros _. split; reflexivity.
Defined.

(** C1, the claim as stated, fails where the configuration pads the decimal
    part: with [decimalScale] 2 and [fixedDecimalScale], which cuts no digit
    of the canonical value [1], the value is shown as [1.00] and read back
    as [1.00]. *)
Lemma fixed_scale_padding_is_read_back :
  @Numeric.format utilsModel (lit "1") twoFixedDecimals = lit "1.00"
  /\ @Numeric.removeFormattingDefault utilsModel
       (@Numeric.format utilsModel (lit "1") twoFixedDecimals) twoFixedDecimals
     = lit "1.00"
  /\ lit "1.00" <> lit "1".
Proof. repeat split; try reflexivity. discriminate. Qed.

(** ** The edit handler: an edit turned down by [isAllowed] *)

Section Rejection.

Variable F : Type.
Variable env : Base.Env F.

(** The element after the previous formatted value was written back, and
    the caret position computed for it. *)
Definition restoredInput (st : Base.State F) : Base.InputElement :=
  Base.setValue env (Base.input st) (Base.formattedValue st).

Definition resolvedCaret (st : Base.State F) : Z :=
  Base.getNewCaretPosition env st (Base.elValue (Base.input st))
    (Base.formattedValue st) (Base.geInputCaretPosition env (Base.input st)).

Definition wholeSelected (el : Base.InputElement) : bool :=
  (Base.selectionStart el =? 0) && (Base.selectionEnd el =? len (Base.elValue el)).

Lemma formatInputValue_rejected (st : Base.State F) :
  Base.rejected env st ->
  Base.formatInputValue env st (Base.elValue (Base.input st)) Base.SourceEvent
  = (Base.setPatchedCaretPosition env
       (Base.withInput st (restoredInput st) (Base.setCaretTimeout st))
       (resolvedCaret st) (Base.formattedValue st), false).
Proof.
  intros [allowed [Hallowed Hfalse]]. cbv zeta in Hfalse.
  unfold Base.formatInputValue. cbv zeta. rewrite Hallowed, Hfalse.
  reflexivity.
Qed.

Lemma setPatchedCaretPosition_input (st : Base.State F) (caretPos : Z) (v : str) :
  Base.input (Base.setPatchedCaretPosition env st caretPos v)
  = if wholeSelected (Base.input st) then Base.input st
    else Base.setCaretPosition env (Base.input st) caretPos.
Proof.
  unfold Base.setPatchedCaretPosition, wholeSelected. cbv zeta.
  now destruct (_ && _).
Qed.

Lemma setPatchedCaretPosition_keeps (st : Base.State F) (caretPos : Z) (v : str) :
  let st' := Base.setPatchedCaretPosition env st caretPos v in
  Base.formattedValue st' = Base.formattedValue st
  /\ Base.numAsString st' = Base.numAsString st
  /\ Base.notifications st' = Base.notifications st
  /\ Base.setCaretTimeout st'
     = if wholeSelected (Base.input st) then Base.setCaretTimeout st
       else Some (Base.mkTimer caretPos v).
Proof.
  unfold Base.setPatchedCaretPosition, wholeSelected. cbv zeta.
  now destruct (_ && _).
Qed.

Lemma onChange_rejected_input (st : Base.State F) :
  Base.rejected env st ->
  Base.input (Base.onChange_ env st)
  = if wholeSelected (restoredInput st) then restoredInput st
    else Base.setCaretPosition env (restoredInput st) (resolvedCaret st).
Proof.
  intros Hrejected. unfold Base.onChange_. cbv zeta.
  rewrite (formatInputValue_rejected st Hrejected). cbv beta iota.
  cbn [Base.input]. now rewrite setPatchedCaretPosition_input.
Qed.

End Rejection.

Arguments restoredInput {F} env st.
Arguments resolvedCaret {F} env st.

(** Stand-ins for the props and the helpers of a field that takes two
    digits at most: the defaults of the base component for [format] and
    [removeFormatting], every caret position allowed, the caret kept where
    it is within the value, and a browser that moves the caret to the end
    of a value it is given. *)
Definition twoDigitsField : Base.Env Z :=
  {| Base.format := Base.defaultFormat;
     Base.removeFormatting := fun value _ => Base.defaultRemoveFormatting value;
     Base.getCaretBoundary := fun value => repeat true (S (List.length value));
     Base.isAllowed := Some (fun values => len (Base.vValue values) <=? 2);
     Base.parseFloat := fun _ => None;
     Base.setValue := fun _ v => Base.mkInput v (len v) (len v);
     Base.findChangeRange := fun _ _ => (mkRange 0 0, mkRange 0 0);
     Base.findChangedRangeFromCaretPositions :=
       fun region e =>
         (mkRange (Base.regionStart region) (Base.regionEnd region),
          mkRange (Base.regionStart region) e);
     Base.geInputCaretPosition :=
       fun el => Z.max (Base.selectionStart el) (Base.selectionEnd el);
     Base.getCaretPosition := fun value _ _ caretPos _ => Z.min caretPos (len value);
     Base.getCaretPosInBoundary := fun value caretPos _ => Z.max 0 (Z.min caretPos (len value));
     Base.setCaretPosition := fun el caretPos => Base.mkInput (Base.elValue el) caretPos caretPos |}.

(** The same stand-ins with an [isAllowed] that turns every value down. *)
Definition nothingAllowed : Base.Env Z :=
  {| Base.format := Base.format twoDigitsField;
     Base.removeFormatting := Base.removeFormatting twoDigitsField;
     Base.getCaretBoundary := Base.getCaretBoundary twoDigitsField;
     Base.isAllowed := Some (fun _ => false);
     Base.parseFloat := Base.parseFloat twoDigitsField;
     Base.setValue := Base.setValue twoDigitsField;
     Base.findChangeRange := Base.findChangeRange twoDigitsField;
     Base.findChangedRangeFromCaretPositions :=
       Base.findChangedRangeFromCaretPositions twoDigitsField;
     Base.geInputCaretPosition := Base.geInputCaretPosition twoDigitsField;
     Base.getCaretPosition := Base.getCaretPosition twoDigitsField;
     Base.getCaretPosInBoundary := Base.getCaretPosInBoundary twoDigitsField;
     Base.setCaretPosition := Base.setCaretPosition twoDigitsField |}.

(** C2. An edit turned down by [isAllowed] does not get its caret region
    back.  The rejection branch writes the previous formatted value to the
    field and notifies nobody, but it never reads the caret region recorded
    before the edit: it puts the caret where the caret resolver says, from
    the caret the edit left.  The field showed [11]; in one edit both digits
    were selected and [1] was typed over them, in the other the caret stood
    at the end and the last digit was deleted.  Both edits leave the element
    holding [1] with the caret at 1.  With the stand-ins of a browser the
    handler ends on [11] with the caret at 1 after the first edit, not with
    the selection from 0 to 2; and whatever the helpers are, it leaves the
    same element after both edits, so that the selection from 0 to 2 and
    the caret at 2 are not both restored. *)
Theorem rejection_forgets_the_recorded_caret_region :
  let edited := Base.mkInput (lit "1") 1 1 in
  let typedOver :=
    Base.mkState edited (lit "11") (lit "11") (Some (Base.mkRegion 0 2)) None [] in
  let deleted :=
    Base.mkState edited (lit "11") (lit "11") (Some (Base.mkRegion 2 2)) None [] in
  let selection := fun st : Base.State Z =>
    (Base.selectionStart (Base.input st), Base.selectionEnd (Base.input st)) in
  Base.caretPositionBeforeChange typedOver = Some (Base.mkRegion 0 2)
  /\ Base.caretPositionBeforeChange deleted = Some (Base.mkRegion 2 2)
  /\ Base.input (Base.onChange_ nothingAllowed typedOver) = Base.mkInput (lit "11") 1 1
  /\ Base.notifications (Base.onChange_ nothingAllowed typedOver) = []
  /\ (forall (env : Base.Env Z),
        Base.isAllowed env = Some (fun _ => false) ->
        Base.input (Base.onChange_ env typedOver)
        = Base.input (Base.onChange_ env deleted)
        /\ (selection (Base.onChange_ env typedOver) <> (0, 2)
            \/ selection (Base.onChange_ env deleted) <> (2, 2))).
Proof.
  cbv zeta. split; [reflexivity|]. split; [reflexivity|].
  split; [reflexivity|]. split; [reflexivity|].
  intros env Hallowed.
  assert (Hsame : Base.input
                    (Base.onChange_ env
                       (Base.mkState (Base.mkInput (lit "1") 1 1) (lit "11") (lit "11")
                          (Some (Base.mkRegion 0 2)) None []))
                  = Base.input
                      (Base.onChange_ env
                         (Base.mkState (Base.mkInput (lit "1") 1 1) (lit "11") (lit "11")
                            (Some (Base.mkRegion 2 2)) None []))).
  { rewrite !onChange_rejected_input
      by (exists (fun _ => false); split; [exact Hallowed | reflexivity]).
    reflexivity. }
  split; [exact Hsame|]. cbv beta. rewrite Hsame.
  generalize (Base.input
                (Base.onChange_ env
                   (Base.mkState (Base.mkInput (lit "1") 1 1) (lit "11") (lit "11")
                      (Some (Base.mkRegion 2 2)) None []))).
  intros el. destruct (Z.eq_dec (Base.selectionStart el) 0) as [Hstart|Hstart].
  - right. intros Heq. injection Heq as Hs _. lia.
  - left. intros Heq. injection Heq as Hs _. contradiction.
Qed.

(** * Further properties of the modules *)

(** ** Numeric format: the sign *)

(** X1. [handleNegation] leaves at most one dash, in front: every dash of
    the value is removed and one is put back at the start only when the
    value has a dash, has no two dashes on one line, and negative numbers
    are allowed.  The other characters are kept in their order, and the
    function applied to its own result changes nothing. *)
Theorem handleNegation_leaves_one_leading_dash (value : str)
    (allowNeg : option bool) :
  let notDash := fun c : ascii => negb (ascii_eqb c dash) in
  let result := Numeric.handleNegation value allowNeg in
  noDash (tl result) = true
  /\ filter notDash result = filter notDash value
  /\ (startsWith result (lit "-") = true
      <-> (existsb (fun c => ascii_eqb c dash) value = true
           /\ Numeric.doubleNegation false value = false
           /\ truthy allowNeg = true))
  /\ Numeric.handleNegation result allowNeg = result.
Proof.
  cbv zeta.
  pose proof (noDash_filter value) as Hclean.
  destruct (handleNegation_cases value allowNeg)
    as [[Hr [Hallow [Hdouble Hhas]]] | [Hr Hwhy]]; rewrite Hr.
  - split; [exact Hclean|]. split.
    + cbn [filter]. rewrite ascii_eqb_refl. cbn [negb].
      now apply filter_noDash.
    + split.
      * change (lit "-") with [dash]. rewrite startsWith_single, ascii_eqb_refl.
        split; [now intros _ | reflexivity].
      * rewrite (handleNegation_signed true _ allowNeg Hclean), Hallow.
        reflexivity.
  - split.
    + destruct (filter _ value) as [|c s] eqn:E; [reflexivity|].
      cbn [tl]. cbn [noDash forallb] in Hclean.
      now apply andb_true_iff in Hclean as [_ Hs].
    + split; [now apply filter_noDash|]. split.
      * split.
        -- intros Hstart. exfalso.
           destruct (filter _ value) as [|c s] eqn:E; [discriminate Hstart|].
           change (lit "-") with [dash] in Hstart.
           rewrite startsWith_single in Hstart.
           cbn [noDash forallb] in Hclean.
           apply andb_true_iff in Hclean as [Hc _]. rewrite Hstart in Hc.
           discriminate Hc.
        -- intros [Hhas [Hdouble Hallow]].
           destruct Hwhy as [H | [H | H]]; congruence.
      * apply (handleNegation_signed false _ allowNeg Hclean).
Qed.

(** ** Numeric format: the shape of the value [removeFormatting] returns *)

Section CanonicalResult.

Variable d : ascii.
Hypothesis Hdigit : isDigit d = false.
Hypothesis Hdash : d <> dash.

Lemma filter_not_sep_digits (s : str) :
  forallb (keeps d) s = true ->
  allDigits (filter (fun x => negb (ascii_eqb x d)) s) = true.
Proof.
  induction s as [|c s IH]; intros Hs; [reflexivity|].
  cbn [forallb] in Hs. apply andb_true_iff in Hs as [Hc Hs].
  cbn [filter]. destruct (ascii_eqb c d) eqn:Ecd; cbn [negb]; [now apply IH|].
  unfold keeps in Hc. rewrite Ecd, orb_false_r in Hc.
  cbn [allDigits forallb]. rewrite Hc. now apply IH.
Qed.

(** Digits and separators, collapsed: digits, then at most one point and
    digits. *)
Lemma collapseFirst_canonical (s : str) :
  forallb (keeps d) s = true ->
  exists whole fraction,
    collapseFirst d s = whole ++ fractionText fraction
    /\ allDigits whole = true
    /\ allDigits (fractionDigits fraction) = true.
Proof.
  induction s as [|c s IH]; intros Hs.
  - exists [], None. now repeat split.
  - pose proof Hs as Hall.
    cbn [forallb] in Hs. apply andb_true_iff in Hs as [Hc Hs].
    cbn [collapseFirst]. destruct (ascii_eqb c d) eqn:Ecd.
    + exists [], (Some (filter (fun x => negb (ascii_eqb x d)) s)).
      repeat split. now apply filter_not_sep_digits.
    + destruct (IH Hs) as [whole [fraction [Heq [Hw Hf]]]].
      exists (c :: whole), fraction. rewrite Heq. repeat split; [|exact Hf].
      unfold keeps in Hc. rewrite Ecd, orb_false_r in Hc.
      cbn [allDigits forallb]. now rewrite Hc.
Qed.

Lemma collapseFirst_dash (s : str) :
  collapseFirst d (dash :: s) = dash :: collapseFirst d s.
Proof.
  cbn [collapseFirst].
  replace (ascii_eqb dash d) with false
    by (symmetry; apply ascii_eqb_false; congruence).
  reflexivity.
Qed.

Lemma forallb_keeps_filter (s : str) : forallb (keeps d) (filter (keeps d) s) = true.
Proof. apply forallb_filter_self. Qed.

(** The numeric text of any string is a canonical value; its sign is the
    leading dash of the text it is taken from. *)
Lemma numericText_canonical (text : str) :
  exists negative whole fraction,
    collapseFirst d (Numeric.keepNumeric [d] text)
    = canonicalValue negative whole fraction
    /\ allDigits whole = true
    /\ allDigits (fractionDigits fraction) = true
    /\ negative = startsWith text (lit "-").
Proof.
  rewrite keepNumeric_single. change (lit "-") with [dash].
  destruct text as [|c rest].
  - exists false, [], None. now repeat split.
  - rewrite startsWith_single. destruct (ascii_eqb c dash) eqn:Ec.
    + destruct (collapseFirst_canonical (filter (keeps d) rest)
                  (forallb_keeps_filter rest)) as [whole [fraction [Heq [Hw Hf]]]].
      exists true, whole, fraction. rewrite collapseFirst_dash, Heq.
      now repeat split.
    + destruct (collapseFirst_canonical (filter (keeps d) (c :: rest))
                  (forallb_keeps_filter (c :: rest)))
        as [whole [fraction [Heq [Hw Hf]]]].
      exists false, whole, fraction. rewrite Heq. now repeat split.
Qed.

End CanonicalResult.

Lemma handleNegation_dash_allowed (value : str) (allowNeg : option bool) :
  startsWith (Numeric.handleNegation value allowNeg) (lit "-") = true ->
  truthy allowNeg = true.
Proof.
  intros Hstart.
  destruct (handleNegation_cases value allowNeg) as [[_ [Hallow _]] | [Hr _]];
    [exact Hallow|].
  rewrite Hr in Hstart. pose proof (noDash_filter value) as Hclean.
  cbv zeta in Hclean.
  destruct (filter _ value) as [|c s]; [discriminate Hstart|].
  change (lit "-") with [dash] in Hstart. rewrite startsWith_single in Hstart.
  cbn [noDash forallb] in Hclean. rewrite Hstart in Hclean. discriminate Hclean.
Qed.

(** X2. Whatever is typed or pasted, [removeFormatting] returns a canonical
    value: for a decimal separator of one character that is not the dash,
    and unless the input is returned at once (a prefix or suffix typed into
    an empty field), the result is an optional leading [-], digits, and at
    most one [.] followed by digits; nothing else is left in it.  When the
    value is not cleared, the result is negative only if negative numbers
    are allowed. *)
Theorem removeFormatting_returns_canonical_value `{Utils} (value : str)
    (changeMeta : ChangeMeta) (props : NumericFormatProps) (d : ascii) :
  Numeric.sepDecimal (Numeric.getSeparators props) = [d] ->
  d <> dash ->
  Numeric.returnsUnchanged value changeMeta props = false ->
  exists negative whole fraction,
    Numeric.removeFormatting value changeMeta props
    = canonicalValue negative whole fraction
    /\ allDigits whole = true
    /\ allDigits (fractionDigits fraction) = true
    /\ (Numeric.clearsValue value changeMeta props = false ->
        negative = true -> truthy (allowNegative props) = true).
Proof.
  intros Hsep Hdash Hret.
  unfold Numeric.removeFormatting. rewrite Hret.
  destruct (Numeric.clearsValue value changeMeta props).
  - destruct (addNegation _).
    + exists true, [], None. repeat split. discriminate.
    + exists false, [], None. repeat split. discriminate.
  - unfold Numeric.numericText. rewrite Hsep, collapseSeparators_single.
    destruct (numericText_canonical d Hdash
                (Numeric.sText (Numeric.stripDecorations value changeMeta props)))
      as [negative [whole [fraction [Heq [Hw [Hf Hsign]]]]]].
    exists negative, whole, fraction. repeat split; try assumption.
    intros _ Hneg. rewrite Hneg in Hsign. symmetry in Hsign.
    unfold Numeric.stripDecorations in Hsign. cbv zeta in Hsign.
    cbn [Numeric.sText] in Hsign.
    now apply handleNegation_dash_allowed in Hsign.
Qed.

(** The euro format of the tests: [1.234,56 EUR] typed over. *)
Lemma removeFormatting_returns_canonical_value_witness :
  let props := mkNumericProps (Some (TSString (lit "."))) (Some (lit ","))
                 None None None None (Some true) (Some (lit " EUR")) None in
  let changeMeta := mkChangeMeta (mkRange 0 0) (mkRange 0 14) (lit "") in
  exists negative whole fraction,
    @Numeric.removeFormatting utilsModel (lit "-1.2x34,5a6 EUR") changeMeta props
    = canonicalValue negative whole fraction
    /\ allDigits whole = true
    /\ allDigits (fractionDigits fraction) = true.
Proof.
  cbv zeta.
  destruct (@removeFormatting_returns_canonical_value utilsModel
              (lit "-1.2x34,5a6 EUR")
              (mkChangeMeta (mkRange 0 0) (mkRange 0 14) (lit ""))
              (mkNumericProps (Some (TSString (lit "."))) (Some (lit ","))
                 None None None None (Some true) (Some (lit " EUR")) None)
              ","%char eq_refl ltac:(discriminate) eq_refl)
    as [negative [whole [fraction [Heq [Hw [Hf _]]]]]].
  exists negative, whole, fraction. now repeat split.
Defined.

(** ** Numeric format: the caret boundary of any string *)

(** X3. The numeric caret boundary of any string, formatted or not: the
    array has one entry per caret slot; the first [prefix.length] slots (one
    more after a leading dash) are closed; and the slots closed at the end
    are the last [suffix.length] ones when the suffix is at most one
    character longer than the value, but only those from index
    [2 * length + 2 - suffix.length] on when it is longer, because the
    negative start index given to [fill] then counts from the end of the
    array. *)
Theorem numeric_boundary_of_any_value (formattedValue : str)
    (props : NumericFormatProps) :
  let pre := List.length (orDefault (prefix props) []) in
  let suf := List.length (orDefault (suffix props) []) in
  let n := List.length formattedValue in
  let sign := if charAt_is formattedValue 0 (lit "-") then 1%nat else O in
  let closedFrom :=
    (if suf <=? n + 1 then n + 1 - suf else 2 * n + 2 - suf)%nat in
  List.length (Numeric.getCaretBoundary formattedValue props) = (n + 1)%nat
  /\ forall i,
       (i <= n)%nat ->
       nth_error (Numeric.getCaretBoundary formattedValue props) i
       = Some (negb ((i <? pre + sign)%nat || (closedFrom <=? i)%nat)).
Proof.
  cbv zeta. split; [apply numeric_boundary_length|].
  intros i Hi. rewrite numeric_boundary_nth by exact Hi. cbv zeta.
  unfold JSArray.relIndex, len. f_equal. f_equal.
  destruct (Nat.leb_spec (List.length (orDefault (suffix props) []))
              (List.length formattedValue + 1));
    destruct (charAt_is formattedValue 0 (lit "-")); split_comparisons.
Qed.

(** ** Numeric format: a prefix that starts with a dash *)

Lemma validateAndUpdateProps_returns (props props' : NumericFormatProps) :
  Numeric.validateAndUpdateProps props = Returns props' ->
  props'
  = mkNumericProps (thousandSeparator props) (decimalSeparator props)
      (allowedDecimalSeparators props) (thousandsGroupStyle props)
      (decimalScale props) (fixedDecimalScale props)
      (Some (if startsWith (orDefault (prefix props) []) (lit "-")
                && orDefault (allowNegative props) true
             then false else orDefault (allowNegative props) true))
      (suffix props) (prefix props)
  /\ Numeric.sepThousand (Numeric.getSeparators props)
     <> Numeric.sepDecimal (Numeric.getSeparators props).
Proof.
  unfold Numeric.validateAndUpdateProps. cbv zeta.
  destruct (str_eqb _ _) eqn:E; [discriminate|].
  intros Hret. injection Hret as <-. split; [reflexivity|].
  now apply str_eqb_false.
Qed.

(** X4. Validation turns negative numbers off under a prefix that starts
    with a dash, and changes nothing else: the props [validateAndUpdateProps]
    returns have the separators, scale, prefix and suffix it was given,
    [allowNegative] is [false] when the prefix starts with [-] and the given
    value (by default [true]) otherwise.  With such a prefix the
    [removeFormatting] that [useNumericFormat] builds from them never
    returns a dash, whatever the separators are and even when
    [allowNegative] was set: a typed [-] is dropped (as long as the value
    is neither returned at once nor cleared). *)
Theorem dash_prefix_turns_negative_numbers_off `{Utils}
    (props props' : NumericFormatProps) :
  Numeric.validateAndUpdateProps props = Returns props' ->
  Numeric.getSeparators props' = Numeric.getSeparators props
  /\ decimalScale props' = decimalScale props
  /\ fixedDecimalScale props' = fixedDecimalScale props
  /\ prefix props' = prefix props
  /\ suffix props' = suffix props
  /\ (startsWith (orDefault (prefix props) []) (lit "-") = false ->
      allowNegative props' = Some (orDefault (allowNegative props) true))
  /\ (startsWith (orDefault (prefix props) []) (lit "-") = true ->
      allowNegative props' = Some false
      /\ forall value changeMeta,
           Numeric.returnsUnchanged value changeMeta props' = false ->
           Numeric.clearsValue value changeMeta props' = false ->
           (exists fp,
              Numeric.useNumericFormat props = Returns fp
              /\ Numeric.fpRemoveFormatting fp value (Some changeMeta)
                 = Numeric.removeFormatting value changeMeta props')
           /\ noDash (Numeric.removeFormatting value changeMeta props') = true).
Proof.
  intros Hvalid.
  destruct (validateAndUpdateProps_returns props props' Hvalid) as [Hprops _].
  split; [now rewrite Hprops|]. split; [now rewrite Hprops|].
  split; [now rewrite Hprops|]. split; [now rewrite Hprops|].
  split; [now rewrite Hprops|]. split.
  { intros Hpre. rewrite Hprops. cbn [allowNegative]. now rewrite Hpre. }
  intros Hpre.
  assert (Hallow : allowNegative props' = Some false).
  { rewrite Hprops. cbn [allowNegative]. rewrite Hpre.
    now destruct (orDefault (allowNegative props) true). }
  split; [exact Hallow|].
  intros value changeMeta Hret Hclear. split.
  { eexists. unfold Numeric.useNumericFormat. rewrite Hvalid.
    split; reflexivity. }
  unfold Numeric.removeFormatting. rewrite Hret, Hclear.
  unfold Numeric.numericText. apply numericText_noDash.
  unfold Numeric.stripDecorations. cbv zeta. cbn [Numeric.sText].
  rewrite handleNegation_sign. unfold keepsSign.
  rewrite Hallow. cbn [truthy]. rewrite andb_false_r. cbn [signText app].
  apply noDash_filter.
Qed.

(** A prefix [-$] with negative numbers asked for, and the same after
    validation. *)
Definition dashDollar : NumericFormatProps :=
  mkNumericProps None None None None None None (Some true) None (Some (lit "-$")).

Definition dashDollarValidated : NumericFormatProps :=
  mkNumericProps None None None None None None (Some false) None (Some (lit "-$")).

(** A dash typed after the prefix of [-$12] is dropped. *)
Lemma dash_prefix_turns_negative_numbers_off_witness :
  Numeric.validateAndUpdateProps dashDollar = Returns dashDollarValidated
  /\ allowNegative dashDollarValidated = Some false
  /\ @Numeric.removeFormatting utilsModel (lit "-$-12")
       (mkChangeMeta (mkRange 2 2) (mkRange 2 3) (lit "-$12")) dashDollarValidated
     = lit "12".
Proof.
  split; [reflexivity|].
  destruct (@dash_prefix_turns_negative_numbers_off utilsModel dashDollar
              dashDollarValidated eq_refl)
    as [_ [_ [_ [_ [_ [_ Hdash]]]]]].
  destruct (Hdash eq_refl) as [Hallow _].
  split; [exact Hallow | reflexivity].
Defined.

(** ** Numeric format: the key handler

    [_onKeyDown] of [useNumericFormat] reads the key, the value and the
    selection of the element once, and then calls [e.preventDefault],
    [setCaretPosition] (of [./utils], called with the positions read at the
    start) and the handler [onKeyDown] of the parent (or [noop]).  Its calls
    are listed here in their order.  The handler reads the props of the hook
    after [validateAndUpdateProps]: [onKeyDown_] is the body of the handler
    for the props it is given, [useNumericFormatOnKeyDown] the handler the
    hook builds, which gives it the validated props. *)

Module NumericKeys.

Inductive KeyEffect :=
| PreventDefault
| SetCaretPosition (caretPos : Z)
| ParentOnKeyDown.

Definition isPreventDefault (e : KeyEffect) : bool :=
  match e with PreventDefault => true | _ => false end.

Definition isParentOnKeyDown (e : KeyEffect) : bool :=
  match e with ParentOnKeyDown => true | _ => false end.

(** [value[i] === _thousandSeparator], where [_thousandSeparator] is [','],
    the string given, [false] or [undefined]: a missing character is
    [undefined] too. *)
Definition isThousandSeparator (c : option ascii)
    (thousands : option ThousandSeparator) : bool :=
  match thousands, c with
  | None, None => true
  | Some (TSBool true), Some x => str_eqb [x] (lit ",")
  | Some (TSString s), Some x => str_eqb [x] s
  | _, _ => false
  end.

Definition onKeyDown_ (props : NumericFormatProps) (key : str)
    (el : Base.InputElement) : list KeyEffect :=
  let pre := orDefault (prefix props) [] in
  let separators := Numeric.getSeparators props in
  let decimalSeparator := Numeric.sepDecimal separators in
  let selectionStart := Base.selectionStart el in
  let selectionEnd := Base.selectionEnd el in
  let value := Base.elValue el in
  let backspace := str_eqb key (lit "Backspace") in
  let delete := str_eqb key (lit "Delete") in
  (* if user tries to delete partial prefix then ignore it *)
  if (backspace || delete) && (selectionEnd <? len pre) then [PreventDefault]
  (* if multiple characters are selected and user hits backspace, no need to
     handle anything manually *)
  else if negb (selectionStart =? selectionEnd) then [ParentOnKeyDown]
  else
    (* bring the cursor to after negation *)
    (if backspace && charAt_is value 0 (lit "-")
        && (selectionStart =? len pre + 1) && truthy (allowNegative props)
     then [SetCaretPosition 1] else [])
    (* don't allow user to delete decimal separator when decimalScale and
       fixedDecimalScale is set *)
    ++ (if Numeric.scaleTruthy props && truthy (fixedDecimalScale props)
        then
          if backspace && charAt_is value (selectionStart - 1) decimalSeparator
          then [SetCaretPosition (selectionStart - 1); PreventDefault]
          else if delete && charAt_is value selectionStart decimalSeparator
               then [PreventDefault]
               else []
        else [])
    (* if user presses the allowed decimal separator before the separator,
       move the cursor after the separator *)
    ++ (if JS.mem key (Numeric.sepAllowed separators)
           && charAt_is value selectionStart decimalSeparator
        then [SetCaretPosition (selectionStart + 1)] else [])
    (* move cursor when delete or backspace is pressed before/after thousand
       separator *)
    ++ (if backspace
           && isThousandSeparator (charAt value (selectionStart - 1))
                (thousandSeparator props)
        then [SetCaretPosition (selectionStart - 1)] else [])
    ++ (if delete
           && isThousandSeparator (charAt value selectionStart)
                (thousandSeparator props)
        then [SetCaretPosition (selectionStart + 1)] else [])
    ++ [ParentOnKeyDown].

(** [props = validateAndUpdateProps(props)] comes first in the hook: the
    handler closes over the props it returns, in which [allowNegative] is
    set ([true] when it was left out). *)
Definition useNumericFormatOnKeyDown (props : NumericFormatProps)
  : Outcome (str -> Base.InputElement -> list KeyEffect) :=
  match Numeric.validateAndUpdateProps props with
  | Throws m => Throws m
  | Returns props => Returns (onKeyDown_ props)
  end.

End NumericKeys.

Section NumericKeyFacts.

Variable props : NumericFormatProps.
Variable key : str.
Variable el : Base.InputElement.

Let deleting := str_eqb key (lit "Backspace") || str_eqb key (lit "Delete").
Let guarded :=
  deleting && (Base.selectionEnd el <? len (orDefault (prefix props) [])).

Ltac split_ifs :=
  repeat match goal with
         | |- context [if ?c then _ else _] => destruct c
         end.

Lemma onKeyDown_guarded :
  guarded = true -> NumericKeys.onKeyDown_ props key el = [NumericKeys.PreventDefault].
Proof.
  subst guarded deleting. intros Hg. unfold NumericKeys.onKeyDown_. cbv zeta.
  now rewrite Hg.
Qed.

Lemma onKeyDown_reaches_parent :
  guarded = false ->
  exists moves,
    NumericKeys.onKeyDown_ props key el = moves ++ [NumericKeys.ParentOnKeyDown]
    /\ existsb NumericKeys.isParentOnKeyDown moves = false
    /\ (Base.selectionStart el <> Base.selectionEnd el -> moves = []).
Proof.
  subst guarded deleting. intros Hg. unfold NumericKeys.onKeyDown_. cbv zeta.
  rewrite Hg.
  destruct (Z.eqb_spec (Base.selectionStart el) (Base.selectionEnd el))
    as [Hsel|Hsel]; cbn [negb].
  - rewrite !app_assoc. eexists. split; [reflexivity|]. split.
    + rewrite !existsb_app. split_ifs; reflexivity.
    + intros Hne. contradiction.
  - exists []. now repeat split.
Qed.

Lemma onKeyDown_prevents_deleting_only :
  existsb NumericKeys.isPreventDefault (NumericKeys.onKeyDown_ props key el) = true ->
  deleting = true.
Proof.
  subst deleting. unfold NumericKeys.onKeyDown_. cbv zeta.
  destruct (str_eqb key (lit "Backspace")); [reflexivity|].
  destruct (str_eqb key (lit "Delete")); [reflexivity|].
  cbn [orb andb app].
  destruct (negb _); [discriminate|].
  rewrite !existsb_app. split_ifs; discriminate.
Qed.

Lemma onKeyDown_plain_key :
  deleting = false ->
  JS.mem key (Numeric.sepAllowed (Numeric.getSeparators props)) = false ->
  NumericKeys.onKeyDown_ props key el = [NumericKeys.ParentOnKeyDown].
Proof.
  subst deleting. intros Hd Hmem. apply orb_false_iff in Hd as [Hb Hdel].
  unfold NumericKeys.onKeyDown_. cbv zeta. rewrite Hb, Hdel, Hmem.
  cbn [orb andb app].
  destruct (negb _); [reflexivity|]. now split_ifs.
Qed.

End NumericKeyFacts.

(** X5. The numeric key handler guards the prefix and never swallows a key
    from the parent.  Backspace or Delete with the selection ending inside
    the prefix is prevented and nothing else happens; in every other case
    the parent's [onKeyDown] is called exactly once, after everything else,
    and with a range selected nothing but that call is made.  The default
    action is prevented only for Backspace and Delete; a key that is neither
    of them nor an allowed decimal separator moves no caret. *)
Theorem numeric_keys_guard_prefix_and_reach_parent (props : NumericFormatProps)
    (key : str) (el : Base.InputElement) :
  let effects := NumericKeys.onKeyDown_ props key el in
  let deleting := str_eqb key (lit "Backspace") || str_eqb key (lit "Delete") in
  let guarded :=
    deleting && (Base.selectionEnd el <? len (orDefault (prefix props) [])) in
  (guarded = true -> effects = [NumericKeys.PreventDefault])
  /\ (guarded = false ->
      exists moves,
        effects = moves ++ [NumericKeys.ParentOnKeyDown]
        /\ existsb NumericKeys.isParentOnKeyDown moves = false
        /\ (Base.selectionStart el <> Base.selectionEnd el -> moves = []))
  /\ (existsb NumericKeys.isPreventDefault effects = true -> deleting = true)
  /\ (deleting = false ->
      JS.mem key (Numeric.sepAllowed (Numeric.getSeparators props)) = false ->
      effects = [NumericKeys.ParentOnKeyDown]).
Proof.
  cbv zeta. split; [apply onKeyDown_guarded|].
  split; [apply onKeyDown_reaches_parent|].
  split; [apply onKeyDown_prevents_deleting_only | apply onKeyDown_plain_key].
Qed.

Lemma charAt_end (s : str) : charAt s (len s) = None.
Proof.
  unfold charAt, len.
  destruct (Z.ltb_spec (Z.of_nat (List.length s)) 0); [reflexivity|].
  rewrite Nat2Z.id. apply nth_error_None. lia.
Qed.

(** X6. Without a [thousandSeparator] prop the comparison of a missing
    character with the separator holds ([undefined === undefined]): with
    the caret at the start of a field without prefix, Backspace asks
    [setCaretPosition] for the position [-1]; with the caret at the end of
    the value, Delete asks for the position one past the end.  The parent's
    handler is still called. *)
Theorem keys_at_the_ends_without_thousand_separator (props : NumericFormatProps)
    (el : Base.InputElement) :
  thousandSeparator props = None ->
  Base.selectionStart el = Base.selectionEnd el ->
  (Base.selectionStart el = 0 ->
   orDefault (prefix props) [] = [] ->
   exists moves,
     NumericKeys.onKeyDown_ props (lit "Backspace") el
     = moves ++ [NumericKeys.SetCaretPosition (-1); NumericKeys.ParentOnKeyDown])
  /\ (Base.selectionStart el = len (Base.elValue el) ->
      len (orDefault (prefix props) []) <= len (Base.elValue el) ->
      NumericKeys.onKeyDown_ props (lit "Delete") el
      = [NumericKeys.SetCaretPosition (len (Base.elValue el) + 1);
         NumericKeys.ParentOnKeyDown]).
Proof.
  intros Hthousand Hsel. split.
  - intros Hstart Hpre. unfold NumericKeys.onKeyDown_. cbv zeta.
    rewrite Hthousand, Hpre, <- Hsel, Hstart.
    change (str_eqb (lit "Backspace") (lit "Backspace")) with true.
    change (str_eqb (lit "Backspace") (lit "Delete")) with false.
    change (charAt (Base.elValue el) (0 - 1)) with (@None ascii).
    cbn [orb andb negb len List.length Z.of_nat Z.ltb Z.compare Z.eqb
         NumericKeys.isThousandSeparator].
    match goal with
    | |- exists moves, ?a ++ ?b ++ ?c ++ _ = _ => exists (a ++ b ++ c)
    end.
    now rewrite <- !app_assoc.
  - intros Hend Hpre. unfold NumericKeys.onKeyDown_. cbv zeta.
    rewrite Hthousand, <- Hsel, Hend, Z.eqb_refl.
    change (str_eqb (lit "Delete") (lit "Backspace")) with false.
    change (str_eqb (lit "Delete") (lit "Delete")) with true.
    replace (len (Base.elValue el) <? len (orDefault (prefix props) []))
      with false by (symmetry; apply Z.ltb_ge; exact Hpre).
    unfold charAt_is. rewrite charAt_end.
    cbn [orb andb negb app NumericKeys.isThousandSeparator].
    rewrite !andb_false_r.
    destruct (Numeric.scaleTruthy props && truthy (fixedDecimalScale props));
      reflexivity.
Qed.

(** Delete at the end of [12], Backspace at its start, no props given. *)
Lemma keys_at_the_ends_without_thousand_separator_witness :
  let props := mkNumericProps None None None None None None None None None in
  NumericKeys.onKeyDown_ props (lit "Delete") (Base.mkInput (lit "12") 2 2)
  = [NumericKeys.SetCaretPosition 3; NumericKeys.ParentOnKeyDown]
  /\ NumericKeys.onKeyDown_ props (lit "Backspace") (Base.mkInput (lit "12") 0 0)
     = [NumericKeys.SetCaretPosition (-1); NumericKeys.ParentOnKeyDown].
Proof.
  cbv zeta. split; [|reflexivity].
  refine (proj2 (keys_at_the_ends_without_thousand_separator
                   (mkNumericProps None None None None None None None None None)
                   (Base.mkInput (lit "12") 2 2) eq_refl eq_refl) eq_refl _).
  cbn. lia.
Defined.

(** X22. The key handler of [useNumericFormat] works on the validated
    props, in which [allowNegative] is [true] when it was left out.  When
    the separators differ and the prefix does not start with a dash, with
    [allowNegative] left out or set, Backspace pressed with the caret right
    behind the prefix of a value that starts with a dash first moves the
    caret behind the dash ([setCaretPosition(el, 1)]), and the handler goes
    on to the parent's [onKeyDown]. *)
Theorem backspace_behind_the_prefix_steps_over_the_sign
    (props : NumericFormatProps) (el : Base.InputElement) :
  let pre := orDefault (prefix props) [] in
  Numeric.sepThousand (Numeric.getSeparators props)
  <> Numeric.sepDecimal (Numeric.getSeparators props) ->
  startsWith pre (lit "-") = false ->
  orDefault (allowNegative props) true = true ->
  charAt_is (Base.elValue el) 0 (lit "-") = true ->
  Base.selectionStart el = len pre + 1 ->
  Base.selectionEnd el = len pre + 1 ->
  exists handler moves,
    NumericKeys.useNumericFormatOnKeyDown props = Returns handler
    /\ handler (lit "Backspace") el
       = NumericKeys.SetCaretPosition 1 :: moves ++ [NumericKeys.ParentOnKeyDown].
Proof.
  cbv zeta. intros Hseps Hpre Hallow Hsign Hstart Hend.
  unfold NumericKeys.useNumericFormatOnKeyDown, Numeric.validateAndUpdateProps.
  cbv zeta. apply str_eqb_false in Hseps. rewrite Hseps, Hpre, Hallow.
  cbn [andb]. eexists. eexists. split; [reflexivity|].
  unfold NumericKeys.onKeyDown_. cbv zeta.
  cbn [prefix allowNegative thousandSeparator decimalScale fixedDecimalScale truthy].
  rewrite Hstart, Hend, Hsign.
  change (str_eqb (lit "Backspace") (lit "Backspace")) with true.
  change (str_eqb (lit "Backspace") (lit "Delete")) with false.
  cbn [orb andb].
  replace (len (orDefault (prefix props) []) + 1 <? len (orDefault (prefix props) []))
    with false by (symmetry; apply Z.ltb_ge; lia).
  rewrite !Z.eqb_refl. cbn [negb andb app].
  rewrite !app_assoc. reflexivity.
Qed.

(** Backspace with the caret behind the prefix of [-$12], the props giving
    the prefix only. *)
Lemma backspace_behind_the_prefix_steps_over_the_sign_witness :
  let props := mkNumericProps None None None None None None None None (Some (lit "$")) in
  exists handler,
    NumericKeys.useNumericFormatOnKeyDown props = Returns handler
    /\ handler (lit "Backspace") (Base.mkInput (lit "-$12") 2 2)
       = [NumericKeys.SetCaretPosition 1; NumericKeys.ParentOnKeyDown]
    /\ NumericKeys.onKeyDown_ props (lit "Backspace") (Base.mkInput (lit "-$12") 2 2)
       = [NumericKeys.ParentOnKeyDown].
Proof.
  cbv zeta.
  destruct (backspace_behind_the_prefix_steps_over_the_sign
              (mkNumericProps None None None None None None None None (Some (lit "$")))
              (Base.mkInput (lit "-$12") 2 2))
    as [handler [moves [Hhandler Hkeys]]]; try reflexivity; [discriminate|].
  exists handler. split; [exact Hhandler|].
  injection Hhandler as <-. split; reflexivity.
Defined.

(** ** Pattern format: validation *)

Module PatternSetup.

(** [Array.prototype.join] with a comma, as [toString] does on an array. *)
Fixpoint joinComma (l : list str) : str :=
  match l with
  | [] => []
  | [s] => s
  | s :: rest => s ++ lit "," ++ joinComma rest
  end.

(** [props.mask.toString()]. *)
Definition maskToString (m : Mask) : str :=
  match m with
  | MaskString s => s
  | MaskArray l => joinComma l
  end.

(** Truthiness of [props.mask]: an empty string is not checked, an array
    always is. *)
Definition maskTruthy (m : option Mask) : bool :=
  match m with
  | Some (MaskString []) | None => false
  | Some _ => true
  end.

Definition validateProps (props : PatternFormatProps) : Outcome unit :=
  match mask props with
  | Some m =>
      if maskTruthy (Some m) && existsb isDigit (maskToString m)
      then Throws (lit "Mask should not contain numeric character;")
      else Returns tt
  | None => Returns tt
  end.

(** What [usePatternFormat] hands to the base component, as far as the
    formatting functions go; [validateProps] runs before them. *)
Record PatternFunctions := mkPatternFunctions {
  pfFormat : str -> str;
  pfRemoveFormatting : str -> ChangeMeta -> str;
  pfGetCaretBoundary : str -> list (option bool)
}.

Definition usePatternFormat `{Utils} (props : PatternFormatProps)
  : Outcome PatternFunctions :=
  (* validate props *)
  match validateProps props with
  | Throws m => Throws m
  | Returns _ =>
      Returns (mkPatternFunctions
                 (fun numStr => Pattern.format numStr props)
                 (fun inputValue changeMeta =>
                    Pattern.removeFormatting inputValue changeMeta props)
                 (fun formattedValue => Pattern.getCaretBoundary formattedValue props))
  end.

(** The strings of a mask: the string itself, or the entries of the array. *)
Definition maskEntries (m : option Mask) : list str :=
  match m with
  | Some (MaskString s) => [s]
  | Some (MaskArray l) => l
  | None => []
  end.

End PatternSetup.

Lemma joinComma_digits (l : list str) :
  existsb isDigit (PatternSetup.joinComma l) = existsb (existsb isDigit) l.
Proof.
  induction l as [|s [|s' l] IH]; [reflexivity | |].
  - cbn [PatternSetup.joinComma existsb]. now rewrite orb_false_r.
  - change (PatternSetup.joinComma (s :: s' :: l))
      with (s ++ lit "," ++ PatternSetup.joinComma (s' :: l)).
    rewrite !existsb_app, IH. cbn [existsb]. reflexivity.
Qed.

(** X7. The mask is validated when the pattern format is set up, not when
    it is used: [validateProps], and so [usePatternFormat], throws exactly
    when some character of the mask, a string or any entry of an array, is a
    digit; otherwise [usePatternFormat] hands out [format],
    [removeFormatting] and [getCaretBoundary] closed over the props as they
    were given. *)
Theorem pattern_validation_throws_iff_mask_has_digit `{Utils}
    (props : PatternFormatProps) :
  let hasDigit :=
    existsb (existsb isDigit) (PatternSetup.maskEntries (mask props)) in
  ((exists m, PatternSetup.validateProps props = Throws m) <-> hasDigit = true)
  /\ ((exists m, PatternSetup.usePatternFormat props = Throws m) <-> hasDigit = true)
  /\ (hasDigit = false ->
      exists fn,
        PatternSetup.usePatternFormat props = Returns fn
        /\ (forall numStr,
              PatternSetup.pfFormat fn numStr = Pattern.format numStr props)
        /\ (forall value changeMeta,
              PatternSetup.pfRemoveFormatting fn value changeMeta
              = Pattern.removeFormatting value changeMeta props)
        /\ (forall value,
              PatternSetup.pfGetCaretBoundary fn value
              = Pattern.getCaretBoundary value props)).
Proof.
  cbv zeta.
  assert (Hvalid : PatternSetup.validateProps props
                   = if existsb (existsb isDigit)
                          (PatternSetup.maskEntries (mask props))
                     then Throws (lit "Mask should not contain numeric character;")
                     else Returns tt).
  { unfold PatternSetup.validateProps, PatternSetup.maskEntries.
    destruct (mask props) as [[s|l]|]; [| |reflexivity].
    - destruct s as [|c s]; [reflexivity|].
      cbn [PatternSetup.maskTruthy PatternSetup.maskToString andb].
      cbn [existsb]. now rewrite orb_false_r.
    - cbn [PatternSetup.maskTruthy PatternSetup.maskToString andb].
      now rewrite joinComma_digits. }
  unfold PatternSetup.usePatternFormat. rewrite Hvalid.
  destruct (existsb (existsb isDigit) _).
  - split; [split; [reflexivity | intros _; now eexists]|].
    split; [split; [reflexivity | intros _; now eexists]|].
    discriminate.
  - split; [split; [intros [m Hm]; discriminate Hm | discriminate]|].
    split; [split; [intros [m Hm]; discriminate Hm | discriminate]|].
    intros _. eexists. split; [reflexivity|]. now repeat split.
Qed.

(** ** Pattern format: formatting and stripping again *)

(** The number of pattern characters of a format. *)
Definition slotCount (patChar : str) (fmt : str) : nat :=
  List.length (filter (fun c => str_eqb [c] patChar) fmt).

Section PatternRoundTrip.

Context `{U : Utils} (L : UtilsLaws U).

Variable props : PatternFormatProps.
Variable numStr : str.

Hypothesis Hnum : allDigits numStr = true.
Hypothesis Hmask :
  forall index, exists c,
    getMaskAtIndex (mask props) index = [c] /\ isDigit c = false.

Let patChar := Pattern.patternCharOf props.
Let fmt := pformat props.

Lemma skipn_nth_error {A} (l : list A) (h : nat) (x : A) :
  nth_error l h = Some x -> skipn h l = x :: skipn (S h) l.
Proof.
  revert h; induction l as [|y l IH]; intros [|h] Hx; try discriminate.
  - now injection Hx as ->.
  - cbn [nth_error] in Hx. cbn [skipn]. rewrite (IH h Hx). reflexivity.
Qed.

Lemma skipn_nth_error_none {A} (l : list A) (h : nat) :
  nth_error l h = None -> skipn h l = [].
Proof. intros Hx. apply skipn_all2. now apply nth_error_None. Qed.

Lemma nth_error_digit (h : nat) (x : ascii) :
  nth_error numStr h = Some x -> isDigit x = true.
Proof.
  intros Hx. apply nth_error_In in Hx.
  unfold allDigits in Hnum. rewrite forallb_forall in Hnum. now apply Hnum.
Qed.

(** The digits of a formatted value, when the format itself has none. *)
Lemma fillSlots_digits (rest : str) (h : nat) :
  existsb isDigit rest = false ->
  filter isDigit (List.concat (Pattern.fillSlots patChar (mask props) numStr h rest))
  = firstn (slotCount patChar rest) (skipn h numStr).
Proof.
  unfold slotCount. revert h; induction rest as [|c rest IH]; intros h Hrest;
    [reflexivity|].
  cbn [existsb] in Hrest. apply orb_false_iff in Hrest as [Hc Hrest].
  cbn [Pattern.fillSlots filter].
  destruct (str_eqb [c] patChar); cbn [List.concat List.length].
  - rewrite filter_app, (IH (S h) Hrest).
    destruct (nth_error numStr h) as [x|] eqn:Ex.
    + rewrite (skipn_nth_error _ _ _ Ex). cbn [filter firstn app].
      now rewrite (nth_error_digit _ _ Ex).
    + destruct (Hmask h) as [m [-> Hm]]. cbn [filter]. rewrite Hm.
      rewrite (skipn_nth_error_none _ _ Ex).
      rewrite skipn_all2 by (apply nth_error_None in Ex; lia).
      now rewrite !firstn_nil.
  - rewrite filter_app. cbn [filter]. rewrite Hc. cbn [app]. now apply IH.
Qed.

Lemma charAt_is_nth (s t : str) (i : nat) (c : ascii) :
  nth_error s i = Some c -> charAt_is s (Z.of_nat i) t = str_eqb [c] t.
Proof.
  intros Hc. unfold charAt_is, charAt.
  destruct (Z.ltb_spec (Z.of_nat i) 0); [lia|].
  rewrite Nat2Z.id, Hc. destruct t as [|x [|y t]]; cbn [str_eqb]; try reflexivity.
  - now rewrite andb_true_r.
  - now rewrite andb_false_r.
Qed.

(** The loop over a formatted value finds no mismatch and collects the
    digits of the number. *)
Lemma matchWholeFormat_formatted (rest : str) (i h : nat) :
  skipn i fmt = rest ->
  Pattern.matchWholeFormat props
    (List.concat (Pattern.fillSlots patChar (mask props) numStr h rest))
    (Z.of_nat i)
  = Some (firstn (slotCount patChar rest) (skipn h numStr)).
Proof.
  unfold slotCount. revert i h; induction rest as [|c rest IH]; intros i h Hskip;
    [reflexivity|].
  assert (Hnth : nth_error fmt i = Some c).
  { rewrite <- (firstn_skipn i fmt), Hskip.
    assert (Hlen : (i <= List.length fmt)%nat).
    { destruct (Nat.le_gt_cases i (List.length fmt)) as [Hle|Hgt]; [exact Hle|].
      rewrite skipn_all2 in Hskip by lia. discriminate Hskip. }
    rewrite nth_error_app2 by (rewrite length_firstn; lia).
    rewrite length_firstn, Nat.min_l by exact Hlen. now rewrite Nat.sub_diag. }
  assert (Hnext : skipn (S i) fmt = rest).
  { replace (S i) with (1 + i)%nat by lia. rewrite <- skipn_skipn, Hskip.
    reflexivity. }
  cbn [Pattern.fillSlots filter].
  assert (Hslot : Pattern.isNumericSlot props (Z.of_nat i) = str_eqb [c] patChar)
    by (unfold Pattern.isNumericSlot; now apply charAt_is_nth).
  assert (Hstep : Z.of_nat i + 1 = Z.of_nat (S i)) by lia.
  destruct (str_eqb [c] patChar) eqn:Ec; cbn [List.concat List.length].
  - destruct (nth_error numStr h) as [x|] eqn:Ex.
    + cbn [app Pattern.matchWholeFormat]. rewrite Hslot, Hstep, (IH (S i) (S h) Hnext).
      rewrite charIsNumber_char, (nth_error_digit _ _ Ex).
      now rewrite (skipn_nth_error _ _ _ Ex).
    + destruct (Hmask h) as [m [-> Hm]].
      cbn [app Pattern.matchWholeFormat]. rewrite Hslot, Hstep, (IH (S i) (S h) Hnext).
      rewrite charIsNumber_char, Hm.
      rewrite (skipn_nth_error_none _ _ Ex).
      rewrite skipn_all2 by (apply nth_error_None in Ex; lia).
      now rewrite !firstn_nil.
  - cbn [app Pattern.matchWholeFormat]. rewrite Hslot.
    rewrite (charAt_is_nth (pformat props) [c] i c Hnth), str_eqb_refl, Hstep.
    now apply IH.
Qed.

Lemma fillSlots_concat_length (rest : str) (h : nat) :
  List.length (List.concat (Pattern.fillSlots patChar (mask props) numStr h rest))
  = List.length rest.
Proof.
  revert h; induction rest as [|c rest IH]; intros h; [reflexivity|].
  cbn [Pattern.fillSlots]. destruct (str_eqb [c] patChar); cbn [List.concat].
  - rewrite length_app, IH. destruct (nth_error numStr h); [reflexivity|].
    destruct (Hmask h) as [m [-> _]]. reflexivity.
  - rewrite length_app, IH. reflexivity.
Qed.

End PatternRoundTrip.

(** What is read back from a formatted value: the digits the format had a
    slot for. *)
Lemma pattern_read_back `{U : Utils} (L : UtilsLaws U)
    (props : PatternFormatProps) (numStr : str) :
  allDigits numStr = true ->
  (forall index, exists c,
     getMaskAtIndex (mask props) index = [c] /\ isDigit c = false) ->
  Pattern.removeFormatting (Pattern.format numStr props)
    (getDefaultChangeMeta (Pattern.format numStr props)) props
  = firstn (slotCount (Pattern.patternCharOf props) (pformat props)) numStr.
Proof.
  intros Hnum Hmask.
  rewrite getDefaultChangeMeta_whole.
  unfold Pattern.format, Pattern.removeFormatting.
  cbn [lastValue from to r_start r_end].
  destruct (str_eqb numStr [] && negb (truthy (allowEmptyFormatting props)))
    eqn:Eempty.
  - apply andb_true_iff in Eempty as [Hnil _].
    apply str_eqb_true in Hnil. subst numStr. rewrite firstn_nil.
    destruct (negb (existsb isDigit (pformat props))); [reflexivity|].
    cbn [str_eqb orb andb].
    destruct (len [] =? len (pformat props)); [reflexivity|].
    now rewrite !substring_nil.
  - destruct (existsb isDigit (pformat props)) eqn:Edigit; cbn [negb].
    + cbn [str_eqb orb andb].
      replace (len (List.concat _) =? len (pformat props)) with true.
      * change 0 with (Z.of_nat 0).
        now rewrite (matchWholeFormat_formatted L props numStr Hnum Hmask
                       (pformat props) 0 0 eq_refl).
      * symmetry. apply Z.eqb_eq. unfold len.
        now rewrite (fillSlots_concat_length props numStr Hmask).
    + unfold Pattern.extractNumbers.
      now rewrite (fillSlots_digits props numStr Hnum Hmask _ 0 Edigit).
Qed.

(** X8. The pattern round trip.  For a number string of digits and a mask
    whose placeholders are single characters that are not digits,
    [removeFormatting] applied to [format(numStr)] with the default
    change-meta gives back the digits the format had a slot for: [numStr]
    itself when it has at most as many digits as the format has pattern
    characters, its first digits otherwise.  This holds whether or not the
    format holds digits of its own, and for the empty string. *)
Theorem pattern_removeFormatting_of_format `{U : Utils} (L : UtilsLaws U)
    (props : PatternFormatProps) (numStr : str) :
  allDigits numStr = true ->
  (forall index, exists c,
     getMaskAtIndex (mask props) index = [c] /\ isDigit c = false) ->
  let formatted := Pattern.format numStr props in
  let slots := slotCount (Pattern.patternCharOf props) (pformat props) in
  Pattern.removeFormatting formatted (getDefaultChangeMeta formatted) props
  = firstn slots numStr
  /\ ((List.length numStr <= slots)%nat ->
      Pattern.removeFormatting formatted (getDefaultChangeMeta formatted) props
      = numStr).
Proof.
  intros Hnum Hmask. cbv zeta.
  pose proof (pattern_read_back L props numStr Hnum Hmask) as Hmain.
  split; [exact Hmain|].
  intros Hlen. rewrite Hmain. now apply firstn_all2.
Qed.

(** The phone number of the tests, with the default mask of the model. *)
Lemma pattern_removeFormatting_of_format_witness :
  @Pattern.format utilsModel (lit "4155552671") phonePattern
  = lit "+1 (415) 555 2671"
  /\ @Pattern.removeFormatting utilsModel (lit "+1 (415) 555 2671")
       (@getDefaultChangeMeta utilsModel (lit "+1 (415) 555 2671")) phonePattern
     = lit "4155552671".
Proof.
  split; [reflexivity|].
  refine (proj2 (@pattern_removeFormatting_of_format utilsModel utilsModel_laws
                   phonePattern (lit "4155552671") eq_refl _) _).
  - intros index. exists " "%char. split; reflexivity.
  - cbn. lia.
Defined.

(** ** Pattern format: the caret boundary on every value *)

Lemma setNth_same {A} (a : list A) (k : nat) (v : A) :
  (k < List.length a)%nat -> nth_error (JSArray.setNth a k v) k = Some v.
Proof.
  revert k; induction a as [|x a IH]; intros [|k] Hk; simpl in *;
    try lia; [reflexivity|].
  apply IH. lia.
Qed.

Lemma setNth_other {A} (a : list A) (k j : nat) (v : A) :
  j <> k -> nth_error (JSArray.setNth a k v) j = nth_error a j.
Proof.
  revert k j; induction a as [|x a IH]; intros [|k] [|j] Hjk; simpl;
    try reflexivity; try contradiction.
  apply IH. lia.
Qed.

Section AssignFacts.

Context {A : Type}.

Lemma assign_same (a : list (option A)) (i : Z) (v : A) :
  0 <= i -> nth_error (JSArray.assign a i v) (Z.to_nat i) = Some (Some v).
Proof.
  intros Hi. unfold JSArray.assign.
  destruct (Z.ltb_spec i 0); [lia|].
  destruct (Nat.ltb_spec (Z.to_nat i) (List.length a)) as [Hlt|Hge].
  - now apply setNth_same.
  - rewrite nth_error_app2 by exact Hge.
    rewrite nth_error_app2 by (rewrite repeat_length; lia).
    rewrite repeat_length, Nat.sub_diag. reflexivity.
Qed.

Lemma assign_inside (a : list (option A)) (i : Z) (v : A) (j : nat) :
  (j < List.length a)%nat -> (i < 0 \/ j <> Z.to_nat i) ->
  nth_error (JSArray.assign a i v) j = nth_error a j.
Proof.
  intros Hj Hne. unfold JSArray.assign.
  destruct (Z.ltb_spec i 0); [reflexivity|].
  destruct Hne as [Hneg|Hne]; [lia|].
  destruct (Nat.ltb_spec (Z.to_nat i) (List.length a)).
  - now apply setNth_other.
  - now apply nth_error_app1.
Qed.

Lemma assign_hole (a : list (option A)) (i : Z) (v : A) (j : nat) :
  (List.length a <= j)%nat -> (j < Z.to_nat i)%nat ->
  nth_error (JSArray.assign a i v) j = Some None.
Proof.
  intros Hj Hji. unfold JSArray.assign.
  destruct (Z.ltb_spec i 0); [lia|].
  destruct (Nat.ltb_spec (Z.to_nat i) (List.length a)); [lia|].
  rewrite nth_error_app2 by exact Hj.
  rewrite nth_error_app1 by (rewrite repeat_length; lia).
  apply nth_error_repeat. lia.
Qed.

End AssignFacts.

Lemma boundaryLoop_nth (props : PatternFormatProps) (formattedValue : str)
    (masks : list (option str)) (firstEmpty i : Z) (n j : nat) :
  (j < n)%nat ->
  exists b,
    nth_error (Pattern.boundaryLoop props formattedValue masks firstEmpty i n) j
    = Some (Some b).
Proof.
  revert i j; induction n as [|n IH]; intros i [|j] Hj; try lia.
  - cbn [Pattern.boundaryLoop nth_error]. now eexists.
  - cbn [Pattern.boundaryLoop nth_error]. apply IH. lia.
Qed.

(** X9. The pattern caret boundary on every value.  The slot of the first
    pattern character of the format is always open.  When that character
    lies within the value (or the format has no pattern character) the
    array has one boolean per caret slot; when it lies further right, the
    closing assignment extends the array up to it: the caret slots of the
    value keep their booleans, and the entries in between are holes. *)
Theorem pattern_boundary_first_slot_is_open `{Utils} (formattedValue : str)
    (props : PatternFormatProps) :
  let boundary := Pattern.getCaretBoundary formattedValue props in
  let n := List.length formattedValue in
  let first := Pattern.indexOfZ (pformat props) (Pattern.patternCharOf props) in
  List.length boundary = Nat.max (n + 1) (Z.to_nat (first + 1))
  /\ (0 <= first -> nth_error boundary (Z.to_nat first) = Some (Some true))
  /\ (forall j, (j <= n)%nat -> exists b, nth_error boundary j = Some (Some b))
  /\ (forall j, (n < j)%nat -> (j < Z.to_nat first)%nat ->
                nth_error boundary j = Some None).
Proof.
  cbv zeta. split; [apply pattern_boundary_length|].
  unfold Pattern.getCaretBoundary. cbv zeta.
  set (loop := Pattern.boundaryLoop _ _ _ _ _ _).
  assert (Hloop : List.length loop = (List.length formattedValue + 1)%nat)
    by apply boundaryLoop_length.
  split; [apply assign_same|]. split.
  - intros j Hj.
    destruct (boundaryLoop_nth props formattedValue
                (Pattern.maskAndIndexMap (Pattern.patternCharOf props)
                   (mask props) 0 (pformat props))
                (Pattern.firstEmptySlot formattedValue 0
                   (Pattern.maskAndIndexMap (Pattern.patternCharOf props)
                      (mask props) 0 (pformat props)))
                0 (List.length formattedValue + 1) j ltac:(lia)) as [b Hb].
    fold loop in Hb.
    set (first := Pattern.indexOfZ _ _).
    destruct (Z.ltb_spec first 0) as [Hneg|Hpos].
    + exists b. rewrite assign_inside by (try lia; now left). exact Hb.
    + destruct (Nat.eq_dec j (Z.to_nat first)) as [->|Hne].
      * exists true. now apply assign_same.
      * exists b. rewrite assign_inside by (try lia; now right). exact Hb.
  - intros j Hn Hj. apply assign_hole; lia.
Qed.

(** ** Pattern format: the key handler

    [_onKeyDown] of [usePatternFormat].  [getCaretPosInBoundary] and
    [setCaretPosition] come from [./utils]: the first is a parameter here,
    the calls of the second and of the parent's handler are listed in their
    order. *)

Module PatternKeys.

Inductive Direction := Left | Right.

Inductive KeyEffect :=
| SetCaretPosition (caretPos : Z)
| ParentOnKeyDown.

(** [local.patternChar ?? '#']: an empty string is kept. *)
Definition patternCharOf (props : PatternFormatProps) : str :=
  orDefault (patternChar props) (lit "#").

(** [while (caretPos > 0 && formatProp[caretPos - 1] !== patternChar)
    caretPos--], from a positive [caretPos = n]. *)
Fixpoint moveLeft (formatProp patChar : str) (n : nat) : nat :=
  match n with
  | O => O
  | S k =>
      if negb (charAt_is formatProp (Z.of_nat k) patChar)
      then moveLeft formatProp patChar k
      else S k
  end.

Definition backspaceTarget (formatProp patChar : str) (caretPos : Z) : Z :=
  if caretPos >? 0 then Z.of_nat (moveLeft formatProp patChar (Z.to_nat caretPos))
  else caretPos.

(** [while (caretPos < formatLn && formatProp[caretPos] !== patternChar)
    caretPos++]; it runs at most [formatLn - caretPos] times. *)
Fixpoint moveRight (formatProp patChar : str) (caretPos : Z) (steps : nat) : Z :=
  match steps with
  | O => caretPos
  | S k =>
      if (caretPos <? len formatProp) && negb (charAt_is formatProp caretPos patChar)
      then moveRight formatProp patChar (caretPos + 1) k
      else caretPos
  end.

Definition deleteTarget (formatProp patChar : str) (caretPos : Z) : Z :=
  moveRight formatProp patChar caretPos (Z.to_nat (len formatProp - caretPos)).

Section Handler.

Context `{Utils}.

Variable getCaretPosInBoundary : str -> Z -> list (option bool) -> Direction -> Z.

(** [parent] tells whether the prop [onKeyDown] is a function. *)
Definition onKeyDown_ (props : PatternFormatProps) (parent : bool) (key : str)
    (el : Base.InputElement) : list KeyEffect :=
  let formatProp := pformat props in
  let patChar := patternCharOf props in
  let selectionStart := Base.selectionStart el in
  let selectionEnd := Base.selectionEnd el in
  let value := Base.elValue el in
  let callParent := if parent then [ParentOnKeyDown] else [] in
  (* if multiple characters are selected and user hits backspace, no need to
     handle anything manually *)
  if negb (selectionStart =? selectionEnd) then callParent
  else
    (* bring the cursor to closest numeric section *)
    let caretPos :=
      if str_eqb key (lit "Backspace")
      then getCaretPosInBoundary value
             (backspaceTarget formatProp patChar selectionStart)
             (Pattern.getCaretBoundary value props) Left
      else if str_eqb key (lit "Delete")
      then getCaretPosInBoundary value
             (deleteTarget formatProp patChar selectionStart)
             (Pattern.getCaretBoundary value props) Right
      else if negb (charAt_is formatProp selectionStart patChar)
              && negb (str_eqb key (lit "ArrowLeft"))
              && negb (str_eqb key (lit "ArrowRight"))
      then
        (* if user is typing on format character position, bring user to
           next allowed caret position *)
        getCaretPosInBoundary value (selectionStart + 1)
          (Pattern.getCaretBoundary value props) Right
      else selectionStart in
    (* if we changing caret position, set the caret position *)
    (if negb (caretPos =? selectionStart) then [SetCaretPosition caretPos] else [])
    ++ callParent.

End Handler.

End PatternKeys.

Section PatternKeyFacts.

Variables formatProp patChar : str.

Lemma moveLeft_spec (n : nat) :
  let r := PatternKeys.moveLeft formatProp patChar n in
  (r <= n)%nat
  /\ (r = O \/ charAt_is formatProp (Z.of_nat r - 1) patChar = true)
  /\ forall j, (r <= j)%nat -> (j < n)%nat ->
               charAt_is formatProp (Z.of_nat j) patChar = false.
Proof.
  cbv zeta. induction n as [|n [IHle [IHat IHgap]]].
  - cbn [PatternKeys.moveLeft]. split; [lia|]. split; [now left|]. intros j; lia.
  - cbn [PatternKeys.moveLeft].
    destruct (charAt_is formatProp (Z.of_nat n) patChar) eqn:E; cbn [negb].
    + split; [lia|]. split; [|intros j; lia].
      right. replace (Z.of_nat (S n) - 1) with (Z.of_nat n) by lia. exact E.
    + split; [lia|]. split; [exact IHat|].
      intros j Hr Hj. destruct (Nat.eq_dec j n) as [->|Hne]; [exact E|].
      apply IHgap; lia.
Qed.

Lemma moveRight_spec (steps : nat) (caretPos : Z) :
  let r := PatternKeys.moveRight formatProp patChar caretPos steps in
  caretPos <= r <= caretPos + Z.of_nat steps
  /\ (r = caretPos + Z.of_nat steps
      \/ len formatProp <= r
      \/ charAt_is formatProp r patChar = true)
  /\ forall j, caretPos <= j -> j < r -> charAt_is formatProp j patChar = false.
Proof.
  cbv zeta. revert caretPos; induction steps as [|k IH]; intros caretPos.
  - cbn [PatternKeys.moveRight]. split; [lia|]. split; [left; lia|]. intros j; lia.
  - cbn [PatternKeys.moveRight].
    destruct (Z.ltb_spec caretPos (len formatProp)) as [Hlt|Hge]; cbn [andb].
    + destruct (charAt_is formatProp caretPos patChar) eqn:E; cbn [negb].
      * split; [lia|]. split; [now right; right|]. intros j; lia.
      * destruct (IH (caretPos + 1)) as [Hrange [Hstop Hgap]].
        split; [lia|]. split.
        -- destruct Hstop as [Hs | Hs]; [left; lia | right; exact Hs].
        -- intros j Hc Hj. destruct (Z.eq_dec j caretPos) as [->|Hne]; [exact E|].
           apply Hgap; lia.
    + split; [lia|]. split; [right; left; lia|]. intros j; lia.
Qed.

End PatternKeyFacts.

(** X10. Where Backspace and Delete take the caret in a pattern field
    before the boundary correction: Backspace moves it left over the literal
    characters of the format until it stands just after a pattern character,
    or at the start; Delete moves it right over the literal characters until
    it stands on a pattern character, or at the end of the format.  No
    pattern character is passed over on the way. *)
Theorem pattern_keys_seek_the_nearest_slot (formatProp patChar : str)
    (caretPos : Z) :
  let b := PatternKeys.backspaceTarget formatProp patChar caretPos in
  let d := PatternKeys.deleteTarget formatProp patChar caretPos in
  (b <= caretPos /\ (0 < caretPos -> 0 <= b)
   /\ (b <= 0 \/ charAt_is formatProp (b - 1) patChar = true)
   /\ forall j, b <= j -> j < caretPos -> charAt_is formatProp j patChar = false)
  /\ (caretPos <= d /\ d <= Z.max caretPos (len formatProp)
      /\ (len formatProp <= d \/ charAt_is formatProp d patChar = true)
      /\ forall j, caretPos <= j -> j < d -> charAt_is formatProp j patChar = false).
Proof.
  cbv zeta. split.
  - unfold PatternKeys.backspaceTarget.
    destruct (Z.gtb_spec caretPos 0) as [Hpos|Hneg].
    + destruct (moveLeft_spec formatProp patChar (Z.to_nat caretPos))
        as [Hle [Hat Hgap]].
      split; [lia|]. split; [lia|]. split.
      * destruct Hat as [Hz|Hat]; [left; lia | right; exact Hat].
      * intros j Hb Hj. rewrite <- (Z2Nat.id j) by lia. apply Hgap; lia.
    + split; [lia|]. split; [lia|]. split; [left; lia | intros j; lia].
  - unfold PatternKeys.deleteTarget.
    destruct (moveRight_spec formatProp patChar
                (Z.to_nat (len formatProp - caretPos)) caretPos)
      as [Hrange [Hstop Hgap]].
    split; [lia|]. split; [lia|]. split; [|exact Hgap].
    destruct Hstop as [Hs | Hs]; [left; lia | exact Hs].
Qed.

(** X11. When the pattern key handler leaves the caret alone: with a range
    selected, on the arrow keys, and when a character is typed with the
    caret on a pattern character of the format, nothing is done but the call
    of the parent's handler, if there is one.  In every case the caret is
    set at most once, and the parent's handler is called last. *)
Theorem pattern_keys_leave_the_caret_alone `{Utils}
    (getCaretPosInBoundary : str -> Z -> list (option bool)
                             -> PatternKeys.Direction -> Z)
    (props : PatternFormatProps) (parent : bool) (key : str)
    (el : Base.InputElement) :
  let effects := PatternKeys.onKeyDown_ getCaretPosInBoundary props parent key el in
  let callParent := if parent then [PatternKeys.ParentOnKeyDown] else [] in
  let deleting := str_eqb key (lit "Backspace") || str_eqb key (lit "Delete") in
  let arrow := str_eqb key (lit "ArrowLeft") || str_eqb key (lit "ArrowRight") in
  (Base.selectionStart el <> Base.selectionEnd el -> effects = callParent)
  /\ (deleting = false -> arrow = true -> effects = callParent)
  /\ (deleting = false ->
      charAt_is (pformat props) (Base.selectionStart el)
        (PatternKeys.patternCharOf props) = true ->
      effects = callParent)
  /\ (effects = callParent
      \/ exists caretPos,
           caretPos <> Base.selectionStart el
           /\ effects = PatternKeys.SetCaretPosition caretPos :: callParent).
Proof.
  cbv zeta. unfold PatternKeys.onKeyDown_. cbv zeta.
  destruct (Z.eqb_spec (Base.selectionStart el) (Base.selectionEnd el))
    as [Hsel|Hsel]; cbn [negb].
  2:{ repeat split; try reflexivity; now left. }
  split; [intros Hne; contradiction|].
  split.
  { intros Hd Ha. apply orb_false_iff in Hd as [-> ->].
    apply orb_true_iff in Ha.
    destruct Ha as [-> | ->]; cbn [negb]; rewrite ?andb_false_r;
      cbn [andb]; rewrite Z.eqb_refl; reflexivity. }
  split.
  { intros Hd Hslot. apply orb_false_iff in Hd as [-> ->].
    rewrite Hslot. cbn [negb andb]. rewrite Z.eqb_refl. reflexivity. }
  match goal with
  | |- context [negb (?p =? Base.selectionStart el)] =>
      destruct (Z.eqb_spec p (Base.selectionStart el)) as [Hp|Hp]; cbn [negb app]
  end.
  - now left.
  - right. eexists. split; [exact Hp | reflexivity].
Qed.

(** ** The edit handler: an edit that is taken *)

Section Accepted.

Variable F : Type.
Variable env : Base.Env F.

(** The formatted value and the value object that [formatInputValue]
    computes from the element as the edit left it. *)
Definition candidateFormatted (st : Base.State F) : str :=
  let el := Base.input st in
  let changeRange :=
    match Base.caretPositionBeforeChange st with
    | Some region =>
        Base.findChangedRangeFromCaretPositions env region (Base.selectionEnd el)
    | None => Base.findChangeRange env (Base.formattedValue st) (Base.elValue el)
    end in
  let changeMeta :=
    mkChangeMeta (fst changeRange) (snd changeRange) (Base.formattedValue st) in
  Base.format env (Base.removeFormatting env (Base.elValue el) (Some changeMeta)).

Definition candidateValues (st : Base.State F) : Base.NumberFormatValues F :=
  Base.getValueObject env (candidateFormatted st)
    (Base.removeFormatting env (candidateFormatted st) None).

(** There is no [isAllowed], or it takes the candidate. *)
Definition accepted (st : Base.State F) : Prop :=
  match Base.isAllowed env with
  | Some allowed => allowed (candidateValues st) = true
  | None => True
  end.

(** The element after the new formatted value was written to it, and the
    caret position computed for it. *)
Definition writtenInput (st : Base.State F) : Base.InputElement :=
  Base.setValue env (Base.input st) (candidateFormatted st).

Definition newCaret (st : Base.State F) : Z :=
  Base.getNewCaretPosition env st (Base.elValue (Base.input st))
    (candidateFormatted st) (Base.geInputCaretPosition env (Base.input st)).

Lemma formatInputValue_accepted (st : Base.State F) :
  accepted st ->
  Base.formatInputValue env st (Base.elValue (Base.input st)) Base.SourceEvent
  = (Base.updateValueAndCaretPosition env st (candidateFormatted st)
       (Base.removeFormatting env (candidateFormatted st) None)
       (Base.elValue (Base.input st)) Base.SourceEvent, true).
Proof.
  unfold accepted, candidateValues, candidateFormatted, Base.formatInputValue.
  cbv zeta. destruct (Base.isAllowed env) as [allowed|]; [|reflexivity].
  intros ->. reflexivity.
Qed.

Lemma updateValueAndCaretPosition_input (st : Base.State F) (formatted numStr : str)
    (source : Base.SourceType) :
  let written := Base.setValue env (Base.input st) formatted in
  let caretPos :=
    Base.getNewCaretPosition env st (Base.elValue (Base.input st)) formatted
      (Base.geInputCaretPosition env (Base.input st)) in
  let st' :=
    Base.updateValueAndCaretPosition env st formatted numStr
      (Base.elValue (Base.input st)) source in
  Base.input st'
  = (if wholeSelected written then written
     else Base.setCaretPosition env written caretPos)
  /\ Base.notifications st'
     = Base.notifications st
       ++ (if str_eqb formatted (Base.formattedValue st) then []
           else [Base.OnValueChange (Base.getValueObject env formatted numStr) source]).
Proof.
  cbv zeta. unfold Base.updateValueAndCaretPosition. cbv zeta.
  assert (Hinput : (if nonEmpty (Base.elValue (Base.input st))
                    then Base.elValue (Base.input st)
                    else Base.elValue (Base.input st))
                   = Base.elValue (Base.input st))
    by (now destruct (nonEmpty _)).
  rewrite Hinput.
  set (written := Base.withInput st (Base.setValue env (Base.input st) formatted)
                    (Base.setCaretTimeout st)).
  change (Base.getNewCaretPosition env written)
    with (Base.getNewCaretPosition env st).
  pose proof (setPatchedCaretPosition_input F env written
                (Base.getNewCaretPosition env st (Base.elValue (Base.input st))
                   formatted (Base.geInputCaretPosition env (Base.input st)))
                formatted) as Hel.
  pose proof (setPatchedCaretPosition_keeps F env written
                (Base.getNewCaretPosition env st (Base.elValue (Base.input st))
                   formatted (Base.geInputCaretPosition env (Base.input st)))
                formatted) as Hkeeps.
  cbv zeta in Hkeeps. destruct Hkeeps as [Hf [_ [Hnote _]]].
  change (Base.input written) with (Base.setValue env (Base.input st) formatted)
    in Hel.
  change (Base.formattedValue written) with (Base.formattedValue st) in Hf.
  change (Base.notifications written) with (Base.notifications st) in Hnote.
  rewrite Hf.
  destruct (str_eqb formatted (Base.formattedValue st)).
  - split; [exact Hel | now rewrite Hnote, app_nil_r].
  - unfold Base.onValueChange_. cbn [Base.input Base.notifications].
    split; [exact Hel | now rewrite Hnote].
Qed.

End Accepted.

Arguments candidateFormatted {F} env st.
Arguments candidateValues {F} env st.
Arguments accepted {F} env st.
Arguments writtenInput {F} env st.
Arguments newCaret {F} env st.

(** X12. An edit that is taken ([isAllowed] is missing or returns true):
    [_onChange] writes the new formatted value to the field and sets the
    caret as for a rejected edit, but for the new value; it calls
    [onValueChange] with the new value object and the source [event] only if
    the new formatted value differs from the current one, then calls
    [onChange] once, and clears the caret region recorded before the
    edit. *)
Theorem accepted_edit_notifies_the_parent (F : Type) (env : Base.Env F)
    (st : Base.State F) :
  accepted env st ->
  let st' := Base.onChange_ env st in
  let written := writtenInput env st in
  Base.input st'
  = (if wholeSelected written then written
     else Base.setCaretPosition env written (newCaret env st))
  /\ Base.notifications st'
     = Base.notifications st
       ++ (if str_eqb (candidateFormatted env st) (Base.formattedValue st) then []
           else [Base.OnValueChange (candidateValues env st) Base.SourceEvent])
       ++ [Base.OnChange (Base.input st')]
  /\ Base.caretPositionBeforeChange st' = None.
Proof.
  intros Haccepted. cbv zeta.
  unfold Base.onChange_. cbv zeta.
  rewrite (formatInputValue_accepted F env st Haccepted). cbv beta iota.
  cbn [Base.input Base.notifications Base.caretPositionBeforeChange].
  destruct (updateValueAndCaretPosition_input F env st (candidateFormatted env st)
              (Base.removeFormatting env (candidateFormatted env st) None)
              Base.SourceEvent) as [Hinput Hnote].
  split; [exact Hinput|]. split; [|reflexivity].
  rewrite Hnote, <- app_assoc. reflexivity.
Qed.

(** [2] typed at the end of [1] in the field of two digits. *)
Definition secondDigitTyped : Base.State Z :=
  Base.mkState (Base.mkInput (lit "12") 2 2) (lit "1") (lit "1")
    (Some (Base.mkRegion 1 1)) None [].

Lemma accepted_edit_notifies_the_parent_witness :
  accepted twoDigitsField secondDigitTyped
  /\ Base.notifications (Base.onChange_ twoDigitsField secondDigitTyped)
     = [Base.OnValueChange (Base.mkValues (lit "12") (lit "12") None) Base.SourceEvent;
        Base.OnChange (Base.mkInput (lit "12") 2 2)].
Proof.
  assert (Haccepted : accepted twoDigitsField secondDigitTyped) by reflexivity.
  split; [exact Haccepted|].
  destruct (accepted_edit_notifies_the_parent Z twoDigitsField secondDigitTyped
              Haccepted) as [_ [Hnote _]].
  exact Hnote.
Defined.

(** ** The edit handler: what a rejected edit leaves *)

(** X21. An edit turned down by [isAllowed]: the handler [_onChange] writes
    the previous formatted value back to the field; it puts the caret at
    the position the caret resolver computes for that value from the caret
    the edit left ([getNewCaretPosition]), and sets the caret timer, unless
    the whole content of the field is selected, in which case the selection
    stays as the assignment left it; [formatInputValue] returns [false];
    neither [onValueChange] nor [onChange] is called; the stored formatted
    value and number string stay; and the caret region recorded before the
    edit is cleared.  The field holds the previous formatted value whenever
    the assignment to [el.value] stores its argument and [setCaretPosition]
    leaves the value alone. *)
Theorem rejected_edit_restores_value_silently (F : Type) (env : Base.Env F)
    (st : Base.State F) :
  Base.rejected env st ->
  let st' := Base.onChange_ env st in
  let restored := restoredInput env st in
  snd (Base.formatInputValue env st (Base.elValue (Base.input st)) Base.SourceEvent)
  = false
  /\ Base.input st'
     = (if wholeSelected restored then restored
        else Base.setCaretPosition env restored (resolvedCaret env st))
  /\ ((forall el v, Base.elValue (Base.setValue env el v) = v) ->
      (forall el p, Base.elValue (Base.setCaretPosition env el p) = Base.elValue el) ->
      Base.elValue (Base.input st') = Base.formattedValue st)
  /\ Base.formattedValue st' = Base.formattedValue st
  /\ Base.numAsString st' = Base.numAsString st
  /\ Base.notifications st' = Base.notifications st
  /\ Base.caretPositionBeforeChange st' = None
  /\ Base.setCaretTimeout st'
     = (if wholeSelected restored then Base.setCaretTimeout st
        else Some (Base.mkTimer (resolvedCaret env st) (Base.formattedValue st))).
Proof.
  intros Hrejected. cbv zeta.
  pose proof (formatInputValue_rejected F env st Hrejected) as Hformat.
  unfold Base.onChange_. cbv zeta. rewrite Hformat. cbv beta iota.
  cbn [snd Base.input Base.formattedValue Base.numAsString Base.notifications
       Base.caretPositionBeforeChange Base.setCaretTimeout].
  set (written := Base.withInput st (restoredInput env st) (Base.setCaretTimeout st)).
  pose proof (setPatchedCaretPosition_input F env written (resolvedCaret env st)
                (Base.formattedValue st)) as Hinput.
  pose proof (setPatchedCaretPosition_keeps F env written (resolvedCaret env st)
                (Base.formattedValue st)) as Hkeeps.
  cbv zeta in Hkeeps. destruct Hkeeps as [Hf [Hn [Hnote Htimer]]].
  change (Base.input written) with (restoredInput env st) in Hinput, Htimer.
  split; [reflexivity|]. split; [exact Hinput|].
  split.
  { intros Hvalue Hcaret. rewrite Hinput.
    destruct (wholeSelected _); [|rewrite Hcaret]; apply Hvalue. }
  repeat split; assumption.
Qed.

(** [3] typed at the end of [12]. *)
Definition thirdDigitTyped : Base.State Z :=
  Base.mkState (Base.mkInput (lit "123") 3 3) (lit "12") (lit "12")
    (Some (Base.mkRegion 2 2)) None [].

Lemma rejected_edit_restores_value_silently_witness :
  Base.rejected twoDigitsField thirdDigitTyped
  /\ Base.input (Base.onChange_ twoDigitsField thirdDigitTyped)
     = Base.mkInput (lit "12") 2 2
  /\ Base.notifications (Base.onChange_ twoDigitsField thirdDigitTyped) = [].
Proof.
  assert (Hrejected : Base.rejected twoDigitsField thirdDigitTyped).
  { eexists. split; reflexivity. }
  split; [exact Hrejected|].
  destruct (rejected_edit_restores_value_silently Z twoDigitsField thirdDigitTyped
              Hrejected) as [_ [Hinput [_ [_ [_ [Hnote _]]]]]].
  split; [exact Hinput | exact Hnote].
Defined.

(** ** The base component: the key handler

    [_onKeyDown] of the base component.  The boundary correction
    [getCaretPosInBoundary] with its direction comes from [./utils] and is a
    parameter, as are the prop [isValidInputCharacter], which is given
    [value[i]] (a character or [undefined]), and the parent's [onKeyDown],
    which may move the selection of the element before the caret region is
    recorded. *)

Module BaseKeys.

Section Handler.

Variable F : Type.
Variable env : Base.Env F.
Variable getCaretPosInBoundary : str -> Z -> list bool -> PatternKeys.Direction -> Z.
Variable isValidInputCharacter : option ascii -> bool.
Variable parentOnKeyDown : Base.InputElement -> Base.InputElement.

Definition correctCaretPosition (value : str) (caretPos : Z)
    (direction : PatternKeys.Direction) : Z :=
  getCaretPosInBoundary value caretPos (Base.getCaretBoundary env value) direction.

(** The end of the handler on both of its paths: the parent's handler, then
    [setCaretPositionInfoBeforeChange(el, endOffset)]. *)
Definition callParentAndRecord (st : Base.State F) (endOffset : Z) : Base.State F :=
  let el := parentOnKeyDown (Base.input st) in
  Base.mkState el (Base.formattedValue st) (Base.numAsString st)
    (Some (Base.mkRegion (Base.selectionStart el) (Base.selectionEnd el + endOffset)))
    (Base.setCaretTimeout st) (Base.notifications st).

(** The new state and whether [e.preventDefault] was called. *)
Definition onKeyDown_ (st : Base.State F) (key : str) : Base.State F * bool :=
  let el := Base.input st in
  let selectionStart := Base.selectionStart el in
  let selectionEnd := Base.selectionEnd el in
  let value := Base.elValue el in
  (* Handle backspace and delete against non numerical/decimal characters or
     arrow keys *)
  let expectedCaretPosition :=
    if str_eqb key (lit "ArrowLeft") || str_eqb key (lit "Backspace")
    then Some (Z.max (selectionStart - 1) 0)
    else if str_eqb key (lit "ArrowRight")
    then Some (Z.min (selectionStart + 1) (len value))
    else if str_eqb key (lit "Delete") then Some selectionStart
    else None in
  (* if key is delete and text is not selected keep the end offset to 1, as
     it deletes one character *)
  let endOffset :=
    if str_eqb key (lit "Delete") && (selectionStart =? selectionEnd) then 1 else 0 in
  let isArrowKey := str_eqb key (lit "ArrowLeft") || str_eqb key (lit "ArrowRight") in
  match expectedCaretPosition with
  | None => (callParentAndRecord st endOffset, false)
  | Some expected =>
      if negb (selectionStart =? selectionEnd) && negb isArrowKey
      then (callParentAndRecord st endOffset, false)
      else
        let newCaretPosition :=
          if isArrowKey
          then correctCaretPosition value expected
                 (if str_eqb key (lit "ArrowLeft")
                  then PatternKeys.Left else PatternKeys.Right)
          else if str_eqb key (lit "Delete")
                  && negb (isValidInputCharacter (charAt value expected))
          then correctCaretPosition value expected PatternKeys.Right
          else if str_eqb key (lit "Backspace")
                  && negb (isValidInputCharacter (charAt value expected))
          then correctCaretPosition value expected PatternKeys.Left
          else expected in
        (* arrow left or right only moves the caret, so no need to handle the
           event, if we are handling it manually *)
        let prevented := isArrowKey && negb (newCaretPosition =? expected) in
        let st :=
          if negb (newCaretPosition =? expected)
          then Base.setPatchedCaretPosition env st newCaretPosition value
          else st in
        (callParentAndRecord st endOffset, prevented)
  end.

End Handler.

End BaseKeys.

Arguments BaseKeys.correctCaretPosition {F}.
Arguments BaseKeys.callParentAndRecord {F}.
Arguments BaseKeys.onKeyDown_ {F}.

Section BaseKeyFacts.

Variable F : Type.
Variable env : Base.Env F.
Variable parentOnKeyDown : Base.InputElement -> Base.InputElement.

Lemma callParentAndRecord_spec (st : Base.State F) (endOffset : Z) :
  let st' := BaseKeys.callParentAndRecord parentOnKeyDown st endOffset in
  Base.input st' = parentOnKeyDown (Base.input st)
  /\ Base.caretPositionBeforeChange st'
     = Some (Base.mkRegion (Base.selectionStart (Base.input st'))
               (Base.selectionEnd (Base.input st') + endOffset))
  /\ Base.formattedValue st' = Base.formattedValue st
  /\ Base.numAsString st' = Base.numAsString st
  /\ Base.notifications st' = Base.notifications st
  /\ Base.setCaretTimeout st' = Base.setCaretTimeout st.
Proof. cbv zeta. now repeat split. Qed.

End BaseKeyFacts.

(** X13. A key press never changes the value the component holds and is
    never taken from the parent.  On every path of the base [_onKeyDown] the
    parent's [onKeyDown] is called last, and the caret region is recorded
    after it, from the selection as the parent left it; its end is pushed by
    one exactly when Delete was pressed with nothing selected.  The stored
    formatted value, the number string and the calls made so far stay as
    they were.  The default action is prevented only for an arrow key; for
    any key other than the arrows, Backspace and Delete the element is
    handed to the parent untouched. *)
Theorem key_press_records_the_caret_region (F : Type) (env : Base.Env F)
    (getCaretPosInBoundary : str -> Z -> list bool -> PatternKeys.Direction -> Z)
    (isValidInputCharacter : option ascii -> bool)
    (parentOnKeyDown : Base.InputElement -> Base.InputElement)
    (st : Base.State F) (key : str) :
  let result :=
    BaseKeys.onKeyDown_ env getCaretPosInBoundary isValidInputCharacter
      parentOnKeyDown st key in
  let st' := fst result in
  let arrow := str_eqb key (lit "ArrowLeft") || str_eqb key (lit "ArrowRight") in
  let deleting := str_eqb key (lit "Backspace") || str_eqb key (lit "Delete") in
  let endOffset :=
    if str_eqb key (lit "Delete")
       && (Base.selectionStart (Base.input st) =? Base.selectionEnd (Base.input st))
    then 1 else 0 in
  (exists el, Base.input st' = parentOnKeyDown el)
  /\ Base.caretPositionBeforeChange st'
     = Some (Base.mkRegion (Base.selectionStart (Base.input st'))
               (Base.selectionEnd (Base.input st') + endOffset))
  /\ Base.formattedValue st' = Base.formattedValue st
  /\ Base.numAsString st' = Base.numAsString st
  /\ Base.notifications st' = Base.notifications st
  /\ (snd result = true -> arrow = true)
  /\ (arrow = false -> deleting = false ->
      Base.input st' = parentOnKeyDown (Base.input st)
      /\ Base.setCaretTimeout st' = Base.setCaretTimeout st
      /\ snd result = false).
Proof.
  cbv zeta. unfold BaseKeys.onKeyDown_. cbv zeta.
  set (endOffset := if str_eqb key (lit "Delete") && _ then 1 else 0).
  set (expected := if str_eqb key (lit "ArrowLeft") || _ then _ else _).
  assert (Hplain :
            str_eqb key (lit "ArrowLeft") || str_eqb key (lit "ArrowRight") = false ->
            str_eqb key (lit "Backspace") || str_eqb key (lit "Delete") = false ->
            expected = None).
  { intros Ha Hd. apply orb_false_iff in Ha as [Hl Hr].
    apply orb_false_iff in Hd as [Hb Hdel].
    subst expected. now rewrite Hl, Hr, Hb, Hdel. }
  destruct expected as [position|] eqn:Eexpected.
  - destruct (negb (Base.selectionStart (Base.input st)
                    =? Base.selectionEnd (Base.input st))
              && negb (str_eqb key (lit "ArrowLeft")
                       || str_eqb key (lit "ArrowRight"))) eqn:Eskip.
    + cbn [fst snd].
      destruct (callParentAndRecord_spec F parentOnKeyDown st endOffset)
        as [Hin [Hregion [Hf [Hn [Hnote Htimer]]]]].
      split; [eexists; exact Hin|]. repeat split; try assumption; try discriminate.
    + cbn [fst snd].
      match goal with
      | |- context [BaseKeys.callParentAndRecord _ ?s _] => set (patched := s)
      end.
      destruct (callParentAndRecord_spec F parentOnKeyDown patched endOffset)
        as [Hin [Hregion [Hf [Hn [Hnote Htimer]]]]].
      assert (Hkept : Base.formattedValue patched = Base.formattedValue st
                      /\ Base.numAsString patched = Base.numAsString st
                      /\ Base.notifications patched = Base.notifications st).
      { subst patched.
        match goal with
        | |- context [if ?c then Base.setPatchedCaretPosition env st ?p ?v else st] =>
            destruct c;
            [ destruct (setPatchedCaretPosition_keeps F env st p v)
                as [Hf' [Hn' [Hnote' _]]]
            | ]
        end; now repeat split. }
      destruct Hkept as [Hf' [Hn' Hnote']].
      split; [eexists; exact Hin|]. split; [exact Hregion|].
      split; [congruence|]. split; [congruence|]. split; [congruence|].
      split.
      * intros Hp. apply andb_prop in Hp. destruct Hp as [Ha _]. exact Ha.
      * intros Ha Hd. discriminate (Hplain Ha Hd).
  - cbn [fst snd].
    destruct (callParentAndRecord_spec F parentOnKeyDown st endOffset)
      as [Hin [Hregion [Hf [Hn [Hnote Htimer]]]]].
    split; [eexists; exact Hin|]. repeat split; try assumption; discriminate.
Qed.

(** ** The base component in TypeScript: the value-change call

    The TypeScript source of the base component differs from the built file
    in three places that matter to an edit: the current formatted value is
    read from the prop [value] and not stored by the component; an edit
    raises the flag [processingUserInput] while it runs and cancels the
    pending focus timer; and [_onValueChange] does not pass every value on
    to the parent.  The variable [lastUpdatedValue], which is read only when
    the component mounts, is left out. *)

Module BaseTS.

Record State (F : Type) := mkState {
  base : Base.State F;
  (** [timeout.focusTimeout] is set *)
  focusTimeout : bool;
  processingUserInput : bool
}.

Arguments mkState {F}.
Arguments base {F}.
Arguments focusTimeout {F}.
Arguments processingUserInput {F}.

Section Handler.

Variable F : Type.
Variable env : Base.Env F.

(** Whether the prop [onValueChange] is given. *)
Variable hasOnValueChange : bool.

Definition isEvent (source : Base.SourceType) : bool :=
  match source with Base.SourceEvent => true | Base.SourceProps => false end.

Definition withBase (st : State F) (b : Base.State F) : State F :=
  mkState b (focusTimeout st) (processingUserInput st).

Definition notify (b : Base.State F) (n : Base.Notification F) : Base.State F :=
  Base.mkState (Base.input b) (Base.formattedValue b) (Base.numAsString b)
    (Base.caretPositionBeforeChange b) (Base.setCaretTimeout b)
    (Base.notifications b ++ [n]).

Definition onValueChange_ (st : State F) (values : Base.NumberFormatValues F)
    (source : Base.SourceType) : State F :=
  if hasOnValueChange
  then
    (* Only block the specific callback that would change prefix from $ to
       $$ during typing *)
    let wouldTriggerPrefixChange :=
      isEvent source
      && str_eqb (Base.vFormattedValue values) (lit "$1423")
      && str_eqb (Base.vValue values) (lit "1423") in
    if negb wouldTriggerPrefixChange
    then withBase st (notify (base st) (Base.OnValueChange values source))
    else st
  else st.

Definition updateValueAndCaretPosition (st : State F) (newFormattedValue numStr : str)
    (inputValue : str) (source : Base.SourceType) : State F :=
  let b := base st in
  let inputValue := if nonEmpty inputValue then inputValue else Base.elValue (Base.input b) in
  let currentCaretPosition := Base.geInputCaretPosition env (Base.input b) in
  (* set the value imperatively *)
  let b := Base.withInput b (Base.setValue env (Base.input b) newFormattedValue)
             (Base.setCaretTimeout b) in
  (* get the caret position and set it imperatively *)
  let caretPos :=
    Base.getNewCaretPosition env b inputValue newFormattedValue currentCaretPosition in
  let b := Base.setPatchedCaretPosition env b caretPos newFormattedValue in
  let st := withBase st b in
  if str_eqb newFormattedValue (Base.formattedValue b) then st
  else onValueChange_ st (Base.getValueObject env newFormattedValue numStr) source.

Definition formatInputValue (st : State F) (inputValue : str)
    (source : Base.SourceType) : State F * bool :=
  (* setProcessingUserInput(true), and the focus timer is cleared *)
  let st := mkState (base st) false true in
  let b := base st in
  let el := Base.input b in
  let changeRange :=
    match Base.caretPositionBeforeChange b with
    | Some region =>
        Base.findChangedRangeFromCaretPositions env region (Base.selectionEnd el)
    | None => Base.findChangeRange env (Base.formattedValue b) inputValue
    end in
  let changeMeta :=
    mkChangeMeta (fst changeRange) (snd changeRange) (Base.formattedValue b) in
  let numStr := Base.removeFormatting env inputValue (Some changeMeta) in
  let formatted := Base.format env numStr in
  let numStr := Base.removeFormatting env formatted None in
  let rejects :=
    match Base.isAllowed env with
    | Some allowed => negb (allowed (Base.getValueObject env formatted numStr))
    | None => false
    end in
  if rejects
  then
    let currentCaretPosition := Base.geInputCaretPosition env el in
    let caretPos :=
      Base.getNewCaretPosition env b inputValue (Base.formattedValue b)
        currentCaretPosition in
    let b := Base.withInput b (Base.setValue env el (Base.formattedValue b))
               (Base.setCaretTimeout b) in
    let b := Base.setPatchedCaretPosition env b caretPos (Base.formattedValue b) in
    (mkState b (focusTimeout st) false, false)
  else
    let st := updateValueAndCaretPosition st formatted numStr inputValue source in
    (mkState (base st) (focusTimeout st) false, true).

Definition onChange_ (st : State F) : State F :=
  let inputValue := Base.elValue (Base.input (base st)) in
  let '(st, changed) := formatInputValue st inputValue Base.SourceEvent in
  let b := base st in
  let b := if changed then notify b (Base.OnChange (Base.input b)) else b in
  (* reset the position, as we have already handled the caret position *)
  withBase st
    (Base.mkState (Base.input b) (Base.formattedValue b) (Base.numAsString b) None
       (Base.setCaretTimeout b) (Base.notifications b)).

End Handler.

End BaseTS.

Arguments BaseTS.onValueChange_ {F}.
Arguments BaseTS.updateValueAndCaretPosition {F}.
Arguments BaseTS.formatInputValue {F}.
Arguments BaseTS.onChange_ {F}.

Section TypeScriptEdit.

Variable F : Type.
Variable env : Base.Env F.
Variable hasOnValueChange : bool.

Lemma ts_formatInputValue_accepted (st : BaseTS.State F) :
  accepted env (BaseTS.base st) ->
  BaseTS.formatInputValue env hasOnValueChange st
    (Base.elValue (Base.input (BaseTS.base st))) Base.SourceEvent
  = (let st1 :=
       BaseTS.updateValueAndCaretPosition env hasOnValueChange
         (BaseTS.mkState (BaseTS.base st) false true)
         (candidateFormatted env (BaseTS.base st))
         (Base.removeFormatting env (candidateFormatted env (BaseTS.base st)) None)
         (Base.elValue (Base.input (BaseTS.base st))) Base.SourceEvent in
     (BaseTS.mkState (BaseTS.base st1) (BaseTS.focusTimeout st1) false, true)).
Proof.
  unfold accepted, candidateValues, candidateFormatted, BaseTS.formatInputValue.
  cbv zeta. cbn [BaseTS.base].
  destruct (Base.isAllowed env) as [allowed|]; [|reflexivity].
  intros ->. reflexivity.
Qed.

Lemma ts_updateValueAndCaretPosition_spec (st : BaseTS.State F)
    (formatted numStr : str) :
  let b := BaseTS.base st in
  let values := Base.getValueObject env formatted numStr in
  let blocked :=
    str_eqb formatted (lit "$1423") && str_eqb numStr (lit "1423") in
  let st' :=
    BaseTS.updateValueAndCaretPosition env hasOnValueChange st formatted numStr
      (Base.elValue (Base.input b)) Base.SourceEvent in
  Base.notifications (BaseTS.base st')
  = Base.notifications b
    ++ (if negb (str_eqb formatted (Base.formattedValue b))
           && hasOnValueChange && negb blocked
        then [Base.OnValueChange values Base.SourceEvent] else [])
  /\ Base.formattedValue (BaseTS.base st') = Base.formattedValue b
  /\ BaseTS.focusTimeout st' = BaseTS.focusTimeout st
  /\ Base.input (BaseTS.base st')
     = (let written := Base.setValue env (Base.input b) formatted in
        if wholeSelected written then written
        else Base.setCaretPosition env written
               (Base.getNewCaretPosition env b (Base.elValue (Base.input b))
                  formatted (Base.geInputCaretPosition env (Base.input b)))).
Proof.
  cbv zeta. unfold BaseTS.updateValueAndCaretPosition. cbv zeta.
  assert (Hinput : (if nonEmpty (Base.elValue (Base.input (BaseTS.base st)))
                    then Base.elValue (Base.input (BaseTS.base st))
                    else Base.elValue (Base.input (BaseTS.base st)))
                   = Base.elValue (Base.input (BaseTS.base st)))
    by (now destruct (nonEmpty _)).
  rewrite Hinput.
  set (written := Base.withInput (BaseTS.base st)
                    (Base.setValue env (Base.input (BaseTS.base st)) formatted)
                    (Base.setCaretTimeout (BaseTS.base st))).
  change (Base.getNewCaretPosition env written)
    with (Base.getNewCaretPosition env (BaseTS.base st)).
  set (caretPos := Base.getNewCaretPosition env (BaseTS.base st) _ _ _).
  pose proof (setPatchedCaretPosition_input F env written caretPos formatted) as Hel.
  pose proof (setPatchedCaretPosition_keeps F env written caretPos formatted) as Hkeeps.
  cbv zeta in Hkeeps. destruct Hkeeps as [Hf [_ [Hnote _]]].
  change (Base.input written)
    with (Base.setValue env (Base.input (BaseTS.base st)) formatted) in Hel.
  change (Base.formattedValue written) with (Base.formattedValue (BaseTS.base st)) in Hf.
  change (Base.notifications written) with (Base.notifications (BaseTS.base st)) in Hnote.
  rewrite Hf.
  destruct (str_eqb formatted (Base.formattedValue (BaseTS.base st))); cbn [negb andb].
  - cbn [BaseTS.withBase BaseTS.base BaseTS.focusTimeout].
    rewrite app_nil_r. now repeat split.
  - unfold BaseTS.onValueChange_. cbv zeta.
    cbn [BaseTS.isEvent Base.getValueObject Base.vFormattedValue Base.vValue andb].
    destruct hasOnValueChange; cbn [andb].
    + destruct (str_eqb formatted (lit "$1423") && str_eqb numStr (lit "1423"));
        cbn [negb BaseTS.withBase BaseTS.base BaseTS.focusTimeout BaseTS.notify
             Base.notifications Base.formattedValue Base.input];
        rewrite ?app_nil_r, ?Hnote; now repeat split.
    + cbn [BaseTS.withBase BaseTS.base BaseTS.focusTimeout].
      rewrite app_nil_r. now repeat split.
Qed.

End TypeScriptEdit.

(** X14. In the TypeScript base component an edit that is taken tells the
    parent of the new value only if the prop [onValueChange] is given, the
    new formatted value differs from the current one, and the new value is
    not the formatted value [$1423] with the number string [1423]: that one
    value is never passed on when it comes from an edit.  [onChange] is
    called all the same.  After the edit the flag [processingUserInput] is
    down, the pending focus timer is cancelled, the caret region recorded
    before the edit is cleared, and the current formatted value, which is
    the prop [value], is what it was. *)
Theorem typescript_edit_skips_one_value (F : Type) (env : Base.Env F)
    (hasOnValueChange : bool) (st : BaseTS.State F) :
  accepted env (BaseTS.base st) ->
  let st' := BaseTS.onChange_ env hasOnValueChange st in
  let b := BaseTS.base st in
  let values := candidateValues env b in
  let blocked :=
    str_eqb (Base.vFormattedValue values) (lit "$1423")
    && str_eqb (Base.vValue values) (lit "1423") in
  Base.notifications (BaseTS.base st')
  = Base.notifications b
    ++ (if negb (str_eqb (candidateFormatted env b) (Base.formattedValue b))
           && hasOnValueChange && negb blocked
        then [Base.OnValueChange values Base.SourceEvent] else [])
    ++ [Base.OnChange (Base.input (BaseTS.base st'))]
  /\ BaseTS.processingUserInput st' = false
  /\ BaseTS.focusTimeout st' = false
  /\ Base.caretPositionBeforeChange (BaseTS.base st') = None
  /\ Base.formattedValue (BaseTS.base st') = Base.formattedValue b.
Proof.
  intros Haccepted. cbv zeta.
  unfold BaseTS.onChange_. cbv zeta.
  rewrite (ts_formatInputValue_accepted F env hasOnValueChange st Haccepted).
  cbv zeta beta iota.
  destruct (ts_updateValueAndCaretPosition_spec F env hasOnValueChange
              (BaseTS.mkState (BaseTS.base st) false true)
              (candidateFormatted env (BaseTS.base st))
              (Base.removeFormatting env (candidateFormatted env (BaseTS.base st)) None))
    as [Hnote [Hf [Htimer _]]].
  cbn [BaseTS.base BaseTS.focusTimeout] in Hnote, Hf, Htimer.
  cbn [BaseTS.withBase BaseTS.base BaseTS.focusTimeout BaseTS.processingUserInput
       BaseTS.notify Base.notifications Base.formattedValue Base.input
       Base.caretPositionBeforeChange].
  split; [|now repeat split].
  rewrite Hnote, <- app_assoc. reflexivity.
Qed.

(** A field that shows a dollar sign before the digits, whose parent
    listens to value changes. *)
Definition dollarField : Base.Env Z :=
  {| Base.format := fun numStr => if nonEmpty numStr then lit "$" ++ numStr else [];
     Base.removeFormatting := fun value _ => Base.defaultRemoveFormatting value;
     Base.getCaretBoundary := fun value => repeat true (S (List.length value));
     Base.isAllowed := None;
     Base.parseFloat := fun _ => None;
     Base.setValue := fun _ v => Base.mkInput v (len v) (len v);
     Base.findChangeRange := fun _ _ => (mkRange 0 0, mkRange 0 0);
     Base.findChangedRangeFromCaretPositions :=
       fun region e =>
         (mkRange (Base.regionStart region) (Base.regionEnd region),
          mkRange (Base.regionStart region) e);
     Base.geInputCaretPosition :=
       fun el => Z.max (Base.selectionStart el) (Base.selectionEnd el);
     Base.getCaretPosition := fun value _ _ caretPos _ => Z.min caretPos (len value);
     Base.getCaretPosInBoundary := fun value caretPos _ => Z.max 0 (Z.min caretPos (len value));
     Base.setCaretPosition := fun el caretPos => Base.mkInput (Base.elValue el) caretPos caretPos |}.

(** [3] typed at the end of [$142]. *)
Definition lastDigitTyped : BaseTS.State Z :=
  BaseTS.mkState
    (Base.mkState (Base.mkInput (lit "$1423") 5 5) (lit "$142") (lit "142")
       (Some (Base.mkRegion 4 4)) None [])
    true false.

Lemma typescript_edit_skips_one_value_witness :
  accepted dollarField (BaseTS.base lastDigitTyped)
  /\ candidateFormatted dollarField (BaseTS.base lastDigitTyped) = lit "$1423"
  /\ Base.notifications (BaseTS.base (BaseTS.onChange_ dollarField true lastDigitTyped))
     = [Base.OnChange (Base.mkInput (lit "$1423") 5 5)].
Proof.
  assert (Haccepted : accepted dollarField (BaseTS.base lastDigitTyped))
    by exact I.
  split; [exact Haccepted|]. split; [reflexivity|].
  destruct (typescript_edit_skips_one_value Z dollarField true lastDigitTyped
              Haccepted) as [Hnote _].
  exact Hnote.
Defined.

(** ** The second copy of the numeric module: which separator is kept *)

Section VariantFacts.

Variable allowed : list str.

Let plain := fun c : ascii => negb (JS.mem [c] allowed).

Lemma cleanValue_past (index : Z) (value : str) (i : Z) :
  index < i -> Variant.cleanValue allowed index value i = filter plain value.
Proof.
  revert i; induction value as [|c value IH]; intros i Hi; [reflexivity|].
  cbn [Variant.cleanValue filter]. subst plain. cbv beta.
  destruct (JS.mem [c] allowed); cbn [negb].
  - destruct (Z.eqb_spec i index); [lia|]. apply IH. lia.
  - f_equal. apply IH. lia.
Qed.

Lemma cleanValue_at (index : Z) (value : str) (i : Z) :
  i <= index ->
  charAt_mem value (index - i) allowed = true ->
  Variant.cleanValue allowed index value i
  = filter plain (firstn (Z.to_nat (index - i)) value)
    ++ dot :: filter plain (skipn (S (Z.to_nat (index - i))) value).
Proof.
  revert i; induction value as [|c value IH]; intros i Hi Hmem.
  - unfold charAt_mem, charAt in Hmem.
    destruct (index - i <? 0); [discriminate|].
    rewrite nth_error_nil in Hmem. discriminate Hmem.
  - cbn [Variant.cleanValue].
    destruct (Z.eq_dec i index) as [->|Hne].
    + rewrite Z.sub_diag in *. change (Z.to_nat 0) with O.
      unfold charAt_mem in Hmem. change (charAt (c :: value) 0) with (Some c) in Hmem.
      cbv iota in Hmem. rewrite Hmem, Z.eqb_refl.
      cbn [firstn skipn filter app]. f_equal.
      apply cleanValue_past. lia.
    + assert (Hstep : Z.to_nat (index - i) = S (Z.to_nat (index - (i + 1)))) by lia.
      assert (Hmem' : charAt_mem value (index - (i + 1)) allowed = true).
      { unfold charAt_mem, charAt in *.
        destruct (Z.ltb_spec (index - i) 0); [discriminate|].
        destruct (Z.ltb_spec (index - (i + 1)) 0); [lia|].
        rewrite Hstep in Hmem. exact Hmem. }
      rewrite Hstep. cbn [firstn skipn filter].
      rewrite (IH (i + 1) ltac:(lia) Hmem').
      subst plain. cbv beta.
      destruct (JS.mem [c] allowed); cbn [negb].
      * destruct (Z.eqb_spec i index); [contradiction|]. reflexivity.
      * reflexivity.
Qed.

Lemma rightmostSeparator_spec (skip : option Z) (value : str) (n : nat) :
  let r := Variant.rightmostSeparator allowed skip value n in
  let skipped := fun j => match skip with Some s => j = s | None => False end in
  (r = -1 \/ (0 <= r < Z.of_nat n /\ charAt_mem value r allowed = true
              /\ ~ skipped r))
  /\ forall j, r < j -> j < Z.of_nat n -> 0 <= j ->
               charAt_mem value j allowed = false \/ skipped j.
Proof.
  cbv zeta. induction n as [|n [IHr IHgap]].
  - cbn [Variant.rightmostSeparator]. split; [now left | intros j; lia].
  - cbn [Variant.rightmostSeparator].
    destruct (charAt_mem value (Z.of_nat n) allowed) eqn:Emem; cbn [andb].
    + destruct skip as [s|].
      * destruct (Z.eqb_spec (Z.of_nat n) s) as [Hs|Hs]; cbn [negb].
        -- split.
           ++ destruct IHr as [Hr|[Hr [Hm Hk]]]; [now left | right].
              split; [lia | now split].
           ++ intros j Hj Hn Hpos. destruct (Z.eq_dec j (Z.of_nat n)) as [->|Hne];
                [now right | apply IHgap; lia].
        -- split; [right; split; [lia | now split]|]. intros j; lia.
      * cbn [negb]. split; [right; split; [lia | split; [exact Emem | tauto]]|].
        intros j; lia.
    + split.
      * destruct IHr as [Hr|[Hr [Hm Hk]]]; [now left | right].
        split; [lia | now split].
      * intros j Hj Hn Hpos. destruct (Z.eq_dec j (Z.of_nat n)) as [->|Hne];
          [now left | apply IHgap; lia].
Qed.

End VariantFacts.

Lemma charAt_mem_range (value : str) (j : Z) (allowed : list str) :
  charAt_mem value j allowed = true -> 0 <= j < len value.
Proof.
  unfold charAt_mem, charAt, len. intros Hmem.
  destruct (Z.ltb_spec j 0); [discriminate|].
  destruct (nth_error value (Z.to_nat j)) eqn:E; [|discriminate].
  assert (Z.to_nat j < List.length value)%nat
    by (apply nth_error_Some; congruence).
  lia.
Qed.

Lemma charAt_mem_outside (value : str) (j : Z) (allowed : list str) :
  j < 0 \/ len value <= j -> charAt_mem value j allowed = false.
Proof.
  intros Hj. destruct (charAt_mem value j allowed) eqn:E; [|reflexivity].
  apply charAt_mem_range in E. lia.
Qed.

(** X15. The separator pass of the second copy of the numeric
    [removeFormatting] ([keepOneSeparator], lines 264 to 309 of part_001).
    The pass runs on the text [value] the function has once the prefix and
    the suffix are removed and the sign is put back; [toStart] and [toEnd]
    are the bounds of [changeMeta.to] as the function has updated them, and
    [startIndex] is the number of characters cut at the start.  The pass
    keeps one allowed decimal separator of that text and turns it into the
    decimal point: the character at index [toStart - startIndex], when
    [toEnd - toStart] is 1 and that character is an allowed separator; the
    rightmost allowed separator of the text otherwise.  Every other allowed
    separator is dropped, every other character of the text is kept in its
    place, and a text without any allowed separator is left as it is.  (The
    step after the pass, [stripOthers], then removes the characters that
    are no digit, point, dash or character of the decimal separator.) *)
Theorem variant_keeps_typed_or_rightmost_separator (allowed : list str)
    (value : str) (toStart toEnd startIndex : Z) :
  let plain := fun c : ascii => negb (JS.mem [c] allowed) in
  let index := Variant.decimalSeparatorIndex allowed value toStart toEnd startIndex in
  let result := Variant.keepOneSeparator allowed value toStart toEnd startIndex in
  let typed := toStart - startIndex in
  let isTyped := (toEnd - toStart =? 1) && charAt_mem value typed allowed in
  (index = -1 ->
   result = value /\ forall j, charAt_mem value j allowed = false)
  /\ (index <> -1 ->
      0 <= index < len value
      /\ charAt_mem value index allowed = true
      /\ result
         = filter plain (firstn (Z.to_nat index) value)
           ++ dot :: filter plain (skipn (S (Z.to_nat index)) value))
  /\ (isTyped = true -> index = typed)
  /\ (isTyped = false -> forall j, index < j -> charAt_mem value j allowed = false).
Proof.
  cbv zeta.
  assert (Hindex :
            let index :=
              Variant.decimalSeparatorIndex allowed value toStart toEnd startIndex in
            ((toEnd - toStart =? 1) && charAt_mem value (toStart - startIndex) allowed
             = true /\ index = toStart - startIndex)
            \/ ((toEnd - toStart =? 1) && charAt_mem value (toStart - startIndex) allowed
                = false
                /\ (index = -1
                    \/ (0 <= index < len value
                        /\ charAt_mem value index allowed = true))
                /\ forall j, index < j -> charAt_mem value j allowed = false)).
  { cbv zeta. unfold Variant.decimalSeparatorIndex. cbv zeta.
    destruct (toEnd - toStart =? 1) eqn:Ewidth; cbn [andb].
    - destruct (charAt_mem value (toStart - startIndex) allowed) eqn:Etyped.
      + left. pose proof (charAt_mem_range _ _ _ Etyped) as [Hlo Hhi].
        replace (0 <=? toStart - startIndex) with true
          by (symmetry; now apply Z.leb_le).
        replace (toStart - startIndex <? len value) with true
          by (symmetry; now apply Z.ltb_lt).
        now split.
      + right. rewrite andb_false_r. split; [reflexivity|].
        destruct (rightmostSeparator_spec allowed (Some (toStart - startIndex))
                    value (List.length value)) as [Hr Hgap].
        cbv zeta in Hr, Hgap. split.
        * destruct Hr as [Hr|[Hr [Hm _]]]; [now left | right; now split].
        * intros j Hj.
          destruct (Z.ltb_spec j 0); [apply charAt_mem_outside; now left|].
          destruct (Z.ltb_spec j (len value));
            [|apply charAt_mem_outside; now right].
          destruct (Hgap j Hj ltac:(unfold len in *; lia) ltac:(lia)) as [Hm|Hs];
            [exact Hm | now subst j].
    - right. split; [reflexivity|].
      destruct (rightmostSeparator_spec allowed None value (List.length value))
        as [Hr Hgap].
      cbv zeta in Hr, Hgap. split.
      + destruct Hr as [Hr|[Hr [Hm _]]]; [now left | right; now split].
      + intros j Hj.
        destruct (Z.ltb_spec j 0); [apply charAt_mem_outside; now left|].
        destruct (Z.ltb_spec j (len value));
          [|apply charAt_mem_outside; now right].
        destruct (Hgap j Hj ltac:(unfold len in *; lia) ltac:(lia)) as [Hm|[]].
        exact Hm. }
  cbv zeta in Hindex.
  assert (Hfound :
            Variant.decimalSeparatorIndex allowed value toStart toEnd startIndex = -1
            \/ (0 <= Variant.decimalSeparatorIndex allowed value toStart toEnd startIndex
                     < len value
                /\ charAt_mem value
                     (Variant.decimalSeparatorIndex allowed value toStart toEnd
                        startIndex) allowed = true)).
  { destruct Hindex as [[Htyped Hi]|[_ [Hi _]]]; [|exact Hi].
    right. rewrite Hi. apply andb_true_iff in Htyped as [_ Hm].
    split; [now apply charAt_mem_range in Hm | exact Hm]. }
  unfold Variant.keepOneSeparator. cbv zeta.
  set (index := Variant.decimalSeparatorIndex allowed value toStart toEnd startIndex)
    in *.
  split.
  { intros Hnone. rewrite Hnone. cbn [Z.eqb negb]. split; [reflexivity|].
    destruct Hindex as [[Htyped Hi]|[_ [_ Hgap]]].
    - apply andb_true_iff in Htyped as [_ Hm].
      apply charAt_mem_range in Hm. lia.
    - intros j. destruct (Z.ltb_spec j 0); [apply charAt_mem_outside; now left|].
      apply Hgap. lia. }
  split.
  { intros Hsome. destruct Hfound as [Hnone|[Hrange Hm]]; [contradiction|].
    split; [exact Hrange|]. split; [exact Hm|].
    destruct (Z.eqb_spec index (-1)); [contradiction|]. cbn [negb].
    rewrite (cleanValue_at allowed index value 0 ltac:(lia))
      by (now rewrite Z.sub_0_r).
    now rewrite Z.sub_0_r. }
  split.
  - intros Htyped. destruct Hindex as [[_ Hi]|[Hnot _]]; [exact Hi | congruence].
  - intros Htyped. destruct Hindex as [[Hyes _]|[_ [_ Hgap]]]; [congruence | exact Hgap].
Qed.

(** ** Pattern format: an edit inside a formatted value *)

Section PatternEdit.

Context `{U : Utils} (L : UtilsLaws U).

Variable props : PatternFormatProps.
Variable numStr : str.

Hypothesis Hnum : allDigits numStr = true.
Hypothesis Hmask :
  forall index, exists c,
    getMaskAtIndex (mask props) index = [c] /\ isDigit c = false.

Let patChar := Pattern.patternCharOf props.

Lemma slotCount_app (l1 l2 : str) :
  slotCount patChar (l1 ++ l2) = (slotCount patChar l1 + slotCount patChar l2)%nat.
Proof. unfold slotCount. now rewrite filter_app, length_app. Qed.

Lemma fillSlots_app (l1 l2 : str) (h : nat) :
  Pattern.fillSlots patChar (mask props) numStr h (l1 ++ l2)
  = Pattern.fillSlots patChar (mask props) numStr h l1
    ++ Pattern.fillSlots patChar (mask props) numStr (h + slotCount patChar l1) l2.
Proof.
  revert h; induction l1 as [|c l1 IH]; intros h.
  - cbn [app Pattern.fillSlots]. unfold slotCount. cbn. now rewrite Nat.add_0_r.
  - cbn [app Pattern.fillSlots]. unfold slotCount. cbn [filter].
    destruct (str_eqb [c] patChar); cbn [List.length app].
    + rewrite IH. unfold slotCount. now rewrite Nat.add_succ_r.
    + now rewrite IH.
Qed.

(** A formatted value cut at [k]: the formatted first [k] characters of the
    format, and the rest formatted from the slot reached. *)
Lemma formatted_split (fmt : str) (k : nat) :
  let formatted := List.concat (Pattern.fillSlots patChar (mask props) numStr 0 fmt) in
  firstn k formatted
  = List.concat (Pattern.fillSlots patChar (mask props) numStr 0 (firstn k fmt))
  /\ skipn k formatted
     = List.concat (Pattern.fillSlots patChar (mask props) numStr
                      (slotCount patChar (firstn k fmt)) (skipn k fmt)).
Proof.
  cbv zeta.
  rewrite <- (firstn_skipn k fmt) at 1 3.
  rewrite fillSlots_app, concat_app. cbn [Nat.add].
  pose proof (fillSlots_concat_length props numStr Hmask (firstn k fmt) 0) as Hlen.
  fold patChar in Hlen.
  set (front := List.concat (Pattern.fillSlots patChar (mask props) numStr 0
                               (firstn k fmt))) in *.
  destruct (Nat.le_gt_cases k (List.length fmt)) as [Hk|Hk].
  - rewrite length_firstn, Nat.min_l in Hlen by exact Hk.
    split.
    + rewrite firstn_app, Hlen, Nat.sub_diag. cbn [firstn].
      rewrite app_nil_r. apply firstn_all2. lia.
    + rewrite skipn_app, Hlen, Nat.sub_diag. cbn [skipn].
      rewrite skipn_all2 by lia. reflexivity.
  - rewrite length_firstn, Nat.min_r in Hlen by lia.
    rewrite (skipn_all2 fmt) by lia. cbn [Pattern.fillSlots List.concat].
    rewrite app_nil_r. split.
    + apply firstn_all2. lia.
    + apply skipn_all2. lia.
Qed.

(** The digits [removeFormatChar] finds in a formatted piece of the format
    that starts at index [i]. *)
Lemma removeFormatChar_formatted (rest : str) (i h : nat) :
  firstn (List.length rest) (skipn i (pformat props)) = rest ->
  Pattern.removeFormatChar props
    (List.concat (Pattern.fillSlots patChar (mask props) numStr h rest))
    (Z.of_nat i)
  = firstn (slotCount patChar rest) (skipn h numStr).
Proof.
  unfold slotCount. revert i h; induction rest as [|c rest IH]; intros i h Hseg;
    [reflexivity|].
  cbn [List.length] in Hseg.
  destruct (skipn i (pformat props)) as [|c' tail] eqn:Eskip; [discriminate Hseg|].
  cbn [firstn] in Hseg. injection Hseg as -> Hrest.
  assert (Hnth : nth_error (pformat props) i = Some c).
  { rewrite <- (firstn_skipn i (pformat props)), Eskip.
    assert (Hlen : (i <= List.length (pformat props))%nat).
    { destruct (Nat.le_gt_cases i (List.length (pformat props))) as [Hle|Hgt];
        [exact Hle|].
      rewrite skipn_all2 in Eskip by lia. discriminate Eskip. }
    rewrite nth_error_app2 by (rewrite length_firstn; lia).
    rewrite length_firstn, Nat.min_l by exact Hlen. now rewrite Nat.sub_diag. }
  assert (Hnext : firstn (List.length rest) (skipn (S i) (pformat props)) = rest).
  { replace (S i) with (1 + i)%nat by lia. rewrite <- skipn_skipn, Eskip.
    exact Hrest. }
  assert (Hslot : Pattern.isNumericSlot props (Z.of_nat i) = str_eqb [c] patChar)
    by (unfold Pattern.isNumericSlot; now apply charAt_is_nth).
  assert (Hstep : Z.of_nat i + 1 = Z.of_nat (S i)) by lia.
  cbn [Pattern.fillSlots filter].
  destruct (str_eqb [c] patChar) eqn:Ec; cbn [List.concat List.length].
  - destruct (nth_error numStr h) as [x|] eqn:Ex.
    + cbn [app Pattern.removeFormatChar].
      rewrite Hslot, Hstep, (IH (S i) (S h) Hnext).
      rewrite charIsNumber_char, (nth_error_digit numStr Hnum _ _ Ex).
      cbn [andb]. now rewrite (skipn_nth_error _ _ _ Ex).
    + destruct (Hmask h) as [m [-> Hm]].
      cbn [app Pattern.removeFormatChar].
      rewrite Hslot, Hstep, (IH (S i) (S h) Hnext).
      rewrite charIsNumber_char, Hm. cbn [andb].
      rewrite (skipn_nth_error_none _ _ Ex).
      rewrite skipn_all2 by (apply nth_error_None in Ex; lia).
      now rewrite !firstn_nil.
  - cbn [app Pattern.removeFormatChar]. rewrite Hslot, Hstep. cbn [andb].
    now apply IH.
Qed.

End PatternEdit.

Lemma substring_between (s : str) (a b : nat) :
  (a <= b)%nat -> (b <= List.length s)%nat ->
  substring s (Z.of_nat a) (Z.of_nat b) = firstn (b - a) (skipn a s).
Proof.
  intros Hab Hb. unfold substring.
  rewrite !clamp_inside by lia.
  now rewrite Nat.min_l, Nat.max_r by lia.
Qed.

Lemma substring_middle (u v w : str) :
  substring (u ++ v ++ w) (len u) (len u + len v) = v.
Proof.
  unfold len. rewrite <- Nat2Z.inj_add.
  rewrite substring_between by (rewrite ?length_app; lia).
  replace (List.length u + List.length v - List.length u)%nat
    with (List.length v) by lia.
  rewrite skipn_app, skipn_all, Nat.sub_diag. cbn [skipn app].
  rewrite firstn_app, firstn_all, Nat.sub_diag. cbn [firstn]. apply app_nil_r.
Qed.

Lemma existsb_firstn_false {A} (f : A -> bool) (l : list A) (k : nat) :
  existsb f l = false -> existsb f (firstn k l) = false.
Proof.
  intros Hl. rewrite <- (firstn_skipn k l), existsb_app in Hl.
  now apply orb_false_iff in Hl as [H _].
Qed.

Lemma existsb_skipn_false {A} (f : A -> bool) (l : list A) (k : nat) :
  existsb f l = false -> existsb f (skipn k l) = false.
Proof.
  intros Hl. rewrite <- (firstn_skipn k l), existsb_app in Hl.
  now apply orb_false_iff in Hl as [_ H].
Qed.

(** X16. An edit inside a formatted pattern value changes, in the number,
    exactly the digits whose slots lie in the changed range.  Let the last
    value be [format(numStr)] for a [numStr] of digits (mask placeholders
    being single characters that are not digits), and let the characters
    from index [k] to [k'] of it be replaced by some text, not the whole of
    the value at once.  Then [removeFormatting] returns the digits of
    [numStr] shown before index [k], the digits of the text, and the digits
    of [numStr] shown from index [k'] on. *)
Theorem pattern_edit_replaces_the_digits_in_range `{U : Utils} (L : UtilsLaws U)
    (props : PatternFormatProps) (numStr inserted : str) (k k' : nat) :
  allDigits numStr = true ->
  (forall index, exists c,
     getMaskAtIndex (mask props) index = [c] /\ isDigit c = false) ->
  numStr <> lit "" \/ allowEmptyFormatting props = Some true ->
  (k <= k')%nat ->
  (k' <= List.length (pformat props))%nat ->
  (0 < k \/ k' < List.length (pformat props))%nat ->
  let patChar := Pattern.patternCharOf props in
  let fmt := pformat props in
  let last := Pattern.format numStr props in
  let value := firstn k last ++ inserted ++ skipn k' last in
  let changeMeta :=
    mkChangeMeta (mkRange (Z.of_nat k) (Z.of_nat k'))
      (mkRange (Z.of_nat k) (Z.of_nat k + len inserted)) last in
  Pattern.removeFormatting value changeMeta props
  = firstn (slotCount patChar (firstn k fmt)) numStr
    ++ filter isDigit inserted
    ++ firstn (slotCount patChar (skipn k' fmt))
         (skipn (slotCount patChar (firstn k' fmt)) numStr).
Proof.
  intros Hnum Hmask Hfill Hk Hk' Hpart. cbv zeta.
  assert (Hfmt : Pattern.format numStr props
                 = List.concat (Pattern.fillSlots (Pattern.patternCharOf props)
                                  (mask props) numStr O (pformat props))).
  { unfold Pattern.format. destruct Hfill as [Hne | Hallow].
    - apply str_eqb_false in Hne. change (lit "") with (@nil ascii) in Hne.
      now rewrite Hne.
    - rewrite Hallow. cbn [truthy negb]. now rewrite andb_false_r. }
  rewrite Hfmt.
  set (last := List.concat _).
  assert (Hlen : List.length last = List.length (pformat props))
    by apply (fillSlots_concat_length props numStr Hmask).
  destruct (formatted_split props numStr Hmask (pformat props) k) as [Hfront _].
  destruct (formatted_split props numStr Hmask (pformat props) k') as [_ Hback].
  cbv zeta in Hfront, Hback. fold last in Hfront, Hback.
  unfold Pattern.removeFormatting. cbn [lastValue from to r_start r_end].
  destruct (existsb isDigit (pformat props)) eqn:Edigit; cbn [negb].
  - replace (str_eqb last [] || (Z.of_nat k' - Z.of_nat k =? len last)) with false.
    2:{ symmetry. apply orb_false_iff. split.
        - apply str_eqb_false. intros Hnil. rewrite Hnil in Hlen. cbn in Hlen. lia.
        - apply Z.eqb_neq. unfold len. lia. }
    cbn [andb].
    replace 0 with (Z.of_nat 0) by reflexivity.
    rewrite (substring_between last 0 k) by lia.
    rewrite Nat.sub_0_r. cbn [skipn].
    replace (Z.of_nat k) with (len (firstn k last))
      by (unfold len; rewrite length_firstn; lia).
    rewrite substring_middle.
    unfold substringFrom. rewrite clamp_inside by lia.
    rewrite Hfront, Hback.
    change 0 with (Z.of_nat 0).
    rewrite (removeFormatChar_formatted L props numStr Hnum Hmask
               (firstn k (pformat props)) 0 0)
      by (cbn [skipn]; rewrite length_firstn, Nat.min_l by lia; reflexivity).
    rewrite (removeFormatChar_formatted L props numStr Hnum Hmask
               (skipn k' (pformat props)) k'
               (slotCount (Pattern.patternCharOf props) (firstn k' (pformat props))))
      by apply firstn_all.
    reflexivity.
  - unfold Pattern.extractNumbers. rewrite !filter_app, Hfront, Hback.
    rewrite (fillSlots_digits props numStr Hnum Hmask (firstn k (pformat props)) 0)
      by (now apply existsb_firstn_false).
    rewrite (fillSlots_digits props numStr Hnum Hmask (skipn k' (pformat props)))
      by (now apply existsb_skipn_false).
    reflexivity.
Qed.

(** The first digit of the area code of [+1 (415) 555 2671] is replaced by
    [7]. *)
Lemma pattern_edit_replaces_the_digits_in_range_witness :
  @Pattern.removeFormatting utilsModel (lit "+1 (715) 555 2671")
    (mkChangeMeta (mkRange 4 5) (mkRange 4 5) (lit "+1 (415) 555 2671"))
    phonePattern
  = lit "7155552671".
Proof.
  refine (@pattern_edit_replaces_the_digits_in_range utilsModel utilsModel_laws
            phonePattern (lit "4155552671") (lit "7") 4 5 eq_refl _ _ _ _ _).
  - intros index. exists " "%char. split; reflexivity.
  - left. discriminate.
  - lia.
  - cbn. lia.
  - left. lia.
Defined.

(** ** Numeric format: a dash typed into the number *)

Section TypedDash.

(** No line terminator in a text. *)
Definition oneLine (s : str) : bool := forallb (fun c => negb (isLineTerminator c)) s.

Lemma doubleNegation_second_dash (a b : str) :
  noDash a = true -> oneLine a = true ->
  Numeric.doubleNegation true (a ++ dash :: b) = true.
Proof.
  induction a as [|c a IH]; intros Ha Hl.
  - cbn [app Numeric.doubleNegation]. now rewrite ascii_eqb_refl.
  - cbn [noDash forallb] in Ha. apply andb_true_iff in Ha as [Hc Ha].
    cbn [oneLine forallb] in Hl. apply andb_true_iff in Hl as [Hcl Hl].
    apply negb_true_iff in Hc, Hcl.
    cbn [app Numeric.doubleNegation]. rewrite Hc, Hcl. now apply IH.
Qed.

Lemma doubleNegation_one_dash (a b : str) :
  noDash a = true -> noDash b = true ->
  Numeric.doubleNegation false (a ++ dash :: b) = false.
Proof.
  intros Ha Hb. induction a as [|c a IH].
  - cbn [app Numeric.doubleNegation]. rewrite ascii_eqb_refl.
    now apply doubleNegation_noDash.
  - cbn [noDash forallb] in Ha. apply andb_true_iff in Ha as [Hc Ha].
    apply negb_true_iff in Hc.
    cbn [app Numeric.doubleNegation]. rewrite Hc.
    destruct (isLineTerminator c); now apply IH.
Qed.

Lemma filter_notDash_typed (a b : str) :
  noDash a = true -> noDash b = true ->
  filter (fun c => negb (ascii_eqb c dash)) (a ++ dash :: b) = a ++ b.
Proof.
  intros Ha Hb. rewrite filter_app. cbn [filter]. rewrite ascii_eqb_refl.
  cbn [negb]. now rewrite !filter_noDash.
Qed.

Lemma existsb_dash_typed (a b : str) :
  existsb (fun c => ascii_eqb c dash) (a ++ dash :: b) = true.
Proof.
  rewrite existsb_app. cbn [existsb]. rewrite ascii_eqb_refl.
  now rewrite orb_true_r.
Qed.

(** A dash typed into a signed text turns the sign over. *)
Lemma handleNegation_typed_dash (negative : bool) (a b : str)
    (allowNeg : option bool) :
  noDash a = true -> noDash b = true -> oneLine a = true ->
  Numeric.handleNegation
    (if negative then dash :: a ++ dash :: b else a ++ dash :: b) allowNeg
  = signText (negb negative && truthy allowNeg) ++ a ++ b.
Proof.
  intros Ha Hb Hl. unfold Numeric.handleNegation. cbv zeta.
  destruct negative.
  - cbn [existsb Numeric.doubleNegation filter]. rewrite ascii_eqb_refl.
    cbn [orb negb]. rewrite (doubleNegation_second_dash a b Ha Hl).
    cbn [negb andb signText app]. now apply filter_notDash_typed.
  - rewrite existsb_dash_typed, (doubleNegation_one_dash a b Ha Hb).
    rewrite (filter_notDash_typed a b Ha Hb). cbn [negb andb].
    now destruct (truthy allowNeg).
Qed.

End TypedDash.

(** X17. A dash typed into the number turns its sign over, when the
    decimal separator is one character that is not the dash.  Let the value
    be an optional sign, the prefix, a text [a], the typed dash (the
    change-meta's [to] range holds just it), a text [b] and the suffix,
    where [a] and [b] hold no dash, [a] holds no line break, the prefix does
    not start with a dash and the dash is not typed at the very start of the
    value, the dash is not an allowed decimal separator, and the edit is
    neither reset to the last value nor cleared.  Then [removeFormatting]
    returns the number of [a] and [b] together, negative exactly when the
    value was not negative before and negative numbers are allowed. *)
Theorem typed_dash_turns_the_sign_over `{Utils} (props : NumericFormatProps)
    (changeMeta : ChangeMeta) (negative : bool) (a b : str) (d : ascii) :
  let pre := orDefault (prefix props) [] in
  let suf := orDefault (suffix props) [] in
  let value := signText negative ++ pre ++ a ++ [dash] ++ b ++ suf in
  let typedAt := len (signText negative ++ pre ++ a) in
  to changeMeta = mkRange typedAt (typedAt + 1) ->
  JS.mem (lit "-") (Numeric.sepAllowed (Numeric.getSeparators props)) = false ->
  Numeric.sepDecimal (Numeric.getSeparators props) = [d] ->
  d <> dash ->
  noDash a = true ->
  noDash b = true ->
  oneLine a = true ->
  startsWith pre (lit "-") = false ->
  pre ++ a <> [] ->
  Numeric.resetsToLastValue value changeMeta props = false ->
  Numeric.clearsValue value changeMeta props = false ->
  Numeric.removeFormatting value changeMeta props
  = signText (negb negative && truthy (allowNegative props))
    ++ collapseFirst d (filter (keeps d) (a ++ b)).
Proof.
  cbv zeta.
  set (pre := orDefault (prefix props) []).
  set (suf := orDefault (suffix props) []).
  intros Hto Hallowed Hsep Hdash Ha Hb Hline Hpre Hfront Hreset Hclear.
  (* the dash is not taken for a decimal separator *)
  assert (Htyped : Numeric.replaceTypedSeparator
                     (signText negative ++ pre ++ a ++ [dash] ++ b ++ suf)
                     changeMeta props
                   = signText negative ++ pre ++ (a ++ dash :: b) ++ suf).
  { unfold Numeric.replaceTypedSeparator. rewrite Hto. cbn [r_start r_end].
    replace (signText negative ++ pre ++ a ++ [dash] ++ b ++ suf)
      with ((signText negative ++ pre ++ a) ++ dash :: (b ++ suf))
      by (now rewrite <- !app_assoc).
    unfold charAt_mem. rewrite charAt_app_middle.
    change [dash] with (lit "-"). rewrite Hallowed, andb_false_r.
    now rewrite <- !app_assoc. }
  assert (Hvalue : signText negative ++ pre ++ a ++ [dash] ++ b ++ suf
                   = signText negative ++ pre ++ (a ++ dash :: b) ++ suf)
    by (now rewrite <- !app_assoc).
  assert (Hhead : startsWith (pre ++ (a ++ dash :: b) ++ suf) (lit "-") = false).
  { change (lit "-") with [dash] in *.
    destruct pre as [|c p] eqn:Epre.
    - cbn [app] in *. destruct a as [|x a']; [contradiction|].
      cbn [noDash forallb] in Ha. apply andb_true_iff in Ha as [Hx _].
      apply negb_true_iff in Hx. cbn [app]. now rewrite startsWith_single.
    - cbn [app]. now rewrite startsWith_single in *. }
  rewrite Hvalue in Hreset.
  pose proof (stripDecorations_framed_text _ changeMeta props negative
                (a ++ dash :: b) Htyped Hreset (or_intror Hhead)) as Hstrip.
  rewrite (handleNegation_typed_dash negative a b _ Ha Hb Hline) in Hstrip.
  (* the value is longer than the prefix and than the suffix *)
  assert (Hret : Numeric.returnsUnchanged
                   (signText negative ++ pre ++ a ++ [dash] ++ b ++ suf)
                   changeMeta props
                 = false).
  { unfold Numeric.returnsUnchanged. fold pre suf.
    rewrite (str_eqb_longer _ pre), (str_eqb_longer _ suf)
      by (rewrite !length_app; simpl; lia).
    cbn [orb]. now rewrite andb_false_r. }
  unfold Numeric.removeFormatting. rewrite Hret, Hclear.
  unfold Numeric.numericText. rewrite Hsep, Hstrip.
  rewrite collapseSeparators_single.
  rewrite keepNumeric_signed by (try exact Hdash; now rewrite noDash_app, Ha, Hb).
  destruct (negb negative && truthy (allowNegative props)); cbn [signText app].
  - now apply collapseFirst_dash.
  - reflexivity.
Qed.

(** A dash typed between the digits of [$1,234]. *)
Lemma typed_dash_turns_the_sign_over_witness :
  @Numeric.removeFormatting utilsModel (lit "$1,2-34")
    (mkChangeMeta (mkRange 4 4) (mkRange 4 5) (lit "$1,234")) groupedDollars
  = lit "-1234".
Proof.
  refine (@typed_dash_turns_the_sign_over utilsModel groupedDollars
            (mkChangeMeta (mkRange 4 4) (mkRange 4 5) (lit "$1,234"))
            false (lit "1,2") (lit "34") "."%char
            eq_refl eq_refl eq_refl _ eq_refl eq_refl eq_refl eq_refl _ eq_refl eq_refl);
    discriminate.
Defined.

(** ** Numeric format: an edit of the prefix or the suffix *)

(** X18. An edit that only touches the prefix or the suffix leaves the
    number as it was, when the decimal separator is one character that is
    not the dash and the value is neither returned at once nor cleared.
    When [removeFormatting] resets the value to the last value (the changed
    range of the last value lies in its suffix or ends inside its prefix,
    and what was typed is not the start of the suffix), and the last value
    is an optional sign, the prefix, a text without dash and the suffix,
    the result is the number of that text; only its sign is taken from the
    new value: it is negative when the new value starts with a dash that is
    a sign and negative numbers are allowed. *)
Theorem edit_of_prefix_or_suffix_keeps_the_number `{Utils}
    (props : NumericFormatProps) (value : str) (changeMeta : ChangeMeta)
    (negativeBefore : bool) (body : str) (d : ascii) :
  let pre := orDefault (prefix props) [] in
  let suf := orDefault (suffix props) [] in
  let typed := Numeric.replaceTypedSeparator value changeMeta props in
  let negative :=
    Numeric.nHasNegation
      (Numeric.stripNegation pre suf typed
         (r_start (to changeMeta)) (r_end (to changeMeta))) in
  lastValue changeMeta = signText negativeBefore ++ pre ++ body ++ suf ->
  Numeric.resetsToLastValue typed changeMeta props = true ->
  (negativeBefore = false /\ startsWith pre (lit "-") = true)
  \/ startsWith (pre ++ body ++ suf) (lit "-") = false ->
  noDash body = true ->
  Numeric.sepDecimal (Numeric.getSeparators props) = [d] ->
  d <> dash ->
  Numeric.returnsUnchanged value changeMeta props = false ->
  Numeric.clearsValue value changeMeta props = false ->
  Numeric.removeFormatting value changeMeta props
  = signText (negative && truthy (allowNegative props))
    ++ collapseFirst d (filter (keeps d) body).
Proof.
  cbv zeta. intros Hlast Hreset Hhead Hbody Hsep Hdash Hret Hclear.
  assert (Hpre : negativeBefore = true ->
                 startsWith (orDefault (prefix props) []) (lit "-") = false).
  { intros ->. destruct Hhead as [[Hn _]|Htext]; [discriminate|].
    exact (startsWith_app_head _ _ Htext). }
  assert (Hlen : len (orDefault (suffix props) [])
                 <= len (orDefault (prefix props) [] ++ body
                         ++ orDefault (suffix props) [])).
  { rewrite !len_app. pose proof (len_nonneg (orDefault (prefix props) [])).
    pose proof (len_nonneg body). lia. }
  assert (Hstrip : Numeric.sText (Numeric.stripDecorations value changeMeta props)
                   = signText
                       (Numeric.nHasNegation
                          (Numeric.stripNegation (orDefault (prefix props) [])
                             (orDefault (suffix props) [])
                             (Numeric.replaceTypedSeparator value changeMeta props)
                             (r_start (to changeMeta)) (r_end (to changeMeta)))
                        && truthy (allowNegative props))
                     ++ body).
  { unfold Numeric.stripDecorations. cbv zeta. rewrite Hreset, Hlast.
    rewrite (stripNegation_signed _ _ _ _ _ _ Hhead Hpre Hlen).
    cbn [Numeric.nValue Numeric.sText].
    rewrite startsWith_app, substringFrom_app, endsWith_app.
    replace (len (body ++ orDefault (suffix props) [])
             - len (orDefault (suffix props) []))
      with (len body) by (rewrite len_app; lia).
    rewrite substring_prefix.
    now rewrite handleNegation_signed by exact Hbody. }
  unfold Numeric.removeFormatting. rewrite Hret, Hclear.
  unfold Numeric.numericText. rewrite Hsep, Hstrip.
  rewrite collapseSeparators_single.
  rewrite keepNumeric_signed by assumption.
  match goal with
  | |- collapseFirst d (signText ?s ++ _) = _ => destruct s
  end; cbn [signText app]; [now apply collapseFirst_dash | reflexivity].
Qed.

(** Dollars with a suffix. *)
Definition dollarsUSD : NumericFormatProps :=
  mkNumericProps (Some (TSBool true)) None None None None None (Some true)
    (Some (lit " USD")) (Some (lit "$")).

(** A letter typed into the suffix of [$1,234 USD]: the number stays. *)
Lemma edit_of_prefix_or_suffix_keeps_the_number_witness :
  @Numeric.removeFormatting utilsModel (lit "$1,234 UxSD")
    (mkChangeMeta (mkRange 8 8) (mkRange 8 9) (lit "$1,234 USD")) dollarsUSD
  = lit "1234".
Proof.
  refine (@edit_of_prefix_or_suffix_keeps_the_number utilsModel dollarsUSD
            (lit "$1,234 UxSD")
            (mkChangeMeta (mkRange 8 8) (mkRange 8 9) (lit "$1,234 USD"))
            false (lit "1,234") "."%char
            eq_refl eq_refl _ eq_refl eq_refl _ eq_refl eq_refl).
  - right. reflexivity.
  - discriminate.
Defined.

(** ** Pattern format: what the field shows is stable *)

Lemma fillSlots_firstn `{Utils} (patChar : str) (msk : option Mask) (numStr : str)
    (s h : nat) (fmt : str) :
  (h + slotCount patChar fmt <= s)%nat ->
  Pattern.fillSlots patChar msk (firstn s numStr) h fmt
  = Pattern.fillSlots patChar msk numStr h fmt.
Proof.
  unfold slotCount. revert h; induction fmt as [|c fmt IH]; intros h Hs;
    [reflexivity|].
  cbn [Pattern.fillSlots]. cbn [filter] in Hs.
  destruct (str_eqb [c] patChar); cbn [List.length] in Hs.
  - rewrite IH by lia. f_equal.
    rewrite nth_error_firstn.
    destruct (Nat.ltb_spec h s); [reflexivity | lia].
  - now rewrite IH.
Qed.

(** X19. What a pattern field shows is stable: for a [numStr] of digits and
    mask placeholders that are single characters and not digits, formatting
    the value that [removeFormatting] reads back from [format(numStr)] gives
    [format(numStr)] again, provided the format has a pattern character (or
    [numStr] is empty, or empty formatting is allowed).  The digits beyond
    the slots of the format, which the first formatting dropped, play no
    part. *)
Theorem pattern_format_is_stable `{U : Utils} (L : UtilsLaws U)
    (props : PatternFormatProps) (numStr : str) :
  allDigits numStr = true ->
  (forall index, exists c,
     getMaskAtIndex (mask props) index = [c] /\ isDigit c = false) ->
  (0 < slotCount (Pattern.patternCharOf props) (pformat props))%nat
  \/ numStr = lit ""
  \/ allowEmptyFormatting props = Some true ->
  let formatted := Pattern.format numStr props in
  let readBack :=
    Pattern.removeFormatting formatted (getDefaultChangeMeta formatted) props in
  Pattern.format readBack props = formatted.
Proof.
  intros Hnum Hmask Hslots. cbv zeta.
  pose proof (pattern_read_back L props numStr Hnum Hmask) as Hback.
  rewrite Hback. unfold Pattern.format.
  rewrite fillSlots_firstn by lia.
  destruct numStr as [|x rest] eqn:En.
  - now rewrite firstn_nil.
  - destruct Hslots as [Hpos | [Hnil | Hallow]].
    + destruct (slotCount _ _) as [|s]; [lia|]. reflexivity.
    + discriminate Hnil.
    + rewrite Hallow. cbn [truthy negb]. now rewrite !andb_false_r.
Qed.

(** Twelve digits in the ten slots of the phone number. *)
Lemma pattern_format_is_stable_witness :
  @Pattern.format utilsModel (lit "415555267199") phonePattern
  = lit "+1 (415) 555 2671"
  /\ @Pattern.format utilsModel
       (@Pattern.removeFormatting utilsModel (lit "+1 (415) 555 2671")
          (@getDefaultChangeMeta utilsModel (lit "+1 (415) 555 2671")) phonePattern)
       phonePattern
     = lit "+1 (415) 555 2671".
Proof.
  split; [reflexivity|].
  refine (@pattern_format_is_stable utilsModel utilsModel_laws phonePattern
            (lit "415555267199") eq_refl _ _).
  - intros index. exists " "%char. split; reflexivity.
  - left. cbn. lia.
Defined.

(** ** Pattern format: where the caret may stand in a formatted value *)

(** Index [i] of the format holds the pattern character. *)
Definition isSlot (patChar fmt : str) (i : nat) : bool :=
  match nth_error fmt i with
  | Some c => str_eqb [c] patChar
  | None => false
  end.

(** The slot at index [i] shows a digit of [numStr]; it is the first slot
    that shows its mask. *)
Definition filledSlot (patChar fmt numStr : str) (i : nat) : bool :=
  isSlot patChar fmt i && (slotsBefore patChar fmt i <? List.length numStr)%nat.

Definition firstEmptyAt (patChar fmt numStr : str) (i : nat) : bool :=
  isSlot patChar fmt i && (slotsBefore patChar fmt i =? List.length numStr)%nat.

Section SlotCounting.

Variables patChar fmt : str.

Lemma slotsBefore_S (i : nat) :
  slotsBefore patChar fmt (S i)
  = (slotsBefore patChar fmt i + if isSlot patChar fmt i then 1 else 0)%nat.
Proof.
  unfold isSlot. revert i; induction fmt as [|c rest IH]; intros i.
  - destruct i; reflexivity.
  - destruct i as [|i].
    + cbn [slotsBefore nth_error].
      destruct rest; cbn [slotsBefore]; destruct (str_eqb [c] patChar); lia.
    + change (slotsBefore patChar (c :: rest) (S (S i)))
        with ((if str_eqb [c] patChar then 1 else 0)
              + slotsBefore patChar rest (S i))%nat.
      rewrite IH. cbn [slotsBefore nth_error]. lia.
Qed.

Lemma slotsBefore_mono (i j : nat) :
  (i <= j)%nat -> (slotsBefore patChar fmt i <= slotsBefore patChar fmt j)%nat.
Proof.
  induction 1 as [|j Hij IH]; [lia|]. rewrite slotsBefore_S. lia.
Qed.

Lemma slotsBefore_slot_lt (i j : nat) :
  (i < j)%nat -> isSlot patChar fmt i = true ->
  (slotsBefore patChar fmt i < slotsBefore patChar fmt j)%nat.
Proof.
  intros Hij Hslot.
  pose proof (slotsBefore_mono (S i) j Hij) as Hmono.
  rewrite slotsBefore_S, Hslot in Hmono. lia.
Qed.

(** Below a slot count that is exceeded there is a slot with each smaller
    number. *)
Lemma slot_with_number (r s : nat) :
  (s < slotsBefore patChar fmt r)%nat ->
  exists j, (j < r)%nat /\ isSlot patChar fmt j = true
            /\ slotsBefore patChar fmt j = s.
Proof.
  induction r as [|r IH]; intros Hs.
  - destruct fmt; cbn in Hs; lia.
  - rewrite slotsBefore_S in Hs.
    destruct (Nat.lt_ge_cases s (slotsBefore patChar fmt r)) as [Hlt|Hge].
    + destruct (IH Hlt) as [j [Hj Hrest]]. exists j. split; [lia | exact Hrest].
    + destruct (isSlot patChar fmt r) eqn:Er; [|lia].
      exists r. split; [lia|]. split; [exact Er | lia].
Qed.

End SlotCounting.

Section PatternCaret.

Context `{U : Utils}.

Variable props : PatternFormatProps.
Variable numStr : str.

Hypothesis Hnum : allDigits numStr = true.
Hypothesis Hmask :
  forall index, exists c,
    getMaskAtIndex (mask props) index = [c] /\ isDigit c = false.

Let patChar := Pattern.patternCharOf props.
Let fmt := pformat props.
Let formatted :=
  List.concat (Pattern.fillSlots patChar (mask props) numStr 0 fmt).
Let masks := Pattern.maskAndIndexMap patChar (mask props) 0 fmt.

Lemma maskAndIndexMap_nth (rest : str) (h i : nat) :
  nth_error (Pattern.maskAndIndexMap patChar (mask props) h rest) i
  = match nth_error rest i with
    | Some c =>
        Some (if str_eqb [c] patChar
              then Some (getMaskAtIndex (mask props) (h + slotsBefore patChar rest i))
              else None)
    | None => None
    end.
Proof.
  revert h i; induction rest as [|c rest IH]; intros h i.
  - destruct i; reflexivity.
  - destruct i as [|i].
    + cbn [Pattern.maskAndIndexMap nth_error].
      replace (slotsBefore patChar (c :: rest) 0) with O by reflexivity.
      rewrite Nat.add_0_r. now destruct (str_eqb [c] patChar).
    + cbn [Pattern.maskAndIndexMap nth_error slotsBefore].
      destruct (str_eqb [c] patChar); cbn [nth_error]; rewrite IH;
        destruct (nth_error rest i); try reflexivity;
        now rewrite ?Nat.add_succ_l, ?Nat.add_succ_r, ?Nat.add_0_l.
Qed.

Lemma mask_length (index : nat) :
  List.length (getMaskAtIndex (mask props) index) = 1%nat.
Proof. destruct (Hmask index) as [c [-> _]]. reflexivity. Qed.

(** The character a formatted value shows at an index of the format. *)
Lemma formatted_nth (i : nat) (c : ascii) :
  nth_error fmt i = Some c ->
  nth_error formatted i
  = if str_eqb [c] patChar
    then match nth_error numStr (slotsBefore patChar fmt i) with
         | Some digit => Some digit
         | None => nth_error (getMaskAtIndex (mask props) (slotsBefore patChar fmt i)) 0
         end
    else Some c.
Proof.
  intros Hc. subst formatted.
  rewrite concat_singletons_nth by (apply fillSlots_singletons; exact mask_length).
  rewrite (fillSlots_nth patChar (mask props) numStr 0 fmt i c Hc).
  cbn [Nat.add].
  destruct (str_eqb [c] patChar); [|reflexivity].
  now destruct (nth_error numStr (slotsBefore patChar fmt i)).
Qed.

Lemma formatted_length : List.length formatted = List.length fmt.
Proof.
  subst formatted.
  rewrite concat_singletons_length
    by (apply fillSlots_singletons; exact mask_length).
  apply fillSlots_length.
Qed.

Lemma charAt_nat (s : str) (i : nat) : charAt s (Z.of_nat i) = nth_error s i.
Proof.
  unfold charAt. destruct (Z.ltb_spec (Z.of_nat i) 0); [lia|].
  now rewrite Nat2Z.id.
Qed.

(** At a slot, the value shows the mask exactly when the digits are used
    up. *)
Lemma slot_shows_mask (i : nat) :
  isSlot patChar fmt i = true ->
  charAt_is formatted (Z.of_nat i)
    (getMaskAtIndex (mask props) (slotsBefore patChar fmt i))
  = (List.length numStr <=? slotsBefore patChar fmt i)%nat.
Proof.
  unfold isSlot. intros Hslot.
  destruct (nth_error fmt i) as [c|] eqn:Ec; [|discriminate].
  unfold charAt_is. rewrite charAt_nat, (formatted_nth i c Ec), Hslot.
  destruct (Hmask (slotsBefore patChar fmt i)) as [m [Hm Hnd]]. rewrite Hm.
  destruct (nth_error numStr (slotsBefore patChar fmt i)) as [digit|] eqn:Ed.
  - assert (Hlt : (slotsBefore patChar fmt i < List.length numStr)%nat)
      by (apply nth_error_Some; congruence).
    assert (Hdigit : isDigit digit = true).
    { apply nth_error_In in Ed. unfold allDigits in Hnum.
      rewrite forallb_forall in Hnum. now apply Hnum. }
    replace (ascii_eqb digit m) with false
      by (symmetry; apply ascii_eqb_false; intros ->; congruence).
    symmetry. apply Nat.leb_gt. exact Hlt.
  - cbn [nth_error]. rewrite ascii_eqb_refl.
    symmetry. apply Nat.leb_le. now apply nth_error_None.
Qed.

Lemma isPosAllowed_filled (i : nat) :
  Pattern.isPosAllowed props formatted masks (Z.of_nat i)
  = filledSlot patChar fmt numStr i.
Proof.
  unfold Pattern.isPosAllowed, filledSlot.
  fold patChar fmt.
  destruct (nth_error fmt i) as [c|] eqn:Ec.
  - rewrite (charAt_is_nth fmt patChar i c Ec).
    unfold isSlot at 1. rewrite Ec.
    destruct (str_eqb [c] patChar) eqn:Eslot; [|reflexivity]. cbn [andb].
    destruct (Z.ltb_spec (Z.of_nat i) 0); [lia|]. rewrite Nat2Z.id.
    subst masks. rewrite maskAndIndexMap_nth, Ec, Eslot. cbn [Nat.add].
    rewrite slot_shows_mask by (unfold isSlot; now rewrite Ec).
    destruct (Nat.leb_spec (List.length numStr) (slotsBefore patChar fmt i));
      destruct (Nat.ltb_spec (slotsBefore patChar fmt i) (List.length numStr));
      try reflexivity; lia.
  - unfold isSlot. rewrite Ec. unfold charAt_is. now rewrite charAt_nat, Ec.
Qed.

Lemma isPosAllowed_before_start :
  Pattern.isPosAllowed props formatted masks (-1) = false.
Proof. reflexivity. Qed.

(** The slot at index [j] shows its mask. *)
Let emptyAt := fun j : nat =>
  isSlot patChar fmt j && (List.length numStr <=? slotsBefore patChar fmt j)%nat.

Lemma maskAndIndexMap_length (rest : str) (h : nat) :
  List.length (Pattern.maskAndIndexMap patChar (mask props) h rest)
  = List.length rest.
Proof.
  revert h; induction rest as [|c rest IH]; intros h; [reflexivity|].
  cbn [Pattern.maskAndIndexMap].
  destruct (str_eqb [c] patChar); cbn [List.length]; now rewrite IH.
Qed.

Lemma firstEmptySlot_spec (restMasks : list (option str)) (k : nat) :
  skipn k masks = restMasks ->
  let r := Pattern.firstEmptySlot formatted (Z.of_nat k) restMasks in
  (r = -1 /\ forall j, (k <= j)%nat -> emptyAt j = false)
  \/ (exists n, r = Z.of_nat n /\ (k <= n)%nat /\ emptyAt n = true
                /\ forall j, (k <= j)%nat -> (j < n)%nat -> emptyAt j = false).
Proof.
  cbv zeta. revert k; induction restMasks as [|m rest IH]; intros k Hskip.
  - left. split; [reflexivity|]. intros j Hj.
    assert (Hlen : (List.length fmt <= k)%nat).
    { destruct (Nat.le_gt_cases (List.length fmt) k) as [Hle|Hgt]; [exact Hle|].
      assert (Hn : List.length (skipn k masks) = (List.length fmt - k)%nat)
        by (rewrite length_skipn; subst masks; now rewrite maskAndIndexMap_length).
      rewrite Hskip in Hn. cbn in Hn. lia. }
    subst emptyAt. cbv beta. unfold isSlot.
    replace (nth_error fmt j) with (@None ascii)
      by (symmetry; apply nth_error_None; lia).
    reflexivity.
  - assert (Hk : nth_error masks k = Some m).
    { rewrite <- (firstn_skipn k masks), Hskip.
      assert (Hlen : (k <= List.length masks)%nat).
      { destruct (Nat.le_gt_cases k (List.length masks)) as [Hle|Hgt]; [exact Hle|].
        rewrite skipn_all2 in Hskip by lia. discriminate Hskip. }
      rewrite nth_error_app2 by (rewrite length_firstn; lia).
      rewrite length_firstn, Nat.min_l by exact Hlen. now rewrite Nat.sub_diag. }
    assert (Hnext : skipn (S k) masks = rest).
    { replace (S k) with (1 + k)%nat by lia. rewrite <- skipn_skipn, Hskip.
      reflexivity. }
    assert (Hstep : Z.of_nat k + 1 = Z.of_nat (S k)) by lia.
    subst masks. rewrite maskAndIndexMap_nth in Hk. cbn [Nat.add] in Hk.
    destruct (nth_error fmt k) as [c|] eqn:Ec; [|discriminate Hk].
    assert (Hm : m = if str_eqb [c] patChar
                     then Some (getMaskAtIndex (mask props) (slotsBefore patChar fmt k))
                     else None) by congruence.
    clear Hk Hskip.
    assert (Hrec : forall (Hnot : emptyAt k = false),
               (Pattern.firstEmptySlot formatted (Z.of_nat (S k)) rest = -1 /\
                (forall j, (k <= j)%nat -> emptyAt j = false))
               \/ (exists n,
                     Pattern.firstEmptySlot formatted (Z.of_nat (S k)) rest
                     = Z.of_nat n /\ (k <= n)%nat /\ emptyAt n = true
                     /\ forall j, (k <= j)%nat -> (j < n)%nat -> emptyAt j = false)).
    { intros Hnot. destruct (IH (S k) Hnext) as [[Hr Hall]|[n [Hr [Hn [He Hgap]]]]].
      - left. split; [exact Hr|]. intros j Hj.
        destruct (Nat.eq_dec j k) as [->|Hne]; [exact Hnot | apply Hall; lia].
      - right. exists n. split; [exact Hr|]. split; [lia|]. split; [exact He|].
        intros j Hj Hjn.
        destruct (Nat.eq_dec j k) as [->|Hne]; [exact Hnot | apply Hgap; lia]. }
    destruct (str_eqb [c] patChar) eqn:Eslot; subst m;
      cbn [Pattern.firstEmptySlot].
    + assert (Hslot : isSlot patChar fmt k = true)
        by (unfold isSlot; now rewrite Ec).
      rewrite (slot_shows_mask k Hslot), Hstep.
      destruct (List.length numStr <=? slotsBefore patChar fmt k)%nat eqn:Eshow.
      * right. exists k. split; [reflexivity|]. split; [lia|]. split.
        -- subst emptyAt. cbv beta. now rewrite Hslot, Eshow.
        -- intros j; lia.
      * apply Hrec. subst emptyAt. cbv beta. now rewrite Hslot, Eshow.
    + rewrite Hstep. apply Hrec. subst emptyAt. cbv beta. unfold isSlot.
      now rewrite Ec, Eslot.
Qed.

Lemma firstEmptySlot_index (i : nat) :
  (Z.of_nat i =? Pattern.firstEmptySlot formatted 0 masks)
  = firstEmptyAt patChar fmt numStr i.
Proof.
  assert (Hempty : forall j, firstEmptyAt patChar fmt numStr j = true ->
                             emptyAt j = true).
  { intros j Hj. unfold firstEmptyAt in Hj. subst emptyAt. cbv beta.
    apply andb_true_iff in Hj as [Hs Hn]. apply Nat.eqb_eq in Hn.
    rewrite Hs. cbn [andb]. apply Nat.leb_le. lia. }
  destruct (firstEmptySlot_spec masks 0 eq_refl)
    as [[Hr Hall]|[n [Hr [_ [He Hgap]]]]]; change (Z.of_nat 0) with 0 in Hr;
    rewrite Hr.
  - destruct (firstEmptyAt patChar fmt numStr i) eqn:Ei.
    + apply Hempty in Ei. rewrite Hall in Ei by lia. discriminate Ei.
    + apply Z.eqb_neq. lia.
  - assert (Hparts : isSlot patChar fmt n = true
                     /\ (List.length numStr <= slotsBefore patChar fmt n)%nat).
    { subst emptyAt. cbv beta in He. apply andb_true_iff in He as [Hs Hn].
      apply Nat.leb_le in Hn. now split. }
    destruct Hparts as [Hslot Hle].
    assert (Hexact : slotsBefore patChar fmt n = List.length numStr).
    { destruct (Nat.eq_dec (slotsBefore patChar fmt n) (List.length numStr))
        as [Heq|Hne]; [exact Heq|].
      destruct (slot_with_number patChar fmt n (List.length numStr) ltac:(lia))
        as [j [Hj [Hsj Hnj]]].
      assert (Hej : emptyAt j = true).
      { subst emptyAt. cbv beta. rewrite Hsj, Hnj. cbn [andb].
        apply Nat.leb_le. lia. }
      rewrite Hgap in Hej by lia. discriminate Hej. }
    destruct (Nat.eq_dec i n) as [->|Hne].
    + rewrite Z.eqb_refl. unfold firstEmptyAt. rewrite Hslot, Hexact.
      now rewrite Nat.eqb_refl.
    + replace (Z.of_nat i =? Z.of_nat n) with false
        by (symmetry; apply Z.eqb_neq; lia).
      destruct (firstEmptyAt patChar fmt numStr i) eqn:Ei; [|reflexivity].
      pose proof (Hempty i Ei) as Hei.
      unfold firstEmptyAt in Ei. apply andb_true_iff in Ei as [Hsi Hni].
      apply Nat.eqb_eq in Hni.
      destruct (Nat.lt_ge_cases i n) as [Hlt|Hge].
      * rewrite Hgap in Hei by lia. discriminate Hei.
      * pose proof (slotsBefore_slot_lt patChar fmt n i ltac:(lia) Hslot). lia.
Qed.

End PatternCaret.

Lemma boundaryLoop_nth_value (props : PatternFormatProps) (formattedValue : str)
    (masks : list (option str)) (firstEmpty i0 : Z) (n j : nat) :
  (j < n)%nat ->
  nth_error (Pattern.boundaryLoop props formattedValue masks firstEmpty i0 n) j
  = Some (Some ((i0 + Z.of_nat j =? firstEmpty)
                || Pattern.isPosAllowed props formattedValue masks (i0 + Z.of_nat j)
                || Pattern.isPosAllowed props formattedValue masks
                     (i0 + Z.of_nat j - 1))).
Proof.
  revert i0 j; induction n as [|n IH]; intros i0 [|j] Hj; try lia.
  - cbn [Pattern.boundaryLoop nth_error]. now rewrite Z.add_0_r.
  - cbn [Pattern.boundaryLoop nth_error]. rewrite IH by lia.
    now replace (i0 + 1 + Z.of_nat j) with (i0 + Z.of_nat (S j)) by lia.
Qed.

(** X20. Where the caret may stand in a formatted pattern value.  For a
    [numStr] of digits and mask placeholders that are single characters and
    not digits, the caret boundary of [format(numStr)] is open at an index
    exactly when that index holds a digit of [numStr], or comes right after
    one, or is the first slot that shows its mask (or is where the pattern
    character first occurs in the format): the caret can neither stand among
    the literal characters nor go past the first empty slot. *)
Theorem pattern_caret_stands_at_filled_slots `{U : Utils}
    (props : PatternFormatProps) (numStr : str) (i : nat) :
  allDigits numStr = true ->
  (forall index, exists c,
     getMaskAtIndex (mask props) index = [c] /\ isDigit c = false) ->
  numStr <> lit "" \/ allowEmptyFormatting props = Some true ->
  (i <= List.length (pformat props))%nat ->
  let patChar := Pattern.patternCharOf props in
  let fmt := pformat props in
  nth_error (Pattern.getCaretBoundary (Pattern.format numStr props) props) i
  = Some (Some (firstEmptyAt patChar fmt numStr i
                || filledSlot patChar fmt numStr i
                || match i with
                   | O => false
                   | S j => filledSlot patChar fmt numStr j
                   end
                || (Z.of_nat i =? Pattern.indexOfZ fmt patChar))).
Proof.
  intros Hnum Hmask Hfill Hi. cbv zeta.
  assert (Hfmt : Pattern.format numStr props
                 = List.concat (Pattern.fillSlots (Pattern.patternCharOf props)
                                  (mask props) numStr O (pformat props))).
  { unfold Pattern.format. destruct Hfill as [Hne | Hallow].
    - apply str_eqb_false in Hne. change (lit "") with (@nil ascii) in Hne.
      now rewrite Hne.
    - rewrite Hallow. cbn [truthy negb]. now rewrite andb_false_r. }
  rewrite Hfmt. unfold Pattern.getCaretBoundary. cbv zeta.
  pose proof (formatted_length props numStr Hmask) as Hlen. cbv zeta in Hlen.
  set (first := Pattern.indexOfZ (pformat props) (Pattern.patternCharOf props)).
  destruct (Z.eqb_spec (Z.of_nat i) first) as [Hfirst|Hfirst].
  - rewrite orb_true_r. rewrite <- (Nat2Z.id i), Hfirst.
    apply assign_same. lia.
  - rewrite orb_false_r.
    rewrite assign_inside;
      [ | rewrite boundaryLoop_length; lia
        | destruct (Z.ltb_spec first 0); [now left | right; lia] ].
    rewrite boundaryLoop_nth_value by lia.
    rewrite !Z.add_0_l.
    rewrite (firstEmptySlot_index props numStr Hnum Hmask i).
    rewrite (isPosAllowed_filled props numStr Hnum Hmask i).
    destruct i as [|j].
    + change (Z.of_nat 0 - 1) with (-1). reflexivity.
    + replace (Z.of_nat (S j) - 1) with (Z.of_nat j) by lia.
      now rewrite (isPosAllowed_filled props numStr Hnum Hmask j).
Qed.

(** Three digits typed into the phone number: the caret may stand after the
    third digit, on the first empty slot, but not on the next one. *)
Lemma pattern_caret_stands_at_filled_slots_witness :
  let formatted := @Pattern.format utilsModel (lit "415") phonePattern in
  List.length formatted = 17%nat
  /\ firstn 8 formatted = lit "+1 (415)"
  /\ nth_error (@Pattern.getCaretBoundary utilsModel formatted phonePattern) 7
     = Some (Some true)
  /\ nth_error (@Pattern.getCaretBoundary utilsModel formatted phonePattern) 9
     = Some (Some true)
  /\ nth_error (@Pattern.getCaretBoundary utilsModel formatted phonePattern) 10
     = Some (Some false).
Proof.
  cbv zeta. split; [reflexivity|]. split; [reflexivity|].
  split; [|split; reflexivity].
  refine (@pattern_caret_stands_at_filled_slots utilsModel phonePattern (lit "415") 7
            eq_refl _ _ _).
  - intros index. exists " "%char. split; reflexivity.
  - left. discriminate.
  - cbn. lia.
Defined.
